(** * data_prototype.containers: a shallow embedding of the data containers

    The development follows [src/data_prototype/containers.py].  Every
    container class becomes a module holding a record for the instance
    attributes and one function per method.  Methods that mutate [self] or
    draw a uuid return the new state next to their result; methods that can
    raise return a [Py.result].

    Numbers.  The arrays handled by the containers hold float64 values.  They
    are idealised here as exact rationals in lowest terms ([Qc]), so that
    [==] on floats is Leibniz equality; rounding, infinities and NaN are not
    represented.  Statements below are about lengths, order comparisons,
    dictionary contents and cache identity, none of which depends on
    rounding. *)

From Stdlib Require Import QArith Qcanon Lqa.
From stdpp Require Import base numbers gmap strings pretty list sorting fin_maps.

Local Open Scope Z_scope.

(** ** Python runtime: exceptions, results, the state-and-exception monad *)

Module Py.

(** The part of the builtin exception hierarchy the containers meet. *)
Inductive exc_class : Type :=
| BaseException | Exception | TypeError | ValueError | LookupError | KeyError.

Definition exc_base (c : exc_class) : option exc_class :=
  match c with
  | BaseException => None
  | Exception => Some BaseException
  | TypeError | ValueError | LookupError => Some Exception
  | KeyError => Some LookupError
  end.

Definition exc_class_eqb (c d : exc_class) : bool :=
  match c, d with
  | BaseException, BaseException | Exception, Exception
  | TypeError, TypeError | ValueError, ValueError
  | LookupError, LookupError | KeyError, KeyError => true
  | _, _ => false
  end.

(** [issubclass c d]: walk up the bases of [c]; the hierarchy has depth 4. *)
Fixpoint issubclass_upto (fuel : nat) (c d : exc_class) : bool :=
  exc_class_eqb c d ||
  match fuel, exc_base c with
  | S fuel', Some b => issubclass_upto fuel' b d
  | _, _ => false
  end.

Definition issubclass : exc_class → exc_class → bool := issubclass_upto 4.

Record exn : Type := Raise { exn_class : exc_class; exn_msg : string }.

(** [isinstance e d], what an [except d:] clause tests. *)
Definition isinstance (e : exn) (d : exc_class) : bool :=
  issubclass (exn_class e) d.

Definition result (A : Type) : Type := exn + A.

(** A method body: reads and writes a state [S], may raise.  A raise keeps
    the writes made before it, as in Python. *)
Definition M (S A : Type) : Type := S → result A * S.

Definition ret {S A} (a : A) : M S A := λ s, (inr a, s).
Definition raise {S A} (e : exn) : M S A := λ s, (inl e, s).
Definition bind {S A B} (m : M S A) (k : A → M S B) : M S B :=
  λ s, match m s with
       | (inr a, s') => k a s'
       | (inl e, s') => (inl e, s')
       end.
Definition get {S} : M S S := λ s, (inr s, s).
Definition put {S} (s : S) : M S unit := λ _, (inr tt, s).
Definition modify {S} (f : S → S) : M S unit := λ s, (inr tt, f s).
(** Run a pure fallible computation inside a method. *)
Definition lift {S A} (r : result A) : M S A := λ s, (r, s).

Definition is_ok {A} (r : result A) : bool :=
  match r with inr _ => true | inl _ => false end.

End Py.

Notation "x ←! m ;; k" := (Py.bind m (λ x, k))
  (at level 100, m at next level, right associativity,
   format "'[v' x  ←!  m  ;;  '/' k ']'").
Notation "m ;;! k" := (Py.bind m (λ _, k))
  (at level 100, right associativity).

(** ** Numbers and the numpy functions the containers call *)

Definition fz (z : Z) : Qc := Q2Qc (inject_Z z).
Definition fq (n : Z) (d : positive) : Qc := Q2Qc (n # d).

Module np.

Definition lt (a b : Qc) : bool := bool_decide (a < b)%Qc.
Definition le (a b : Qc) : bool := bool_decide (a ≤ b)%Qc.

Definition minimum (a b : Qc) : Qc := if lt a b then a else b.
Definition maximum (a b : Qc) : Qc := if lt a b then b else a.

(** [np.clip(x, lo, hi)] is [minimum(hi, maximum(x, lo))]. *)
Definition clip (x lo hi : Qc) : Qc := minimum hi (maximum x lo).

Definition empty_reduction (name : string) : Py.exn :=
  Py.Raise Py.ValueError
    ("zero-size array to reduction operation " +:+ name +:+
     " which has no identity").

(** [a.min()] and [a.max()]: a fold, [ValueError] on an empty array. *)
Definition min (a : list Qc) : Py.result Qc :=
  match a with
  | [] => inl (empty_reduction "minimum")
  | x :: xs => inr (foldl minimum x xs)
  end.

Definition max (a : list Qc) : Py.result Qc :=
  match a with
  | [] => inl (empty_reduction "maximum")
  | x :: xs => inr (foldl maximum x xs)
  end.

(** [np.linspace(start, stop, num)], endpoint included: [num] samples
    [start + i * step] with [step = (stop - start) / (num - 1)];
    a negative [num] is a [ValueError]. *)
Definition linspace (start stop : Qc) (num : Z) : Py.result (list Qc) :=
  if bool_decide (num < 0) then
    inl (Py.Raise Py.ValueError "Number of samples must be non-negative.")
  else
    let n := Z.to_nat num in
    let step := ((stop - start) / fz (num - 1))%Qc in
    inr ((λ i : nat, (start + fz (Z.of_nat i) * step)%Qc) <$> seq 0 n).

(** [np.diff] on a 1-D array. *)
Fixpoint diff {A} (sub : A → A → A) (a : list A) : list A :=
  match a with
  | x :: (y :: _) as tl => sub y x :: diff sub tl
  | _ => []
  end.

Fixpoint monotone (bins : list Qc) : bool :=
  match bins with
  | x :: (y :: _) as tl => negb (lt y x) && monotone tl
  | _ => true
  end.

(** The cumulative counts [np.histogram] takes differences of: for every
    edge but the last the number of samples strictly below it
    ([searchsorted(.., 'left')]), for the last edge the number of samples
    at or below it ([searchsorted(.., 'right')]). *)
Fixpoint cum_counts (a : list Qc) (bins : list Qc) : list Z :=
  match bins with
  | [] => []
  | [e] => [Z.of_nat (length (filter (λ x, x ≤ e)%Qc a))]
  | e :: tl => Z.of_nat (length (filter (λ x, x < e)%Qc a)) :: cum_counts a tl
  end.

Definition sum (n : list Z) : Z := foldr Z.add 0 n.

(** [np.histogram(a, bins=<array of edges>, density=True)]: returns
    [(n / db / n.sum(), bins)] and refuses edges that decrease.  A
    division by zero, which numpy answers with inf or nan and a warning,
    comes out as 0 in exact arithmetic. *)
Definition histogram (a : list Qc) (bins : list Qc)
  : Py.result (list Qc * list Qc) :=
  if monotone bins then
    let n := diff Z.sub (cum_counts a bins) in
    let db := diff Qcminus bins in
    let total := fz (sum n) in
    inr (zip_with (λ c w, (fz c / w / total)%Qc) n db, bins)
  else
    inl (Py.Raise Py.ValueError
           "`bins` must increase monotonically, when an array").

End np.

(** A numpy array as the containers see it: shape, dtype and the items in
    row-major order. *)
Record ndarray : Type := NDArray {
  nd_shape : list Z;
  nd_dtype : string;
  nd_items : list Qc;
}.

(** [np.array([...])] of floats, one-dimensional. *)
Definition array1d (items : list Qc) : ndarray :=
  NDArray [Z.of_nat (length items)] "float64" items.

(** [len(a)] of a one-dimensional array. *)
Definition len (a : ndarray) : nat := length (nd_items a).

(** ** The builtin [hash]

    Cache keys are [hash(...)] of tuples of numbers, strings and [None].
    The hash of a number is the one the language reference documents for
    all numeric types (reduction modulo the prime [2^61 - 1], with -1
    replaced by -2); the hash of a tuple is CPython's combination of its
    items' hashes in 64-bit unsigned arithmetic.  String hashes are seeded
    per process and [hash(None)] depends on the build: both are parameters. *)

Module pyhash.

#[warnings="-register-all"]
Inductive pyobj : Type :=
| PyFloat (x : Qc)
| PyInt (n : Z)
| PyStr (s : string)
| PyNone
| PyTuple (items : list pyobj).

Class Seed : Type := { hash_str : string → Z; hash_None : Z }.

(** [sys.hash_info.modulus] and [sys.hash_info.inf] *)
Definition P : Z := 2 ^ 61 - 1.
Definition hash_inf : Z := 314159.

(** [pow(b, e, m)] by squaring, [e] positive *)
Fixpoint powmod (b : Z) (e : positive) (m : Z) : Z :=
  match e with
  | xH => b mod m
  | xO e' => let r := powmod b e' m in (r * r) mod m
  | xI e' => let r := powmod b e' m in ((r * r) mod m * b) mod m
  end.

(** [hash_fraction(m, n)] of the language reference, for [m / n] in lowest
    terms. *)
Definition hash_fraction (m : Z) (n : positive) : Z :=
  let hash_value :=
    if bool_decide (Z.pos n mod P = 0) then hash_inf
    else ((Z.abs m mod P) * powmod (Z.pos n) (Z.to_pos (P - 2)) P) mod P in
  let hash_value := if bool_decide (m < 0) then - hash_value else hash_value in
  if bool_decide (hash_value = -1) then -2 else hash_value.

Definition hash_number (x : Qc) : Z := hash_fraction (Qnum x) (Qden x).

(** 64-bit unsigned arithmetic of [tuplehash] *)
Definition u64 (z : Z) : Z := z mod 2 ^ 64.
Definition XXPRIME_1 : Z := 11400714785074694791.
Definition XXPRIME_2 : Z := 14029467366897019727.
Definition XXPRIME_5 : Z := 2870177450012600261.
Definition XXROTATE (x : Z) : Z :=
  u64 (Z.lor (Z.shiftl x 31) (Z.shiftr x 33)).

Definition tuplehash_step (acc lane : Z) : Z :=
  let acc := u64 (acc + u64 lane * XXPRIME_2) in
  let acc := XXROTATE acc in
  u64 (acc * XXPRIME_1).

(** [tuplehash] on the hashes of the items; the result is read back as a
    signed 64-bit [Py_hash_t]. *)
Definition tuplehash (lanes : list Z) : Z :=
  let acc := foldl tuplehash_step XXPRIME_5 lanes in
  let acc :=
    u64 (acc + Z.lxor (Z.of_nat (length lanes)) (Z.lxor XXPRIME_5 3527539)) in
  if bool_decide (acc = 2 ^ 64 - 1) then 1546275796
  else if bool_decide (acc < 2 ^ 63) then acc else acc - 2 ^ 64.

Fixpoint hash `{Seed} (o : pyobj) : Z :=
  match o with
  | PyFloat x => hash_number x
  | PyInt n => hash_fraction n 1
  | PyStr s => hash_str s
  | PyNone => hash_None
  | PyTuple items => tuplehash (hash <$> items)
  end.

(** Hash of a tuple of two floats; no seed enters. *)
Definition hash_float_pair (a b : Qc) : Z :=
  tuplehash [hash_number a; hash_number b].

End pyhash.

(** ** [cachetools.LFUCache]

    The cache keeps, for every key, its value and a use counter that
    [__getitem__] and [__setitem__] decrement ([Counter] entries start at 0,
    so after [u] uses the counter is [-u]).  [popitem] removes the entry
    [Counter.most_common(1)] names: the first one, in insertion order, among
    those with the largest counter.  Every item has size 1. *)

Module LFUCache.

Record entry (V : Type) : Type := Entry { key : Z; value : V; counter : Z }.
Arguments Entry {V}.
Arguments key {V}.
Arguments value {V}.
Arguments counter {V}.

Record t (V : Type) : Type := Cache { maxsize : Z; entries : list (entry V) }.
Arguments Cache {V}.
Arguments maxsize {V}.
Arguments entries {V}.

Section methods.
Context {V : Type}.

Definition new (maxsize : Z) : t V := Cache maxsize [].

Definition keys (c : t V) : list Z := key <$> entries c.

Definition currsize (c : t V) : Z := Z.of_nat (length (entries c)).

(** [key in cache] *)
Definition contains (c : t V) (k : Z) : bool := bool_decide (k ∈ keys c).

Fixpoint find (k : Z) (es : list (entry V)) : option (entry V) :=
  match es with
  | [] => None
  | e :: tl => if bool_decide (key e = k) then Some e else find k tl
  end.

(** [counter[k] -= 1] *)
Definition touch (k : Z) (es : list (entry V)) : list (entry V) :=
  (λ e, if bool_decide (key e = k)
        then Entry (key e) (value e) (counter e - 1) else e) <$> es.

(** [cache[k]] *)
Definition getitem (k : Z) : Py.M (t V) V :=
  λ c, match find k (entries c) with
       | Some e => (inr (value e), Cache (maxsize c) (touch k (entries c)))
       | None => (inl (Py.Raise Py.KeyError "key"), c)
       end.

(** [max(items, key=count)]: the first item no later one beats *)
Definition most_common1 (es : list (entry V)) : option (entry V) :=
  match es with
  | [] => None
  | e :: tl =>
      Some (foldl (λ best e', if bool_decide (counter best < counter e')
                              then e' else best) e tl)
  end.

Definition remove (k : Z) (es : list (entry V)) : list (entry V) :=
  filter (λ e, key e ≠ k) es.

(** [popitem()] returns the key it removed *)
Definition popitem : Py.M (t V) Z :=
  λ c, match most_common1 (entries c) with
       | Some e => (inr (key e), Cache (maxsize c) (remove (key e) (entries c)))
       | None => (inl (Py.Raise Py.KeyError "LFUCache is empty"), c)
       end.

(** [while currsize + size > maxsize: popitem()], at most one round per
    stored entry *)
Fixpoint make_room (fuel : nat) : Py.M (t V) unit :=
  λ c, if bool_decide (currsize c + 1 > maxsize c) then
         match popitem c, fuel with
         | (inl e, c'), _ => (inl e, c')
         | (inr _, c'), S fuel' => make_room fuel' c'
         | (inr _, c'), O => (inr tt, c')
         end
       else (inr tt, c).

(** [data[k] = v]: overwrite in place, or append a new entry *)
Definition store (k : Z) (v : V) (es : list (entry V)) : list (entry V) :=
  if bool_decide (k ∈ key <$> es) then
    (λ e, if bool_decide (key e = k) then Entry k v (counter e) else e) <$> es
  else es ++ [Entry k v 0].

(** [cache[k] = v] *)
Definition setitem (k : Z) (v : V) : Py.M (t V) unit :=
  c ←! Py.get ;;
  if bool_decide (1 > maxsize c) then
    Py.raise (Py.Raise Py.ValueError "value too large")
  else
    (if contains c k then Py.ret tt else make_room (length (entries c))) ;;!
    Py.modify (λ c, Cache (maxsize c) (touch k (store k v (entries c)))).


End methods.
End LFUCache.

(** ** Descriptors and query arguments *)

Inductive dim : Type := DimInt (n : Z) | DimSym (s : string).

Record Desc : Type := mkDesc {
  shape : list dim;
  dtype_str : string;
  units : string;
}.

(** [Desc(shape, dtype)], units defaulting to "naive" *)
Definition Desc_ (shape : list dim) (dtype : string) : Desc :=
  mkDesc shape dtype "naive".

Record query_args : Type := Query {
  data_bounds : Qc * Qc * Qc * Qc;
  size : Z * Z;
  xscale : option string;
  yscale : option string;
}.

(** ** [uuid.uuid4]

    The values [str(uuid.uuid4())] yields during one run, in the order they
    are drawn; the state threaded through is the number drawn so far. *)

Module uuid.

Class Source : Type := draw : nat → string.

End uuid.

(** ** [ArrayContainer] *)

Module ArrayContainer.

Record t : Type := Build {
  _data : gmap string ndarray;
  _cache_key : string;
  _desc : gmap string Desc;
}.

(** The instance together with the uuid supply its methods draw from. *)
Record heap : Type := Heap { obj : t; drawn : nat }.

Section methods.
Context `{uuid.Source}.

Definition uuid4_str : Py.M heap string :=
  λ h, (inr (uuid.draw (drawn h)), Heap (obj h) (S (drawn h))).

Definition set_data (d : gmap string ndarray) : Py.M heap unit :=
  Py.modify (λ h, Heap (Build d (_cache_key (obj h)) (_desc (obj h))) (drawn h)).

Definition set_cache_key (k : string) : Py.M heap unit :=
  Py.modify (λ h, Heap (Build (_data (obj h)) k (_desc (obj h))) (drawn h)).

(** [__init__] on keyword arguments [data], from a supply that has given
    [n] uuids so far *)
Definition init (data : gmap string ndarray) (n : nat) : heap :=
  Heap (Build data (uuid.draw n)
          ((λ v, Desc_ (DimInt <$> nd_shape v) (nd_dtype v)) <$> data))
       (S n).

Definition query (q : query_args) : Py.M heap (gmap string ndarray * string) :=
  h ←! Py.get ;;
  Py.ret (_data (obj h), _cache_key (obj h)).

Definition describe : Py.M heap (gmap string Desc) :=
  h ←! Py.get ;;
  Py.ret (_desc (obj h)).

Definition update (data : gmap string ndarray) : Py.M heap unit :=
  h ←! Py.get ;;
  if negb (bool_decide (map_Forall (λ k _, is_Some (_data (obj h) !! k)) data))
  then Py.raise (Py.Raise Py.Exception "Can not add keys")
  else
    set_data (data ∪ _data (obj h)) ;;!
    key ←! uuid4_str ;;
    set_cache_key key.

(** What a caller can do with the instance and the uuid supply: update the
    container, or let some other code draw a uuid. *)
Inductive reachable : heap → Prop :=
| reach_init data n : reachable (init data n)
| reach_update data h : reachable h → reachable (update data h).2
| reach_draw h : reachable h → reachable (uuid4_str h).2.

End methods.
End ArrayContainer.

(** ** [FuncContainer] *)

(** [dict] called on three unpacked mappings: a name given twice is a
    [TypeError]. *)
Definition dict_kwargs3 {V} (a b c : gmap string V) : Py.result (gmap string V) :=
  if bool_decide (a ##ₘ b ∧ a ##ₘ c ∧ b ##ₘ c)
  then inr (a ∪ b ∪ c)
  else inl (Py.Raise Py.TypeError
              "dict() got multiple values for keyword argument").

(** Run a method of an attribute inside a method of the object that holds it. *)
Definition zoom {S T A} (proj : S → T) (inj : T → S → S) (m : Py.M T A)
  : Py.M S A :=
  λ s, let '(r, t') := m (proj s) in (r, inj t' s).

Module FuncContainer.

Definition xfunc : Type := ndarray → ndarray.
Definition xyfunc : Type := ndarray → ndarray → ndarray.

Record t : Type := Build {
  _desc : gmap string Desc;
  _xfuncs : gmap string xfunc;
  _yfuncs : gmap string xfunc;
  _xyfuncs : gmap string xyfunc;
  _cache : LFUCache.t (gmap string ndarray);
}.

Definition with_cache (c : LFUCache.t (gmap string ndarray)) (self : t) : t :=
  Build (_desc self) (_xfuncs self) (_yfuncs self) (_xyfuncs self) c.

Definition on_cache {A} (m : Py.M (LFUCache.t (gmap string ndarray)) A)
  : Py.M t A := zoom _cache with_cache m.

(** [_split]: the descriptors of one group of functions, and the functions *)
Definition split_desc {Fn} (input_dict : gmap string (list dim * Fn))
  : gmap string Desc := (λ sf, Desc_ sf.1 "float64") <$> input_dict.
Definition split_funcs {Fn} (input_dict : gmap string (list dim * Fn))
  : gmap string Fn := snd <$> input_dict.

(** [__init__]: a later group overwrites the descriptor of an earlier one *)
Definition init (xfuncs yfuncs : option (gmap string (list dim * xfunc)))
    (xyfuncs : option (gmap string (list dim * xyfunc))) : t :=
  let x := default ∅ xfuncs in
  let y := default ∅ yfuncs in
  let xy := default ∅ xyfuncs in
  Build (split_desc xy ∪ (split_desc y ∪ split_desc x))
        (split_funcs x) (split_funcs y) (split_funcs xy)
        (LFUCache.new 64).

Section methods.
Context `{pyhash.Seed}.

Definition py_opt_str (s : option string) : pyhash.pyobj :=
  match s with Some s => pyhash.PyStr s | None => pyhash.PyNone end.

(** [hash((data_bounds, size, xscale, yscale))] *)
Definition hash_query (q : query_args) : Z :=
  let '(xmin, xmax, ymin, ymax) := data_bounds q in
  let '(xpix, ypix) := size q in
  pyhash.hash
    (pyhash.PyTuple
       [pyhash.PyTuple [pyhash.PyFloat xmin; pyhash.PyFloat xmax;
                        pyhash.PyFloat ymin; pyhash.PyFloat ymax];
        pyhash.PyTuple [pyhash.PyInt xpix; pyhash.PyInt ypix];
        py_opt_str (xscale q); py_opt_str (yscale q)]).

(** The sampling a cache miss performs *)
Definition sample (self : t) (q : query_args) : Py.result (gmap string ndarray) :=
  let '(xmin, xmax, ymin, ymax) := data_bounds q in
  let '(xpix, ypix) := size q in
  match np.linspace xmin xmax (xpix * 2) with
  | inl e => inl e
  | inr x_data =>
      match np.linspace ymin ymax (ypix * 2) with
      | inl e => inl e
      | inr y_data =>
          let x_data := array1d x_data in
          let y_data := array1d y_data in
          dict_kwargs3 ((λ f, f x_data) <$> _xfuncs self)
                       ((λ f, f y_data) <$> _yfuncs self)
                       ((λ f, f x_data y_data) <$> _xyfuncs self)
      end
  end.

Definition query (q : query_args) : Py.M t (gmap string ndarray * Z) :=
  self ←! Py.get ;;
  let hash_key := hash_query q in
  if LFUCache.contains (_cache self) hash_key then
    v ←! on_cache (LFUCache.getitem hash_key) ;;
    Py.ret (v, hash_key)
  else
    ret ←! Py.lift (sample self q) ;;
    on_cache (LFUCache.setitem hash_key ret) ;;!
    Py.ret (ret, hash_key).

Definition describe : Py.M t (gmap string Desc) :=
  self ←! Py.get ;;
  Py.ret (_desc self).

(** The container after a sequence of [query] calls, raised or not *)
Definition run (qs : list query_args) (self : t) : t :=
  foldl (λ s q, (query q s).2) self qs.

End methods.
End FuncContainer.

(** ** [HistContainer] *)

Module HistContainer.

Record t : Type := Build {
  _raw_data : list Qc;
  _num_bins : Z;
  _desc : gmap string Desc;
  _full_range : Qc * Qc;
  _cache : LFUCache.t (gmap string ndarray);
}.

Definition with_cache (c : LFUCache.t (gmap string ndarray)) (self : t) : t :=
  Build (_raw_data self) (_num_bins self) (_desc self) (_full_range self) c.

Definition on_cache {A} (m : Py.M (LFUCache.t (gmap string ndarray)) A)
  : Py.M t A := zoom _cache with_cache m.

(** [__init__]: [raw_data.min()] raises on an empty sample *)
Definition init (raw_data : list Qc) (num_bins : Z) : Py.result t :=
  let desc : gmap string Desc :=
    <["density" := Desc_ [DimInt (num_bins + 2)] "float64"]>
      (<["edges" := Desc_ [DimInt (num_bins + 1 + 2)] "float64"]> ∅) in
  match np.min raw_data with
  | inl e => inl e
  | inr dmin =>
      match np.max raw_data with
      | inl e => inl e
      | inr dmax =>
          inr (Build raw_data num_bins desc (dmin, dmax) (LFUCache.new 64))
      end
  end.

(** [xmin, xmax = np.clip([xmin, xmax], dmin, dmax)] *)
Definition clamped (self : t) (q : query_args) : Qc * Qc :=
  let '(dmin, dmax) := _full_range self in
  let '(xmin, xmax, _, _) := data_bounds q in
  (np.clip xmin dmin dmax, np.clip xmax dmin dmax).

(** [hash((xmin, xmax))] on the clamped pair *)
Definition hash_key (self : t) (q : query_args) : Z :=
  let '(xmin, xmax) := clamped self q in pyhash.hash_float_pair xmin xmax.

(** The list [edges_in] once the three appends have run; [lin] is what
    [np.linspace] returned *)
Definition edges_in (dmin dmax xmin xmax : Qc) (lin : list Qc)
  : list (list Qc) :=
  let edges_in := [] in
  let edges_in := if np.lt dmin xmin then edges_in ++ [[dmin]] else edges_in in
  let edges_in := edges_in ++ [lin] in
  let edges_in := if np.lt xmax dmax then edges_in ++ [[dmax]] else edges_in in
  edges_in.

(** The re-binning a cache miss performs, on the clamped window *)
Definition rebin (self : t) (xmin xmax : Qc) : Py.result (gmap string ndarray) :=
  let '(dmin, dmax) := _full_range self in
  match np.linspace xmin xmax (_num_bins self) with
  | inl e => inl e
  | inr lin =>
      match np.histogram (_raw_data self)
                         (concat (edges_in dmin dmax xmin xmax lin)) with
      | inl e => inl e
      | inr (density, edges) =>
          inr (<["density" := array1d density]>
                 (<["edges" := array1d edges]> ∅))
      end
  end.

Definition query (q : query_args) : Py.M t (gmap string ndarray * Z) :=
  self ←! Py.get ;;
  let '(xmin, xmax) := clamped self q in
  let hash_key := pyhash.hash_float_pair xmin xmax in
  if LFUCache.contains (_cache self) hash_key then
    v ←! on_cache (LFUCache.getitem hash_key) ;;
    Py.ret (v, hash_key)
  else
    ret ←! Py.lift (rebin self xmin xmax) ;;
    on_cache (LFUCache.setitem hash_key ret) ;;!
    Py.ret (ret, hash_key).

Definition describe : Py.M t (gmap string Desc) :=
  self ←! Py.get ;;
  Py.ret (_desc self).

(** The container after a sequence of [query] calls, raised or not *)
Definition run (qs : list query_args) (self : t) : t :=
  foldl (λ s q, (query q s).2) self qs.

End HistContainer.

(** ** Tabular adapters *)

(** A [pd.Series]: the values of its index, its own values *)
Record Series : Type := mkSeries {
  s_index : ndarray;
  s_values : ndarray;
}.

(** A [pd.DataFrame]: the values of its index and its labelled columns *)
Record DataFrame : Type := mkDataFrame {
  df_index : ndarray;
  df_columns : list (string * ndarray);
}.

(** [df[col]]: the column with that label, [KeyError] when there is none *)
Fixpoint df_getitem (cols : list (string * ndarray)) (col : string)
  : Py.result ndarray :=
  match cols with
  | [] => inl (Py.Raise Py.KeyError col)
  | (k, v) :: tl => if bool_decide (k = col) then inr v else df_getitem tl col
  end.

(** [d[k] = v] on a dict whose iteration order matters: overwrite in place
    or append *)
Fixpoint odict_set {V} (k : string) (v : V) (d : list (string * V))
  : list (string * V) :=
  match d with
  | [] => [(k, v)]
  | (k', v') :: tl =>
      if bool_decide (k' = k) then (k, v) :: tl else (k', v') :: odict_set k v tl
  end.

Module SeriesContainer.

Record t : Type := Build {
  _data : Series;
  _index_name : string;
  _col_name : string;
  _desc : gmap string Desc;
  _hash_key : string;
}.

Section methods.
Context `{uuid.Source}.

(** [__init__(series, index_name=.., col_name=..)], from a supply that has
    given [n] uuids; returns the instance and the new count *)
Definition init (series : Series) (index_name col_name : string) (n : nat)
  : t * nat :=
  let rows := [DimInt (Z.of_nat (len (s_values series)))] in
  (Build series index_name col_name
     (<[col_name := Desc_ rows (nd_dtype (s_values series))]>
        (<[index_name := Desc_ rows (nd_dtype (s_index series))]> ∅))
     (uuid.draw n),
   S n).

End methods.

(** The dict display [{index_name: .., col_name: ..}] keeps the later value
    when the two names coincide. *)
Definition query (q : query_args) : Py.M t (gmap string ndarray * string) :=
  self ←! Py.get ;;
  Py.ret (<[_col_name self := s_values (_data self)]>
            (<[_index_name self := s_index (_data self)]> ∅),
          _hash_key self).

Definition describe : Py.M t (gmap string Desc) :=
  self ←! Py.get ;;
  Py.ret (_desc self).

End SeriesContainer.

Module DataFrameContainer.

(** The [col_names] argument: a renaming function or a dict *)
Inductive col_names_arg : Type :=
| ByCallable (f : string → string)
| ByDict (d : list (string * string)).

Record t : Type := Build {
  _data : DataFrame;
  _index_name : option string;
  _col_name_dict : list (string * string);
  _desc : gmap string Desc;
  _hash_key : string;
}.

(** [for col, out in items: acc[out] = f(df[col])], stopping at the first
    missing column *)
Fixpoint collect {V} (df : DataFrame) (f : ndarray → V)
    (items : list (string * string)) (acc : gmap string V)
  : Py.result (gmap string V) :=
  match items with
  | [] => inr acc
  | (col, out) :: tl =>
      match df_getitem (df_columns df) col with
      | inl e => inl e
      | inr v => collect df f tl (<[out := f v]> acc)
      end
  end.

Section methods.
Context `{uuid.Source}.

Definition init (df : DataFrame) (col_names : col_names_arg)
    (index_name : option string) (n : nat) : Py.result t * nat :=
  let col_name_dict :=
    match col_names with
    | ByCallable f =>
        foldl (λ d k, odict_set k (f k) d) [] (fst <$> df_columns df)
    | ByDict d => d
    end in
  let rows := [DimInt (Z.of_nat (len (df_index df)))] in
  let desc : gmap string Desc :=
    match index_name with
    | Some name => <[name := Desc_ rows (nd_dtype (df_index df))]> ∅
    | None => ∅
    end in
  match collect df (λ v, Desc_ rows (nd_dtype v)) col_name_dict desc with
  | inl e => (inl e, n)
  | inr desc =>
      (inr (Build df index_name col_name_dict desc (uuid.draw n)), S n)
  end.

End methods.

Definition query (q : query_args) : Py.M t (gmap string ndarray * string) :=
  self ←! Py.get ;;
  let ret : gmap string ndarray :=
    match _index_name self with
    | Some name => <[name := df_index (_data self)]> ∅
    | None => ∅
    end in
  ret ←! Py.lift (collect (_data self) id (_col_name_dict self) ret) ;;
  Py.ret (ret, _hash_key self).

Definition describe : Py.M t (gmap string Desc) :=
  self ←! Py.get ;;
  Py.ret (_desc self).

End DataFrameContainer.

(** ** [WebServiceContainer] *)

Module WebServiceContainer.

(** The values the stub handles; a dict keeps its items in insertion order *)
#[warnings="-register-all"]
Inductive value : Type :=
| VNone
| VStr (s : string)
| VDict (d : list (string * ndarray))
| VTuple (items : list value).

(** [a, b = o]: only an iterable of exactly two items unpacks *)
Definition unpack2 (o : value) : Py.result (value * value) :=
  match o with
  | VTuple [a; b] => inr (a, b)
  | VTuple (_ :: _ :: _ :: _) =>
      inl (Py.Raise Py.ValueError "too many values to unpack (expected 2)")
  | VTuple _ =>
      inl (Py.Raise Py.ValueError "not enough values to unpack (expected 2)")
  | VStr s =>
      match String.list_ascii_of_string s with
      | [a; b] => inr (VStr (String a EmptyString), VStr (String b EmptyString))
      | _ :: _ :: _ :: _ =>
          inl (Py.Raise Py.ValueError "too many values to unpack (expected 2)")
      | _ =>
          inl (Py.Raise Py.ValueError "not enough values to unpack (expected 2)")
      end
  | VDict d =>
      match fst <$> d with
      | [a; b] => inr (VStr a, VStr b)
      | _ :: _ :: _ :: _ =>
          inl (Py.Raise Py.ValueError "too many values to unpack (expected 2)")
      | _ =>
          inl (Py.Raise Py.ValueError "not enough values to unpack (expected 2)")
      end
  | VNone =>
      inl (Py.Raise Py.TypeError "cannot unpack non-iterable NoneType object")
  end.

(** The nested function: its body is the expression statement [{}, "1"]
    and no [return], so a call evaluates the tuple, drops it and yields
    [None]. *)
Definition hit_some_database (_ : unit) : value :=
  let _ := VTuple [VDict []; VStr "1"] in
  VNone.

(** [data, etag = hit_some_database(); return data, etag] *)
Definition query (q : query_args) : Py.result (value * value) :=
  match unpack2 (hit_some_database tt) with
  | inl e => inl e
  | inr (data, etag) => inr (data, etag)
  end.

End WebServiceContainer.

(** ** Accessors and sample environments used by the closed examples *)

(** The array a successful query returned under [name] *)
Definition field {K} (name : string) (r : Py.result (gmap string ndarray * K))
  : option ndarray :=
  match r with
  | inr (values, _) => values !! name
  | inl _ => None
  end.

Definition cache_key {V K} (r : Py.result (V * K)) : option K :=
  match r with
  | inr (_, k) => Some k
  | inl _ => None
  end.

(** A uuid supply that never repeats, and a hash seed, for examples *)
Definition example_uuids : uuid.Source := λ n, pretty n.
Definition example_seed : pyhash.Seed :=
  {| pyhash.hash_str := λ s, Z.of_nat (String.length s);
     pyhash.hash_None := 0 |}.

(** ** Vocabulary of the statements *)

(** Every name of [data] is stored: the test [update] makes *)
Definition known_names (h : ArrayContainer.heap) (data : gmap string ndarray)
  : Prop :=
  map_Forall (λ k _, is_Some (ArrayContainer._data (ArrayContainer.obj h) !! k))
             data.

(** What every reachable state satisfies: [describe()] names exactly the
    stored names, and the key is one of the uuids drawn so far. *)
Definition array_inv `{uuid.Source} (h : ArrayContainer.heap) : Prop :=
  dom (ArrayContainer._desc (ArrayContainer.obj h))
  = dom (ArrayContainer._data (ArrayContainer.obj h)) ∧
  ∃ i, (i < ArrayContainer.drawn h)%nat ∧
       ArrayContainer._cache_key (ArrayContainer.obj h) = uuid.draw i.

(** Capacity 64, no more entries than that, no key stored twice *)
Definition cache_ok {V} (c : LFUCache.t V) : Prop :=
  LFUCache.maxsize c = 64 ∧
  (length (LFUCache.entries c) ≤ 64)%nat ∧
  NoDup (LFUCache.keys c).

(** The body shared by [FuncContainer.query] and [HistContainer.query], seen
    from the cache: answer from the cache when the key is there, otherwise
    store what was computed, unless the computation raised. *)
Definition memo {V} (k : Z) (computed : Py.result V)
  : Py.M (LFUCache.t V) (V * Z) :=
  λ c, if LFUCache.contains c k then
         (v ←! LFUCache.getitem k ;; Py.ret (v, k)) c
       else
         (ret ←! Py.lift computed ;;
          LFUCache.setitem k ret ;;!
          Py.ret (ret, k)) c.

(** What [query] computes for [q] when it does not answer from the cache *)
Definition computed (self : HistContainer.t) (q : query_args)
  : Py.result (gmap string ndarray) :=
  HistContainer.rebin self (HistContainer.clamped self q).1
                           (HistContainer.clamped self q).2.

(** The result of [query] when it is worked out for [q] itself *)
Definition own_answer (self : HistContainer.t) (q : query_args)
  : Py.result (gmap string ndarray * Z) :=
  match computed self q with
  | inl e => inl e
  | inr values => inr (values, HistContainer.hash_key self q)
  end.

(** The sample, the bin count, the range and the descriptors: what [query]
    never writes *)
Definition same_sample (a b : HistContainer.t) : Prop :=
  HistContainer._raw_data a = HistContainer._raw_data b ∧
  HistContainer._num_bins a = HistContainer._num_bins b ∧
  HistContainer._full_range a = HistContainer._full_range b ∧
  HistContainer._desc a = HistContainer._desc b.

(** No earlier query had the hash key of [q] with another clamped window. *)
Definition no_collision (self : HistContainer.t) (earlier : list query_args)
    (q : query_args) : Prop :=
  ∀ q', q' ∈ earlier →
        HistContainer.hash_key self q' = HistContainer.hash_key self q →
        HistContainer.clamped self q' = HistContainer.clamped self q.

(** The leading and the trailing overflow edge *)
Definition edge_below (dmin xmin : Qc) : list Qc :=
  if np.lt dmin xmin then [dmin] else [].
Definition edge_above (xmax dmax : Qc) : list Qc :=
  if np.lt xmax dmax then [dmax] else [].

(** What holds of a container that has answered the queries [seen] since
    [c0] was built: same sample, a sound cache, and every cached value is
    what some query of [seen] with that key computed. *)
Definition hist_inv (c0 : HistContainer.t) (seen : list query_args)
    (c : HistContainer.t) : Prop :=
  same_sample c c0 ∧
  cache_ok (HistContainer._cache c) ∧
  ∀ e, e ∈ LFUCache.entries (HistContainer._cache c) →
       ∃ q', q' ∈ seen ∧
             LFUCache.key e = HistContainer.hash_key c0 q' ∧
             computed c0 q' = inr (LFUCache.value e).

(** ** Sample inputs for the closed examples *)

(** The items of an array as plain fractions, for the examples *)
Definition rationals (a : ndarray) : list Q := this <$> nd_items a.

Definition example_xfuncs : gmap string (list dim * FuncContainer.xfunc) :=
  {[ "y" := ([DimSym "N"], λ x : ndarray, x) ]}.
Definition example_pan (i : Z) : query_args :=
  Query (fz i, fz (i + 1), fz 0, fz 1) (2, 2) None None.

(** Four samples 0..3 and three bins, as [__init__] builds the container *)
Definition example_hist : HistContainer.t :=
  HistContainer.Build (fz <$> [0; 1; 2; 3]) 3
    (<["density" := Desc_ [DimInt (3 + 2)] "float64"]>
       (<["edges" := Desc_ [DimInt (3 + 1 + 2)] "float64"]> ∅))
    (fz 0, fz 3) (LFUCache.new 64).

Definition example_window (a b : Z) : query_args :=
  Query (fz a, fz b, fz 0, fz 1) (640, 480) None None.

(** The sample -2, 0, 3 with five bins, as [__init__] builds the container;
    63 windows inside its range, each asked for twice in a row *)
Definition example_hist5 : HistContainer.t :=
  HistContainer.Build (fz <$> [-2; 0; 3]) 5
    (<["density" := Desc_ [DimInt (5 + 2)] "float64"]>
       (<["edges" := Desc_ [DimInt (5 + 1 + 2)] "float64"]> ∅))
    (fz (-2), fz 3) (LFUCache.new 64).
Definition example_zoom (i : Z) : query_args :=
  Query (fq i 100, fz 3, fz 0, fz 1) (640, 480) None None.
Definition example_zooms : list query_args :=
  seqZ 1 63 ≫= λ i, [example_zoom i; example_zoom i].

Definition example_series : Series :=
  mkSeries (array1d [fz 10; fz 20]) (array1d [fz 1; fz 4]).
Definition example_df : DataFrame :=
  mkDataFrame (array1d [fz 10; fz 20])
    [("a", array1d [fz 1; fz 4]); ("b", array1d [fz 2; fz 5])].
Definition example_dfc : DataFrameContainer.t :=
  DataFrameContainer.Build example_df (Some "t") [("a", "x"); ("b", "y")]
    (<["y" := Desc_ [DimInt 2] "float64"]>
       (<["x" := Desc_ [DimInt 2] "float64"]>
          (<["t" := Desc_ [DimInt 2] "float64"]> ∅)))
    (example_uuids 0%nat).

(** ** [RandomContainer] *)

Module RandomContainer.

(** What a caller may pass as the shape of a name; [Desc] stores it
    unchecked. *)
Inductive shape_arg : Type :=
| ShapeInt (n : Z)
| ShapeList (dims : list dim)
| ShapeStr (s : string).

(** [Desc(s, np.dtype(float))] *)
Record desc : Type := mkDesc {
  shape : shape_arg;
  dtype_str : string;
  units : string;
}.

(** The keyword arguments arrive, and are kept, in call order. *)
Record t : Type := Build { _desc : list (string * desc) }.

(** The values [np.random.randn] and [uuid.uuid4] have handed out so far *)
Record world : Type := World { normals : nat; uuids : nat }.

(** The stream of standard normal values of one run *)
Class Normal : Type := normal_draw : nat → Qc.

Definition init (shapes : list (string * shape_arg)) : t :=
  Build ((λ ks, (ks.1, mkDesc ks.2 "float64" "naive")) <$> shapes).

Section methods.
Context `{Normal} `{uuid.Source}.

(** [np.random.randn(s)]: [s] must be one integer, and not negative *)
Definition randn (s : shape_arg) : Py.M world ndarray :=
  match s with
  | ShapeInt n =>
      if bool_decide (n < 0) then
        Py.raise (Py.Raise Py.ValueError "negative dimensions are not allowed")
      else
        λ w, (inr (array1d (normal_draw <$> seq (normals w) (Z.to_nat n))),
              World (normals w + Z.to_nat n) (uuids w))
  | ShapeList _ =>
      Py.raise (Py.Raise Py.TypeError
                  "'list' object cannot be interpreted as an integer")
  | ShapeStr _ =>
      Py.raise (Py.Raise Py.TypeError
                  "'str' object cannot be interpreted as an integer")
  end.

Definition uuid4_str : Py.M world string :=
  λ w, (inr (uuid.draw (uuids w)), World (normals w) (S (uuids w))).

(** [{k: np.random.randn(d.shape) for k, d in items}] *)
Fixpoint draw_all (items : list (string * desc)) (acc : gmap string ndarray)
  : Py.M world (gmap string ndarray) :=
  match items with
  | [] => Py.ret acc
  | (k, d) :: tl =>
      v ←! randn (shape d) ;;
      draw_all tl (<[k := v]> acc)
  end.

Definition query (self : t) (q : query_args)
  : Py.M world (gmap string ndarray * string) :=
  values ←! draw_all (_desc self) ∅ ;;
  key ←! uuid4_str ;;
  Py.ret (values, key).

Definition describe (self : t) : list (string * desc) := _desc self.

End methods.
End RandomContainer.

(** ** [examples/mapped.py]: the converter functions of the line and the
    category each line is given *)

Module mapped.

(** ["lw": lambda lw: min(1 + lw, 5)] *)
Definition lw (lw : Z) : Z := Z.min (1 + lw) 5.

(** [{0: "A", 1: "B", 2: "C"}[j % 3]] *)
Definition cat (j : Z) : Py.result string :=
  let r := j mod 3 in
  if bool_decide (r = 0) then inr "A"
  else if bool_decide (r = 1) then inr "B"
  else if bool_decide (r = 2) then inr "C"
  else inl (Py.Raise Py.KeyError (pretty r)).

(** ["ls": lambda cat: {"A": "-", "B": ":", "C": "--"}[cat[()]]] *)
Definition ls (cat : string) : Py.result string :=
  if bool_decide (cat = "A") then inr "-"
  else if bool_decide (cat = "B") then inr ":"
  else if bool_decide (cat = "C") then inr "--"
  else inl (Py.Raise Py.KeyError cat).

End mapped.

(** ** Further vocabulary *)

(** The functions and descriptors of a [FuncContainer]: what [query] never
    writes *)
Definition same_funcs (a b : FuncContainer.t) : Prop :=
  FuncContainer._desc a = FuncContainer._desc b ∧
  FuncContainer._xfuncs a = FuncContainer._xfuncs b ∧
  FuncContainer._yfuncs a = FuncContainer._yfuncs b ∧
  FuncContainer._xyfuncs a = FuncContainer._xyfuncs b.

(** The names of the three groups are pairwise distinct. *)
Definition distinct_groups (self : FuncContainer.t) : Prop :=
  ∀ k, (is_Some (FuncContainer._xfuncs self !! k) →
        FuncContainer._yfuncs self !! k = None ∧
        FuncContainer._xyfuncs self !! k = None) ∧
       (is_Some (FuncContainer._yfuncs self !! k) →
        FuncContainer._xyfuncs self !! k = None).

(** What holds of a [FuncContainer] that has answered queries since [c0]
    was built: same functions, a sound cache, and every cached value is
    what sampling some query returned. *)
Definition func_inv `{pyhash.Seed} (c0 c : FuncContainer.t) : Prop :=
  same_funcs c c0 ∧
  cache_ok (FuncContainer._cache c) ∧
  ∀ e, e ∈ LFUCache.entries (FuncContainer._cache c) →
       ∃ q', LFUCache.key e = FuncContainer.hash_query q' ∧
             FuncContainer.sample c0 q' = inr (LFUCache.value e).

(** [sum(density * np.diff(edges))]: the area under the histogram *)
Definition area (density edges : list Qc) : Qc :=
  foldr Qcplus (fz 0) (zip_with Qcmult density (np.diff Qcminus edges)).

(** ** Further sample inputs *)

(** The x functions of the examples and one y function *)
Definition example_funcs : FuncContainer.t :=
  FuncContainer.init (Some example_xfuncs)
    (Some {[ "z" := ([DimSym "M"], λ y : ndarray, y) ]}) None.

(** A stream of values standing for the draws of [np.random.randn] *)
Definition example_normals : RandomContainer.Normal := λ i, fq (Z.of_nat i) 7.

(** * Facts *)

(** ** The monad *)

Lemma bind_inr {S A B} (m : Py.M S A) (k : A → Py.M S B) s a s' :
  m s = (inr a, s') → Py.bind m k s = k a s'.
Proof. unfold Py.bind. by intros ->. Qed.

Lemma bind_inl {S A B} (m : Py.M S A) (k : A → Py.M S B) s e s' :
  m s = (inl e, s') → Py.bind m k s = (inl e, s').
Proof. unfold Py.bind. by intros ->. Qed.

(** ** [LFUCache] *)

Section lfu_facts.
Context {V : Type}.
Implicit Types (es : list (LFUCache.entry V)) (c : LFUCache.t V).
Implicit Types (e : LFUCache.entry V) (k : Z).

Lemma most_common_fold es best :
  let pick := λ b e', if bool_decide (LFUCache.counter b < LFUCache.counter e')
                      then e' else b in
  let r := foldl pick best es in
  (r = best ∨ r ∈ es) ∧
  LFUCache.counter best ≤ LFUCache.counter r ∧
  ∀ e', e' ∈ es → LFUCache.counter e' ≤ LFUCache.counter r.
Proof.
  cbv zeta. revert best. induction es as [|x es IH]; intros best; simpl.
  - split; [by left|]. split; [lia|]. intros e' Hin. by apply elem_of_nil in Hin.
  - destruct (IH (if bool_decide (LFUCache.counter best < LFUCache.counter x)
                  then x else best)) as (Hr & Hle & Hall).
    case_bool_decide as Hlt.
    + split; [|split].
      * right. destruct Hr as [->|Hr]; [left|by right].
      * lia.
      * intros e' [->|Hin]%elem_of_cons; [done|by apply Hall].
    + split; [|split].
      * destruct Hr as [->|Hr]; [by left|right; by right].
      * done.
      * intros e' [->|Hin]%elem_of_cons; [lia|by apply Hall].
Qed.

Lemma most_common1_elem es e :
  LFUCache.most_common1 es = Some e → e ∈ es.
Proof.
  destruct es as [|x es]; [done|]. simpl. intros [= <-].
  destruct (most_common_fold es x) as ([->|Hin] & _); [left|by right].
Qed.


Lemma most_common1_is_Some es : es ≠ [] → is_Some (LFUCache.most_common1 es).
Proof. destruct es; [done|]. simpl. eauto. Qed.

Lemma remove_length_lt es e :
  e ∈ es → (length (LFUCache.remove (LFUCache.key e) es) < length es)%nat.
Proof.
  intros Hin. unfold LFUCache.remove.
  apply (length_filter_lt _ _ e); [done|]. intros Hne. by apply Hne.
Qed.

Lemma remove_elem es k e : e ∈ LFUCache.remove k es → e ∈ es.
Proof. unfold LFUCache.remove. rewrite list_elem_of_filter. tauto. Qed.

Lemma touch_length k es : length (LFUCache.touch k es) = length es.
Proof. unfold LFUCache.touch. apply length_fmap. Qed.

Lemma touch_keys k es :
  LFUCache.key <$> LFUCache.touch k es = LFUCache.key <$> es.
Proof.
  unfold LFUCache.touch. induction es as [|x es IH]; [done|].
  csimpl. rewrite IH. f_equal. by case_bool_decide.
Qed.

Lemma touch_absent k es : k ∉ LFUCache.key <$> es → LFUCache.touch k es = es.
Proof.
  unfold LFUCache.touch. induction es as [|x es IH]; [done|].
  csimpl. rewrite not_elem_of_cons. intros [Hne Hnin].
  rewrite IH by done. f_equal.
  case_bool_decide; [congruence|done].
Qed.

Lemma find_Some k es e :
  LFUCache.find k es = Some e → e ∈ es ∧ LFUCache.key e = k.
Proof.
  induction es as [|x es IH]; [done|]. simpl.
  case_bool_decide as Hk.
  - intros [= <-]. split; [left|done].
  - intros [Hin ?]%IH. split; [by right|done].
Qed.

Lemma find_is_Some k es : k ∈ LFUCache.key <$> es → is_Some (LFUCache.find k es).
Proof.
  induction es as [|x es IH]; [by intros ?%elem_of_nil|].
  csimpl. rewrite elem_of_cons. intros [->|Hin].
  - rewrite bool_decide_eq_true_2 by done. eauto.
  - case_bool_decide; eauto.
Qed.

Lemma find_None k es : k ∉ LFUCache.key <$> es → LFUCache.find k es = None.
Proof.
  induction es as [|x es IH]; [done|].
  csimpl. rewrite not_elem_of_cons. intros [Hne Hnin].
  case_bool_decide; [congruence|by apply IH].
Qed.

Lemma find_touch k es e :
  LFUCache.find k es = Some e →
  LFUCache.find k (LFUCache.touch k es)
  = Some (LFUCache.Entry (LFUCache.key e) (LFUCache.value e)
                         (LFUCache.counter e - 1)).
Proof.
  unfold LFUCache.touch. induction es as [|x es IH]; [done|].
  csimpl. case_bool_decide as Hk.
  - intros [= <-]. simpl. by rewrite bool_decide_eq_true_2.
  - intros Hf. rewrite bool_decide_eq_false_2 by done. by apply IH.
Qed.

Lemma find_app_new k es v n :
  k ∉ LFUCache.key <$> es →
  LFUCache.find k (es ++ [LFUCache.Entry k v n]) = Some (LFUCache.Entry k v n).
Proof.
  induction es as [|x es IH]; simpl.
  - intros _. by rewrite bool_decide_eq_true_2.
  - csimpl. rewrite not_elem_of_cons. intros [Hne Hnin].
    case_bool_decide; [congruence|by apply IH].
Qed.

Lemma make_room_room fuel c :
  LFUCache.currsize c + 1 ≤ LFUCache.maxsize c →
  LFUCache.make_room fuel c = (inr tt, c).
Proof.
  intros Hroom. destruct fuel; simpl; by rewrite bool_decide_eq_false_2 by lia.
Qed.

Lemma make_room_full fuel c victim :
  LFUCache.currsize c + 1 > LFUCache.maxsize c →
  LFUCache.most_common1 (LFUCache.entries c) = Some victim →
  LFUCache.make_room (S fuel) c
  = LFUCache.make_room fuel
      (LFUCache.Cache (LFUCache.maxsize c)
         (LFUCache.remove (LFUCache.key victim) (LFUCache.entries c))).
Proof.
  intros Hfull Hv. simpl. rewrite bool_decide_eq_true_2 by done.
  unfold LFUCache.popitem. by rewrite Hv.
Qed.

(** The eviction loop stops with room for one more item; it drops nothing
    when there is room already, and exactly the least used entry when the
    cache is full. *)
Lemma make_room_spec fuel c :
  1 ≤ LFUCache.maxsize c →
  (length (LFUCache.entries c) ≤ fuel)%nat →
  ∃ c', LFUCache.make_room fuel c = (inr tt, c') ∧
        LFUCache.maxsize c' = LFUCache.maxsize c ∧
        LFUCache.currsize c' + 1 ≤ LFUCache.maxsize c ∧
        (∀ e, e ∈ LFUCache.entries c' → e ∈ LFUCache.entries c) ∧
        (LFUCache.currsize c + 1 ≤ LFUCache.maxsize c → c' = c) ∧
        (LFUCache.currsize c = LFUCache.maxsize c →
         ∃ victim, LFUCache.most_common1 (LFUCache.entries c) = Some victim ∧
                   LFUCache.entries c'
                   = LFUCache.remove (LFUCache.key victim) (LFUCache.entries c)).
Proof.
  revert c. induction fuel as [|fuel IH]; intros c Hmax Hfuel.
  - assert (Hroom : LFUCache.currsize c + 1 ≤ LFUCache.maxsize c)
      by (unfold LFUCache.currsize; lia).
    exists c. rewrite make_room_room by done.
    repeat split; try done. lia.
  - destruct (decide (LFUCache.currsize c + 1 ≤ LFUCache.maxsize c)) as [Hroom|Hfull].
    { exists c. rewrite make_room_room by done. repeat split; try done. lia. }
    assert (Hne : LFUCache.entries c ≠ []).
    { intros Hnil. unfold LFUCache.currsize in Hfull. rewrite Hnil in Hfull.
      simpl in Hfull. lia. }
    destruct (most_common1_is_Some _ Hne) as [victim Hv].
    pose proof (most_common1_elem _ _ Hv) as Hin.
    pose proof (remove_length_lt _ _ Hin) as Hlt.
    rewrite (make_room_full fuel c victim) by (done || lia).
    destruct (IH (LFUCache.Cache (LFUCache.maxsize c)
                    (LFUCache.remove (LFUCache.key victim) (LFUCache.entries c))))
      as (c' & Hrun & Hm & Hsz & Hsub & Hsame & _); [done|simpl; lia|].
    simpl in Hm, Hsz, Hsub.
    exists c'. split; [done|]. split; [done|]. split; [done|].
    split; [|split].
    + intros e He. eapply remove_elem, Hsub, He.
    + lia.
    + intros Heq. exists victim. split; [done|]. rewrite Hsame; [done|].
      unfold LFUCache.currsize in *. simpl. lia.
Qed.

(** [cache[k] = v] for a key that is not cached *)
Lemma setitem_new k v c :
  1 ≤ LFUCache.maxsize c →
  LFUCache.contains c k = false →
  ∃ kept, LFUCache.setitem k v c
          = (inr tt, LFUCache.Cache (LFUCache.maxsize c)
                       (kept ++ [LFUCache.Entry k v (-1)])) ∧
          Z.of_nat (length kept) + 1 ≤ LFUCache.maxsize c ∧
          (∀ e, e ∈ kept → e ∈ LFUCache.entries c) ∧
          (LFUCache.currsize c + 1 ≤ LFUCache.maxsize c →
           kept = LFUCache.entries c) ∧
          (LFUCache.currsize c = LFUCache.maxsize c →
           ∃ victim, LFUCache.most_common1 (LFUCache.entries c) = Some victim ∧
                     kept = LFUCache.remove (LFUCache.key victim)
                                            (LFUCache.entries c)).
Proof.
  intros Hmax Hnew.
  destruct (make_room_spec (length (LFUCache.entries c)) c)
    as (c' & Hrun & Hm & Hsz & Hsub & Hsame & Hfull); [done|lia|].
  assert (Hk : k ∉ LFUCache.key <$> LFUCache.entries c).
  { unfold LFUCache.contains, LFUCache.keys in Hnew.
    by apply bool_decide_eq_false in Hnew. }
  assert (Hk' : k ∉ LFUCache.key <$> LFUCache.entries c').
  { intros (e & -> & He)%list_elem_of_fmap. apply Hk.
    apply list_elem_of_fmap. exists e. split; [done|by apply Hsub]. }
  exists (LFUCache.entries c'). split.
  - unfold LFUCache.setitem.
    rewrite (bind_inr _ _ c c c) by done.
    rewrite bool_decide_eq_false_2 by lia. rewrite Hnew.
    rewrite (bind_inr _ _ c tt c') by done.
    unfold Py.modify. f_equal. rewrite Hm. f_equal.
    unfold LFUCache.store. rewrite bool_decide_eq_false_2 by done.
    unfold LFUCache.touch. rewrite fmap_app. simpl.
    rewrite bool_decide_eq_true_2 by done. f_equal.
    by apply touch_absent.
  - split; [unfold LFUCache.currsize in Hsz; lia|]. split; [done|].
    split.
    + intros Hroom. by rewrite (Hsame Hroom).
    + intros Heq. destruct (Hfull Heq) as (victim & ? & ?). eauto.
Qed.

(** [cache[k]] for a cached key *)
Lemma getitem_cached k c :
  LFUCache.contains c k = true →
  ∃ e, LFUCache.find k (LFUCache.entries c) = Some e ∧
       LFUCache.getitem k c
       = (inr (LFUCache.value e),
          LFUCache.Cache (LFUCache.maxsize c)
                         (LFUCache.touch k (LFUCache.entries c))).
Proof.
  intros Hin. apply bool_decide_eq_true in Hin.
  destruct (find_is_Some _ _ Hin) as [e He].
  exists e. split; [done|]. unfold LFUCache.getitem. by rewrite He.
Qed.

End lfu_facts.

(** ** [ArrayContainer] *)

Section array_container.
Context `{uuid.Source}.
Implicit Types (h : ArrayContainer.heap) (data : gmap string ndarray).

Lemma known_names_dom h data :
  known_names h data ↔
  dom data ⊆ dom (ArrayContainer._data (ArrayContainer.obj h)).
Proof.
  unfold known_names. rewrite map_Forall_lookup. split.
  - intros Hall k [v Hk]%elem_of_dom. apply elem_of_dom. eauto.
  - intros Hsub k v Hk. apply elem_of_dom, Hsub, elem_of_dom. eauto.
Qed.

(** The raising branch: the exception is a plain [Exception] and the state
    that comes out is the state that went in. *)
Lemma update_unknown h data :
  ¬ known_names h data →
  ArrayContainer.update data h
  = (inl (Py.Raise Py.Exception "Can not add keys"), h).
Proof.
  intros Hunk. unfold ArrayContainer.update.
  rewrite (bind_inr _ _ h h h) by done.
  by rewrite bool_decide_eq_false_2.
Qed.

(** The other branch: values replaced, one uuid drawn and stored. *)
Lemma update_known h data :
  known_names h data →
  ArrayContainer.update data h
  = (inr tt,
     ArrayContainer.Heap
       (ArrayContainer.Build
          (data ∪ ArrayContainer._data (ArrayContainer.obj h))
          (uuid.draw (ArrayContainer.drawn h))
          (ArrayContainer._desc (ArrayContainer.obj h)))
       (S (ArrayContainer.drawn h))).
Proof.
  intros Hk. unfold ArrayContainer.update.
  rewrite (bind_inr _ _ h h h) by done.
  by rewrite bool_decide_eq_true_2.
Qed.

Lemma reachable_inv h : ArrayContainer.reachable h → array_inv h.
Proof.
  induction 1 as [data n|data h Hreach [Hdom (i & Hi & Hkey)]
                 |h Hreach [Hdom (i & Hi & Hkey)]].
  - split; simpl; [by rewrite dom_fmap_L|]. exists n. split; [lia|done].
  - destruct (decide (known_names h data)) as [Hk|Hunk].
    + rewrite update_known by done. split; simpl.
      * apply known_names_dom in Hk. rewrite dom_union_L, Hdom.
        symmetry. by apply subseteq_union_1_L.
      * exists (ArrayContainer.drawn h). split; [lia|done].
    + rewrite update_unknown by done. split; [done|]. by exists i.
  - split; simpl; [done|]. exists i. split; [lia|done].
Qed.

End array_container.

(** C4, as stated, fails: an update naming an absent key raises the builtin
    [Exception], which no [except KeyError] clause catches. *)
Lemma ArrayContainer_update_unknown_is_not_KeyError :
  let h := ArrayContainer.init (H := example_uuids)
             {[ "x" := array1d [fz 0; fz 1; fz 2] ]} 0 in
  let r := (ArrayContainer.update (H := example_uuids)
              {[ "z" := array1d [fz 5] ]} h).1 in
  r = inl (Py.Raise Py.Exception "Can not add keys") ∧
  Py.isinstance (Py.Raise Py.Exception "Can not add keys") Py.KeyError = false.
Proof. by vm_compute. Qed.

(** C4 (amended): whenever [update] is given a name that [describe()] does
    not list -- equivalently, one that is not stored -- it raises
    [Exception("Can not add keys")], a plain [Exception] and not a
    [KeyError], and adds nothing: the container is left as it was. *)
Theorem ArrayContainer_update_unknown_name `{uuid.Source}
    (h : ArrayContainer.heap) (data : gmap string ndarray) (k : string)
    (desc : gmap string Desc) :
  ArrayContainer.reachable h →
  (ArrayContainer.describe h).1 = inr desc →
  k ∈ dom data →
  k ∉ dom desc →
  (k ∉ dom (ArrayContainer._data (ArrayContainer.obj h))) ∧
  ArrayContainer.update data h
  = (inl (Py.Raise Py.Exception "Can not add keys"), h) ∧
  Py.isinstance (Py.Raise Py.Exception "Can not add keys") Py.KeyError = false.
Proof.
  intros Hreach Hdesc Hin Hnew.
  destruct (reachable_inv h Hreach) as [Hdom _].
  injection Hdesc as <-. rewrite Hdom in Hnew.
  split; [done|]. split; [|done].
  apply update_unknown. rewrite known_names_dom. intros Hs. by apply Hnew, Hs.
Qed.

Lemma ArrayContainer_update_unknown_name_witness :
  let h := ArrayContainer.init (H := example_uuids)
             {[ "x" := array1d [fz 0; fz 1; fz 2] ]} 0 in
  let data : gmap string ndarray := {[ "z" := array1d [fz 5] ]} in
  ("z" ∉ dom (ArrayContainer._data (ArrayContainer.obj h))) ∧
  ArrayContainer.update (H := example_uuids) data h
  = (inl (Py.Raise Py.Exception "Can not add keys"), h) ∧
  Py.isinstance (Py.Raise Py.Exception "Can not add keys") Py.KeyError = false.
Proof.
  intros h data.
  apply (ArrayContainer_update_unknown_name (H := example_uuids) h data "z"
           (ArrayContainer._desc (ArrayContainer.obj h))).
  - apply ArrayContainer.reach_init.
  - reflexivity.
  - apply elem_of_dom. exists (array1d [fz 5]). reflexivity.
  - apply not_elem_of_dom. reflexivity.
Defined.

(** C9: a failing [update] is atomic.  The membership test runs before any
    write, so when some supplied name is not stored the call raises and
    hands back the very state it received: every stored value, also those
    of known names supplied in the same call, and the cache key are the
    same, and so is what [query] returns. *)
Theorem ArrayContainer_update_failure_atomic `{uuid.Source}
    (h : ArrayContainer.heap) (data : gmap string ndarray) (k : string) :
  k ∈ dom data →
  k ∉ dom (ArrayContainer._data (ArrayContainer.obj h)) →
  ∃ e h',
    ArrayContainer.update data h = (inl e, h') ∧
    ArrayContainer._data (ArrayContainer.obj h')
    = ArrayContainer._data (ArrayContainer.obj h) ∧
    ArrayContainer._cache_key (ArrayContainer.obj h')
    = ArrayContainer._cache_key (ArrayContainer.obj h) ∧
    h' = h ∧
    ∀ q, (ArrayContainer.query q h').1 = (ArrayContainer.query q h).1.
Proof.
  intros Hin Hnew. eexists _, h. split.
  - apply update_unknown. rewrite known_names_dom. intros Hs. by apply Hnew, Hs.
  - done.
Qed.

Lemma ArrayContainer_update_failure_atomic_witness :
  let h := ArrayContainer.init (H := example_uuids)
             {[ "x" := array1d [fz 0; fz 1; fz 2] ]} 0 in
  let data : gmap string ndarray :=
    <[ "x" := array1d [fz 7; fz 8; fz 9] ]> {[ "z" := array1d [fz 5] ]} in
  ∃ e h',
    ArrayContainer.update (H := example_uuids) data h = (inl e, h') ∧
    ArrayContainer._data (ArrayContainer.obj h')
    = ArrayContainer._data (ArrayContainer.obj h) ∧
    ArrayContainer._cache_key (ArrayContainer.obj h')
    = ArrayContainer._cache_key (ArrayContainer.obj h) ∧
    h' = h ∧
    ∀ q, (ArrayContainer.query q h').1 = (ArrayContainer.query q h).1.
Proof.
  intros h data.
  apply (ArrayContainer_update_failure_atomic (H := example_uuids) h data "z").
  - apply elem_of_dom. exists (array1d [fz 5]). reflexivity.
  - apply not_elem_of_dom. reflexivity.
Defined.

(** C5: [query] leaves the container alone, so two calls with no update
    between them return the same mapping and the same key; an [update]
    whose names are all stored succeeds, the next [query] returns the new
    values for those names and the old ones for the others, and -- uuids
    being drawn from a supply that does not repeat -- a key different from
    the one returned before. *)
Theorem ArrayContainer_query_stable_update_rekeys `{uuid.Source}
    (h : ArrayContainer.heap) (data : gmap string ndarray)
    (q1 q2 : query_args) :
  (∀ i j, uuid.draw i = uuid.draw j → i = j) →
  ArrayContainer.reachable h →
  dom data ⊆ dom (ArrayContainer._data (ArrayContainer.obj h)) →
  ∃ values key h',
    ArrayContainer.query q1 h = (inr (values, key), h) ∧
    ArrayContainer.query q2 (ArrayContainer.query q1 h).2
    = (inr (values, key), h) ∧
    ArrayContainer.update data h = (inr tt, h') ∧
    ∃ values' key',
      ArrayContainer.query q2 h' = (inr (values', key'), h') ∧
      key' ≠ key ∧
      (∀ k v, data !! k = Some v → values' !! k = Some v) ∧
      (∀ k, data !! k = None → values' !! k = values !! k).
Proof.
  intros Hfresh Hreach Hsub.
  destruct (reachable_inv h Hreach) as [_ (i & Hi & Hkey)].
  eexists _, _, _. split; [reflexivity|]. split; [reflexivity|].
  split; [apply update_known; by rewrite known_names_dom|].
  eexists _, _. split; [reflexivity|]. simpl. split; [|split].
  - rewrite Hkey. intros Heq%Hfresh. lia.
  - intros k v Hk. by apply lookup_union_Some_l.
  - intros k Hk. by apply lookup_union_r.
Qed.

Lemma ArrayContainer_query_stable_update_rekeys_witness :
  let h := ArrayContainer.init (H := example_uuids)
             {[ "x" := array1d [fz 0; fz 1; fz 2] ]} 0 in
  let data : gmap string ndarray := {[ "x" := array1d [fz 7; fz 8; fz 9] ]} in
  let q1 := Query (fz 0, fz 1, fz 0, fz 1) (100, 100) None None in
  let q2 := Query (fz 2, fz 3, fz 4, fz 5) (640, 480) (Some "log") None in
  ∃ values key h',
    ArrayContainer.query q1 h = (inr (values, key), h) ∧
    ArrayContainer.query q2 (ArrayContainer.query q1 h).2
    = (inr (values, key), h) ∧
    ArrayContainer.update (H := example_uuids) data h = (inr tt, h') ∧
    ∃ values' key',
      ArrayContainer.query q2 h' = (inr (values', key'), h') ∧
      key' ≠ key ∧
      (∀ k v, data !! k = Some v → values' !! k = Some v) ∧
      (∀ k, data !! k = None → values' !! k = values !! k).
Proof.
  intros h data q1 q2.
  apply (ArrayContainer_query_stable_update_rekeys (H := example_uuids)).
  - intros i j Hij. exact (pretty_nat_inj i j Hij).
  - apply ArrayContainer.reach_init.
  - apply elem_of_subseteq. intros k Hk.
    apply elem_of_dom in Hk as [v Hk].
    apply lookup_singleton_Some in Hk as [<- _].
    apply elem_of_dom. exists (array1d [fz 0; fz 1; fz 2]). reflexivity.
Defined.

(** ** Containers that keep an [LFUCache] of 64 results *)

Section lfu_invariant.
Context {V : Type}.
Implicit Types (es : list (LFUCache.entry V)) (c : LFUCache.t V).

Lemma cache_ok_new : cache_ok (LFUCache.new (V := V) 64).
Proof. repeat split; simpl; [lia|constructor]. Qed.

Lemma remove_keys k es :
  LFUCache.key <$> LFUCache.remove k es = filter (λ k', k' ≠ k) (LFUCache.key <$> es).
Proof.
  unfold LFUCache.remove. induction es as [|x es IH]; [done|]. csimpl.
  rewrite !filter_cons. simpl. case_decide; csimpl; by rewrite IH.
Qed.


Lemma cache_ok_touch k c :
  cache_ok c →
  cache_ok (LFUCache.Cache (LFUCache.maxsize c) (LFUCache.touch k (LFUCache.entries c))).
Proof.
  intros (Hm & Hlen & Hnd). unfold cache_ok, LFUCache.keys in *. simpl.
  by rewrite touch_length, touch_keys.
Qed.

End lfu_invariant.

Section memo_facts.
Context {V : Type}.
Implicit Types (c : LFUCache.t V) (k : Z) (r : Py.result V).

Lemma memo_hit k r c :
  LFUCache.contains c k = true →
  ∃ e, LFUCache.find k (LFUCache.entries c) = Some e ∧
       memo k r c
       = (inr (LFUCache.value e, k),
          LFUCache.Cache (LFUCache.maxsize c)
                         (LFUCache.touch k (LFUCache.entries c))).
Proof.
  intros Hin. destruct (getitem_cached k c Hin) as (e & He & Hget).
  exists e. split; [done|]. unfold memo. rewrite Hin.
  by rewrite (bind_inr _ _ _ _ _ Hget).
Qed.

Lemma memo_miss_raise k c x :
  LFUCache.contains c k = false → memo k (inl x) c = (inl x, c).
Proof. intros Hnew. unfold memo. by rewrite Hnew. Qed.

Lemma memo_miss_store k c v :
  cache_ok c →
  LFUCache.contains c k = false →
  ∃ kept,
    memo k (inr v) c
    = (inr (v, k), LFUCache.Cache 64 (kept ++ [LFUCache.Entry k v (-1)])) ∧
    (length kept < 64)%nat ∧
    (∀ e, e ∈ kept → e ∈ LFUCache.entries c) ∧
    ((length (LFUCache.entries c) < 64)%nat → kept = LFUCache.entries c) ∧
    (length (LFUCache.entries c) = 64%nat →
     ∃ victim, LFUCache.most_common1 (LFUCache.entries c) = Some victim ∧
               kept = LFUCache.remove (LFUCache.key victim) (LFUCache.entries c)).
Proof.
  intros (Hm & Hlen & Hnd) Hnew.
  destruct (setitem_new k v c) as (kept & Hset & Hsz & Hsub & Hroom & Hfull);
    [lia|done|].
  exists kept. split; [|split; [lia|split; [done|split]]].
  - unfold memo. rewrite Hnew.
    rewrite (bind_inr _ _ c v c) by done.
    rewrite (bind_inr _ _ _ _ _ Hset). by rewrite Hm.
  - intros Hlt. apply Hroom. unfold LFUCache.currsize. lia.
  - intros Heq. apply Hfull. unfold LFUCache.currsize. lia.
Qed.

Lemma memo_cache_ok k r c : cache_ok c → cache_ok (memo k r c).2.
Proof.
  intros Hok. destruct (LFUCache.contains c k) eqn:Hin.
  - destruct (memo_hit k r c Hin) as (e & _ & ->). by apply cache_ok_touch.
  - destruct r as [x|v]; [by rewrite memo_miss_raise|].
    destruct (memo_miss_store k c v Hok Hin)
      as (kept & -> & Hlen & Hsub & Hroom & Hfull).
    destruct Hok as (Hm & Hlen0 & Hnd). unfold cache_ok, LFUCache.keys. simpl.
    split; [done|]. split; [rewrite length_app; simpl; lia|].
    rewrite fmap_app. simpl. apply NoDup_app. split; [|split].
    + destruct (decide (length (LFUCache.entries c) < 64)%nat) as [Hlt|Hge].
      * by rewrite (Hroom Hlt).
      * destruct Hfull as (victim & _ & ->); [lia|].
        rewrite remove_keys. by apply NoDup_filter.
    + intros k' (e & -> & He)%list_elem_of_fmap Hk%list_elem_of_singleton.
      apply bool_decide_eq_false in Hin. apply Hin. rewrite <- Hk.
      unfold LFUCache.keys. apply list_elem_of_fmap_2. by apply Hsub.
    + apply NoDup_singleton.
Qed.

(** Whatever sits in the cache after the call was there before, or was
    computed by this call. *)
Lemma memo_entries k r c e :
  cache_ok c →
  e ∈ LFUCache.entries (memo k r c).2 →
  (∃ e0, e0 ∈ LFUCache.entries c ∧
         LFUCache.key e = LFUCache.key e0 ∧ LFUCache.value e = LFUCache.value e0) ∨
  (LFUCache.key e = k ∧ r = inr (LFUCache.value e)).
Proof.
  intros Hok. destruct (LFUCache.contains c k) eqn:Hin.
  - destruct (memo_hit k r c Hin) as (e1 & _ & ->). simpl.
    unfold LFUCache.touch. intros (e0 & -> & He0)%list_elem_of_fmap.
    left. exists e0. split; [done|]. by case_bool_decide.
  - destruct r as [x|v].
    + rewrite memo_miss_raise by done. intros He. left. by exists e.
    + destruct (memo_miss_store k c v Hok Hin) as (kept & -> & _ & Hsub & _).
      simpl. intros [He| ->%list_elem_of_singleton]%elem_of_app.
      * left. exists e. split; [by apply Hsub|done].
      * by right.
Qed.

(** A call that returned is answered again, with the same value, by the
    call that follows it under the same key. *)
Lemma memo_again k r r' c v :
  cache_ok c →
  (memo k r c).1 = inr (v, k) →
  (memo k r' (memo k r c).2).1 = inr (v, k).
Proof.
  intros Hok. destruct (LFUCache.contains c k) eqn:Hin.
  - destruct (memo_hit k r c Hin) as (e & He & ->). simpl. intros [= <-].
    assert (Hin' : LFUCache.contains
              (LFUCache.Cache (LFUCache.maxsize c)
                 (LFUCache.touch k (LFUCache.entries c))) k = true).
    { unfold LFUCache.contains, LFUCache.keys in *. simpl. by rewrite touch_keys. }
    destruct (memo_hit k r' _ Hin') as (e' & He' & ->). simpl in *.
    rewrite (find_touch _ _ _ He) in He'. by injection He' as <-.
  - destruct r as [x|v0]; [by rewrite memo_miss_raise|].
    destruct (memo_miss_store k c v0 Hok Hin) as (kept & -> & _ & Hsub & _).
    simpl. intros [= <-].
    assert (Hk : k ∉ LFUCache.key <$> kept).
    { intros (e & -> & He)%list_elem_of_fmap.
      apply bool_decide_eq_false in Hin. apply Hin.
      unfold LFUCache.keys. apply list_elem_of_fmap_2. by apply Hsub. }
    assert (Hin' : LFUCache.contains
              (LFUCache.Cache 64 (kept ++ [LFUCache.Entry k v0 (-1)])) k = true).
    { apply bool_decide_eq_true. unfold LFUCache.keys. simpl.
      rewrite fmap_app. apply elem_of_app. right. by left. }
    destruct (memo_hit k r' _ Hin') as (e' & He' & ->). simpl in *.
    rewrite find_app_new in He' by done. by injection He' as <-.
Qed.

End memo_facts.

(** ** [FuncContainer] *)

Section func_container.
Context `{pyhash.Seed}.
Implicit Types (self : FuncContainer.t) (q : query_args).

Lemma func_query_memo q self :
  FuncContainer.query q self
  = zoom FuncContainer._cache FuncContainer.with_cache
      (memo (FuncContainer.hash_query q) (FuncContainer.sample self q)) self.
Proof.
  unfold FuncContainer.query, FuncContainer.on_cache, zoom, memo, Py.bind,
    Py.get, Py.lift, Py.ret.
  destruct (LFUCache.contains _ _).
  - by destruct (LFUCache.getitem _ _) as [[?|?] ?].
  - destruct (FuncContainer.sample self q) as [?|ret]; [by destruct self|].
    by destruct (LFUCache.setitem _ _ _) as [[?|?] ?].
Qed.

Lemma func_query_cache q self :
  FuncContainer._cache (FuncContainer.query q self).2
  = (memo (FuncContainer.hash_query q) (FuncContainer.sample self q)
          (FuncContainer._cache self)).2.
Proof.
  rewrite func_query_memo. unfold zoom. by destruct (memo _ _ _).
Qed.


End func_container.



(** ** Numbers: order, clipping, [linspace], [histogram] *)

Local Open Scope Qc_scope.

Ltac qc_order :=
  repeat match goal with
         | |- @eq Qc _ _ => apply Qcle_antisym
         end;
  unfold Qclt, Qcle, Qcminus, Qcplus, Qcopp in *; simpl in *;
  rewrite ?Qred_correct in *; lra.

Lemma np_lt_true a b : np.lt a b = true ↔ a < b.
Proof. unfold np.lt. apply bool_decide_eq_true. Qed.

Lemma np_lt_false a b : np.lt a b = false ↔ b ≤ a.
Proof.
  unfold np.lt. rewrite bool_decide_eq_false. split.
  - apply Qcnot_lt_le.
  - intros Hle Hlt. by apply (Qcle_not_lt _ _ Hle).
Qed.

Ltac np_cases :=
  unfold np.clip, np.minimum, np.maximum in *;
  repeat match goal with
         | |- context [np.lt ?a ?b] =>
             let E := fresh "E" in
             destruct (np.lt a b) eqn:E;
             [apply np_lt_true in E|apply np_lt_false in E]
         | H : context [np.lt ?a ?b] |- _ =>
             let E := fresh "E" in
             destruct (np.lt a b) eqn:E;
             [apply np_lt_true in E|apply np_lt_false in E]
         end.

Lemma clip_bounds x lo hi : lo ≤ hi → lo ≤ np.clip x lo hi ∧ np.clip x lo hi ≤ hi.
Proof. intros Hle. np_cases; split; qc_order. Qed.

Lemma clip_mono x y lo hi : x ≤ y → np.clip x lo hi ≤ np.clip y lo hi.
Proof. intros Hle. np_cases; qc_order. Qed.

Lemma clip_inside x lo hi : lo ≤ x → x ≤ hi → np.clip x lo hi = x.
Proof. intros Hlo Hhi. np_cases; qc_order. Qed.

(** The clamped lower bound is above [lo] exactly when the requested one is
    (and the range is not a single point); likewise at the upper end. *)
Lemma lt_lo_clip x lo hi : np.lt lo (np.clip x lo hi) = true ↔ lo < x ∧ lo < hi.
Proof.
  rewrite np_lt_true. split.
  - intros Hlt. np_cases; split; qc_order.
  - intros [H1 H2]. np_cases; qc_order.
Qed.

Lemma lt_clip_hi x lo hi : np.lt (np.clip x lo hi) hi = true ↔ x < hi ∧ lo < hi.
Proof.
  rewrite np_lt_true. split.
  - intros Hlt. np_cases; split; qc_order.
  - intros [H1 H2]. np_cases; qc_order.
Qed.

Lemma foldl_minimum_le x xs : foldl np.minimum x xs ≤ x.
Proof.
  revert x. induction xs as [|y ys IH]; intros x; simpl; [qc_order|].
  specialize (IH (np.minimum x y)). np_cases; qc_order.
Qed.

Lemma foldl_maximum_ge x xs : x ≤ foldl np.maximum x xs.
Proof.
  revert x. induction xs as [|y ys IH]; intros x; simpl; [qc_order|].
  specialize (IH (np.maximum x y)). np_cases; qc_order.
Qed.

Lemma min_le_max a lo hi : np.min a = inr lo → np.max a = inr hi → lo ≤ hi.
Proof.
  destruct a as [|x xs]; [done|]. simpl. intros [= <-] [= <-].
  pose proof (foldl_minimum_le x xs). pose proof (foldl_maximum_ge x xs).
  qc_order.
Qed.

Lemma fz_le i j : (i ≤ j)%Z → fz i ≤ fz j.
Proof.
  intros Hij. unfold fz, Qcle. simpl. rewrite !Qred_correct.
  by rewrite <- Zle_Qle.
Qed.

Lemma fz_lt i j : (i < j)%Z → fz i < fz j.
Proof.
  intros Hij. unfold fz, Qclt. simpl. rewrite !Qred_correct.
  by rewrite <- Zlt_Qlt.
Qed.

Lemma fz_0 : fz 0 = 0.
Proof. by apply Qc_is_canon. Qed.

(** A sample of [linspace]: between the ends, and no smaller than an earlier
    one. *)
Lemma linspace_step_nonneg start stop (m : Z) :
  start ≤ stop → (0 ≤ m)%Z → 0 ≤ (stop - start) / fz m.
Proof.
  intros Hle Hm. destruct (decide (m = 0%Z)) as [->|Hne].
  - rewrite fz_0. unfold Qcdiv. replace (/ 0) with 0 by by apply Qc_is_canon.
    rewrite Qcmult_0_r. qc_order.
  - assert (Hpos : 0 < fz m) by (rewrite <- fz_0; apply fz_lt; lia).
    apply (Qcmult_lt_0_le_reg_r _ _ (fz m)); [done|].
    rewrite Qcmult_0_l, Qcmult_comm, Qcmult_div_r; [qc_order|].
    intros Heq. rewrite Heq in Hpos. qc_order.
Qed.

Lemma linspace_sample_le start stop (m i : Z) :
  start ≤ stop → (0 ≤ i ≤ m)%Z →
  start + fz i * ((stop - start) / fz m) ≤ stop.
Proof.
  intros Hle [Hi Him].
  pose proof (linspace_step_nonneg start stop m Hle ltac:(lia)) as Hstep.
  destruct (decide (m = 0%Z)) as [->|Hne].
  - assert (i = 0%Z) as -> by lia. rewrite fz_0, Qcmult_0_l. qc_order.
  - assert (Hpos : 0 < fz m) by (rewrite <- fz_0; apply fz_lt; lia).
    assert (Hm : fz m * ((stop - start) / fz m) = stop - start).
    { apply Qcmult_div_r. intros Heq. rewrite Heq in Hpos. qc_order. }
    pose proof (Qcmult_le_compat_r _ _ _ (fz_le i m Him) Hstep) as Hmul.
    rewrite Hm in Hmul.
    set (s := fz i * ((stop - start) / fz m)) in *.
    clearbody s. unfold Qcle, Qcminus, Qcplus, Qcopp in *. simpl in *.
    rewrite ?Qred_correct in *. lra.
Qed.

Lemma linspace_sample_ge start stop (m i : Z) :
  start ≤ stop → (0 ≤ i)%Z → (0 ≤ m)%Z →
  start ≤ start + fz i * ((stop - start) / fz m).
Proof.
  intros Hle Hi Hm.
  pose proof (linspace_step_nonneg start stop m Hle Hm) as Hstep.
  pose proof (Qcmult_le_compat_r _ _ _ (fz_le 0 i Hi) Hstep) as Hmul.
  rewrite fz_0, Qcmult_0_l in Hmul.
  set (s := fz i * ((stop - start) / fz m)) in *.
  clearbody s. unfold Qcle, Qcplus in *. simpl in *.
  rewrite ?Qred_correct in *. lra.
Qed.

Lemma linspace_sample_mono start stop (m i j : Z) :
  start ≤ stop → (0 ≤ m)%Z → (i ≤ j)%Z →
  start + fz i * ((stop - start) / fz m) ≤ start + fz j * ((stop - start) / fz m).
Proof.
  intros Hle Hm Hij.
  pose proof (linspace_step_nonneg start stop m Hle Hm) as Hstep.
  pose proof (Qcmult_le_compat_r _ _ _ (fz_le i j Hij) Hstep) as Hmul.
  set (s := fz i * ((stop - start) / fz m)) in *.
  set (s' := fz j * ((stop - start) / fz m)) in *.
  clearbody s s'. unfold Qcle, Qcplus in *. simpl in *.
  rewrite ?Qred_correct in *. lra.
Qed.

Lemma linspace_returns start stop (num : Z) :
  (0 ≤ num)%Z →
  ∃ lin, np.linspace start stop num = inr lin ∧ length lin = Z.to_nat num.
Proof.
  intros Hnum. unfold np.linspace. rewrite bool_decide_eq_false_2 by lia.
  eexists. split; [done|]. by rewrite length_fmap, length_seq.
Qed.

Lemma fmap_seq_sorted (f : nat → Qc) n s :
  (∀ i j, (i ≤ j)%nat → f i ≤ f j) → StronglySorted Qcle (f <$> seq s n).
Proof.
  intros Hf. revert s. induction n as [|n IH]; intros s; csimpl; constructor.
  - apply IH.
  - rewrite Forall_fmap. apply Forall_forall. intros i [Hi _]%elem_of_seq.
    simpl. apply Hf. lia.
Qed.

(** For a window that is not inverted the samples ascend and stay within
    the window. *)
Lemma linspace_sorted start stop (num : Z) lin :
  start ≤ stop →
  np.linspace start stop num = inr lin →
  StronglySorted Qcle lin ∧ ∀ x, x ∈ lin → start ≤ x ∧ x ≤ stop.
Proof.
  intros Hle. unfold np.linspace. case_bool_decide as Hneg; [done|].
  intros [= <-].
  destruct (decide (num = 0%Z)) as [->|Hne].
  { simpl. split; [constructor|]. by intros x ?%elem_of_nil. }
  split.
  - apply fmap_seq_sorted. intros i j Hij.
    apply linspace_sample_mono; [done|lia|lia].
  - intros x (i & -> & [_ Hi]%elem_of_seq)%list_elem_of_fmap. split.
    + apply linspace_sample_ge; [done|lia|lia].
    + apply linspace_sample_le; [done|lia].
Qed.

Lemma monotone_sorted bins : StronglySorted Qcle bins → np.monotone bins = true.
Proof.
  induction 1 as [|x l Hs IH Hall]; [done|].
  destruct l as [|y tl]; [done|].
  change (negb (np.lt y x) && np.monotone (y :: tl) = true).
  rewrite IH, andb_true_r. apply Forall_cons in Hall as [Hxy _].
  apply negb_true_iff, np_lt_false, Hxy.
Qed.

Lemma diff_length {A} (sub : A → A → A) (a : list A) :
  length (np.diff sub a) = pred (length a).
Proof.
  induction a as [|x [|y tl] IH]; [done..|].
  change (S (length (np.diff sub (y :: tl))) = pred (length (x :: y :: tl))).
  by rewrite IH.
Qed.

Lemma cum_counts_length a bins : length (np.cum_counts a bins) = length bins.
Proof.
  induction bins as [|e [|e' tl] IH]; [done..|].
  change (S (length (np.cum_counts a (e' :: tl))) = length (e :: e' :: tl)).
  by rewrite IH.
Qed.

(** One density per pair of neighbouring edges *)
Lemma histogram_returns a bins :
  np.monotone bins = true →
  ∃ density, np.histogram a bins = inr (density, bins) ∧
             length density = pred (length bins).
Proof.
  intros Hmono. unfold np.histogram. rewrite Hmono. eexists. split; [done|].
  rewrite length_zip_with, !diff_length, cum_counts_length. lia.
Qed.

Local Close Scope Qc_scope.

(** ** [HistContainer] *)

Section hist_container.
Implicit Types (self c : HistContainer.t) (q : query_args).

Lemma hist_query_memo q self :
  HistContainer.query q self
  = zoom HistContainer._cache HistContainer.with_cache
      (memo (HistContainer.hash_key self q) (computed self q)) self.
Proof.
  unfold HistContainer.query, HistContainer.hash_key, computed,
    HistContainer.on_cache, zoom, memo, Py.bind, Py.get, Py.lift, Py.ret.
  destruct (HistContainer.clamped self q) as [xmin xmax]. simpl.
  destruct (LFUCache.contains _ _).
  - by destruct (LFUCache.getitem _ _) as [[?|?] ?].
  - destruct (HistContainer.rebin self xmin xmax) as [?|ret]; [by destruct self|].
    by destruct (LFUCache.setitem _ _ _) as [[?|?] ?].
Qed.

Lemma hist_query_cache q self :
  HistContainer._cache (HistContainer.query q self).2
  = (memo (HistContainer.hash_key self q) (computed self q)
          (HistContainer._cache self)).2.
Proof. rewrite hist_query_memo. unfold zoom. by destruct (memo _ _ _). Qed.

Lemma hist_query_result q self :
  (HistContainer.query q self).1
  = (memo (HistContainer.hash_key self q) (computed self q)
          (HistContainer._cache self)).1.
Proof. rewrite hist_query_memo. unfold zoom. by destruct (memo _ _ _). Qed.

Lemma hist_query_same_sample q self :
  same_sample (HistContainer.query q self).2 self.
Proof. rewrite hist_query_memo. unfold zoom. by destruct (memo _ _ _). Qed.

Lemma same_sample_clamped a b q :
  same_sample a b → HistContainer.clamped a q = HistContainer.clamped b q.
Proof. intros (_ & _ & Hr & _). unfold HistContainer.clamped. by rewrite Hr. Qed.

Lemma same_sample_hash_key a b q :
  same_sample a b → HistContainer.hash_key a q = HistContainer.hash_key b q.
Proof.
  intros Hs. unfold HistContainer.hash_key. by rewrite (same_sample_clamped a b).
Qed.

Lemma same_sample_computed a b q :
  same_sample a b → computed a q = computed b q.
Proof.
  intros Hs. unfold computed. rewrite (same_sample_clamped a b) by done.
  destruct Hs as (Hd & Hn & Hr & _). unfold HistContainer.rebin.
  by rewrite Hd, Hn, Hr.
Qed.

Lemma hist_inv_query c0 seen c q :
  hist_inv c0 seen c → hist_inv c0 (seen ++ [q]) (HistContainer.query q c).2.
Proof.
  intros (Hs & Hok & Hprov). split; [|split].
  - pose proof (hist_query_same_sample q c) as Hs'.
    destruct Hs as (? & ? & ? & ?), Hs' as (? & ? & ? & ?).
    repeat split; congruence.
  - rewrite hist_query_cache. by apply memo_cache_ok.
  - intros e. rewrite hist_query_cache. intros He.
    apply memo_entries in He; [|done].
    destruct He as [(e0 & He0 & Hk & Hv)|[Hk Hv]].
    + destruct (Hprov e0 He0) as (q' & Hq' & Hk' & Hv').
      exists q'. split; [apply elem_of_app; by left|]. by rewrite Hk, Hv.
    + exists q. split; [apply elem_of_app; right; by left|].
      rewrite <- (same_sample_hash_key c c0), <- (same_sample_computed c c0)
        by done.
      done.
Qed.

Lemma hist_inv_run c0 seen c qs :
  hist_inv c0 seen c → hist_inv c0 (seen ++ qs) (HistContainer.run qs c).
Proof.
  revert seen c. induction qs as [|q qs IH]; intros seen c Hinv; simpl.
  - by rewrite app_nil_r.
  - replace (seen ++ q :: qs) with ((seen ++ [q]) ++ qs)
      by by rewrite <- app_assoc.
    apply IH. by apply hist_inv_query.
Qed.

Lemma hist_init raw nb c0 :
  HistContainer.init raw nb = inr c0 →
  ∃ dmin dmax,
    c0 = HistContainer.Build raw nb
           (<["density" := Desc_ [DimInt (nb + 2)] "float64"]>
              (<["edges" := Desc_ [DimInt (nb + 1 + 2)] "float64"]> ∅))
           (dmin, dmax) (LFUCache.new 64) ∧
    (dmin ≤ dmax)%Qc.
Proof.
  unfold HistContainer.init.
  destruct (np.min raw) as [?|dmin] eqn:Hmin; [done|].
  destruct (np.max raw) as [?|dmax] eqn:Hmax; [done|].
  intros [= <-]. exists dmin, dmax. split; [done|]. by eapply min_le_max.
Qed.

Lemma hist_inv_init raw nb c0 :
  HistContainer.init raw nb = inr c0 → hist_inv c0 [] c0.
Proof.
  intros (dmin & dmax & -> & _)%hist_init. split; [done|]. split.
  - apply cache_ok_new.
  - simpl. by intros e ?%elem_of_nil.
Qed.

(** Unless a colliding key is in the way, [query] returns what it would
    compute for [q] itself, whether it does so now or did so before. *)
Lemma hist_query_own_answer c0 seen c q :
  hist_inv c0 seen c →
  no_collision c0 seen q →
  (HistContainer.query q c).1 = own_answer c0 q.
Proof.
  intros (Hs & Hok & Hprov) Hfree. rewrite hist_query_result.
  rewrite (same_sample_hash_key c c0), (same_sample_computed c c0) by done.
  unfold own_answer.
  destruct (LFUCache.contains (HistContainer._cache c)
              (HistContainer.hash_key c0 q)) eqn:Hin.
  - destruct (memo_hit _ (computed c0 q) _ Hin) as (e & He & ->). simpl.
    apply find_Some in He as [He Hk].
    destruct (Hprov e He) as (q' & Hq' & Hk' & Hv').
    assert (Hcl : HistContainer.clamped c0 q' = HistContainer.clamped c0 q)
      by (apply Hfree; [done|congruence]).
    unfold computed in *. rewrite Hcl in Hv'. by rewrite Hv'.
  - destruct (computed c0 q) as [x|v]; [by rewrite memo_miss_raise|].
    by destruct (memo_miss_store _ _ v Hok Hin) as (kept & -> & _).
Qed.

Lemma edges_in_concat dmin dmax xmin xmax lin :
  concat (HistContainer.edges_in dmin dmax xmin xmax lin)
  = edge_below dmin xmin ++ lin ++ edge_above xmax dmax.
Proof.
  unfold HistContainer.edges_in, edge_below, edge_above.
  destruct (np.lt dmin xmin), (np.lt xmax dmax); simpl;
    by rewrite ?app_nil_r.
Qed.

(** The edges ascend when the clamped window lies in the range and is not
    inverted. *)
Lemma edges_sorted dmin dmax xmin xmax nb lin :
  (dmin ≤ xmin)%Qc → (xmin ≤ xmax)%Qc → (xmax ≤ dmax)%Qc →
  np.linspace xmin xmax nb = inr lin →
  StronglySorted Qcle (edge_below dmin xmin ++ lin ++ edge_above xmax dmax).
Proof.
  intros Hlo Hle Hhi Hlin.
  destruct (linspace_sorted _ _ _ _ Hle Hlin) as [Hsorted Hin].
  assert (Hbelow : ∀ x, x ∈ edge_below dmin xmin → x = dmin).
  { unfold edge_below. destruct (np.lt dmin xmin);
      [by intros x ?%list_elem_of_singleton|by intros x ?%elem_of_nil]. }
  assert (Habove : ∀ x, x ∈ edge_above xmax dmax → x = dmax).
  { unfold edge_above. destruct (np.lt xmax dmax);
      [by intros x ?%list_elem_of_singleton|by intros x ?%elem_of_nil]. }
  apply StronglySorted_app_2; [| |apply StronglySorted_app_2].
  - intros x1 x2 ->%Hbelow [Hx2|Hx2]%elem_of_app.
    + destruct (Hin x2 Hx2). qc_order.
    + rewrite (Habove _ Hx2). qc_order.
  - unfold edge_below. destruct (np.lt dmin xmin); repeat constructor.
  - intros x1 x2 Hx1 ->%Habove. destruct (Hin x1 Hx1). qc_order.
  - done.
  - unfold edge_above. destruct (np.lt xmax dmax); repeat constructor.
Qed.

(** The computation at a window that is not inverted, for a bin count that
    is not negative: it returns, the edges are the linear split between the
    overflow edges, and there is one density per pair of neighbours. *)
Lemma computed_returns c0 q dmin dmax xmin xmax :
  HistContainer._full_range c0 = (dmin, dmax) →
  (dmin ≤ dmax)%Qc →
  HistContainer.clamped c0 q = (xmin, xmax) →
  (xmin ≤ xmax)%Qc →
  0 ≤ HistContainer._num_bins c0 →
  ∃ lin density,
    np.linspace xmin xmax (HistContainer._num_bins c0) = inr lin ∧
    length lin = Z.to_nat (HistContainer._num_bins c0) ∧
    computed c0 q
    = inr (<["density" := array1d density]>
             (<["edges" := array1d (edge_below dmin xmin ++ lin
                                    ++ edge_above xmax dmax)]> ∅)) ∧
    length density
    = pred (length (edge_below dmin xmin ++ lin ++ edge_above xmax dmax)).
Proof.
  intros Hrange Hd Hcl Hle Hnb.
  destruct (linspace_returns xmin xmax _ Hnb) as (lin & Hlin & Hlen).
  assert (Hin : (dmin ≤ xmin)%Qc ∧ (xmax ≤ dmax)%Qc).
  { unfold HistContainer.clamped in Hcl. rewrite Hrange in Hcl.
    destruct (data_bounds q) as [[[x0 x1] ?] ?]. injection Hcl as <- <-.
    split; by apply clip_bounds. }
  destruct Hin as [Hlo Hhi].
  pose proof (edges_sorted dmin dmax xmin xmax _ lin Hlo Hle Hhi Hlin) as Hs.
  destruct (histogram_returns (HistContainer._raw_data c0) _
              (monotone_sorted _ Hs)) as (density & Hhist & Hdlen).
  exists lin, density. split; [done|]. split; [done|]. split; [|done].
  unfold computed, HistContainer.rebin. rewrite Hcl, Hrange. simpl.
  by rewrite Hlin, edges_in_concat, Hhist.
Qed.

End hist_container.

Lemma edge_below_length dmin xmin :
  length (edge_below dmin xmin) = if np.lt dmin xmin then 1%nat else 0%nat.
Proof. unfold edge_below. by destruct (np.lt dmin xmin). Qed.

Lemma edge_above_length xmax dmax :
  length (edge_above xmax dmax) = if np.lt xmax dmax then 1%nat else 0%nat.
Proof. unfold edge_above. by destruct (np.lt xmax dmax). Qed.

(** What the three theorems on the returned arrays share: a container built
    by [__init__], any queries answered since, and a query with a window
    that is not inverted and meets no colliding key.  The call returns the
    two arrays computed for its own clamped window [(xmin', xmax')]. *)
Lemma hist_query_returns raw nb c0 qs q dmin dmax xmin xmax ymin ymax :
  HistContainer.init raw nb = inr c0 →
  HistContainer._full_range c0 = (dmin, dmax) →
  data_bounds q = (xmin, xmax, ymin, ymax) →
  0 ≤ nb →
  (xmin ≤ xmax)%Qc →
  no_collision c0 qs q →
  let xmin' := np.clip xmin dmin dmax in
  let xmax' := np.clip xmax dmin dmax in
  (dmin ≤ dmax)%Qc ∧
  ∃ lin density,
    np.linspace xmin' xmax' nb = inr lin ∧
    length lin = Z.to_nat nb ∧
    (HistContainer.query q (HistContainer.run qs c0)).1
    = inr (<["density" := array1d density]>
             (<["edges" := array1d (edge_below dmin xmin' ++ lin
                                    ++ edge_above xmax' dmax)]> ∅),
           pyhash.hash_float_pair xmin' xmax') ∧
    length density
    = pred (length (edge_below dmin xmin' ++ lin ++ edge_above xmax' dmax)).
Proof.
  intros Hinit Hrange Hq Hnb Hle Hfree xmin' xmax'.
  pose proof (hist_inv_run c0 [] c0 qs (hist_inv_init _ _ _ Hinit)) as Hinv.
  destruct (hist_init _ _ _ Hinit) as (dmin0 & dmax0 & Hc0 & Hd).
  assert (Hnum : HistContainer._num_bins c0 = nb) by by rewrite Hc0.
  rewrite Hc0 in Hrange. simpl in Hrange. injection Hrange as -> ->.
  assert (Hrange : HistContainer._full_range c0 = (dmin, dmax)) by by rewrite Hc0.
  assert (Hcl : HistContainer.clamped c0 q = (xmin', xmax')).
  { unfold HistContainer.clamped. by rewrite Hrange, Hq. }
  split; [done|].
  destruct (computed_returns c0 q dmin dmax xmin' xmax' Hrange Hd Hcl)
    as (lin & density & Hlin & Hlen & Hcomp & Hdlen);
    [by apply clip_mono|lia|].
  rewrite Hnum in Hlin, Hlen.
  exists lin, density. split; [done|]. split; [done|]. split; [|done].
  rewrite (hist_query_own_answer c0 ([] ++ qs) _ q Hinv Hfree).
  unfold own_answer. rewrite Hcomp. unfold HistContainer.hash_key.
  by rewrite Hcl.
Qed.

(** C1, as stated, fails: four samples 0..3, three bins, the window [1, 2]
    inside the range [0, 3].  The edges are 0, 1, 1.5, 2, 3: five of them,
    not [num_bins + 1 = 4]. *)
Lemma HistContainer_inside_window_edges_not_num_bins_plus_1 :
  ∃ c0,
    HistContainer.init (fz <$> [0; 1; 2; 3]) 3 = inr c0 ∧
    HistContainer._full_range c0 = (fz 0, fz 3) ∧
    let q := Query (fz 1, fz 2, fz 0, fz 1) (640, 480) None None in
    let r := (HistContainer.query q c0).1 in
    (λ a, this <$> nd_items a) <$> field "edges" r
    = Some [0; 1; 3 # 2; 2; 3]%Q ∧
    len <$> field "edges" r = Some 5%nat ∧
    len <$> field "edges" r ≠ Some (Z.to_nat (3 + 1)).
Proof.
  eexists. split; [by vm_compute|]. split; [by vm_compute|].
  split; [by vm_compute|]. split; by vm_compute.
Qed.

(** C1 (amended): for a window inside the global range that is not
    inverted, on a container with at least one bin, a query that meets no
    colliding hash key returns as edges the linear split of the window
    itself, preceded by the global minimum when the window starts strictly
    above it and followed by the global maximum when the window ends
    strictly below it: two more entries than the split for a window
    strictly inside the range, none more for the whole range.  The density
    array has one entry less than the edges. *)
Theorem HistContainer_edges_for_inside_window
    (raw : list Qc) (nb : Z) (c0 : HistContainer.t) (qs : list query_args)
    (q : query_args) (dmin dmax xmin xmax ymin ymax : Qc) :
  HistContainer.init raw nb = inr c0 →
  HistContainer._full_range c0 = (dmin, dmax) →
  data_bounds q = (xmin, xmax, ymin, ymax) →
  1 ≤ nb →
  (dmin ≤ xmin)%Qc → (xmin ≤ xmax)%Qc → (xmax ≤ dmax)%Qc →
  no_collision c0 qs q →
  ∃ lin edges density key,
    np.linspace xmin xmax nb = inr lin ∧
    (HistContainer.query q (HistContainer.run qs c0)).1
    = inr (<["density" := density]> (<["edges" := edges]> ∅), key) ∧
    nd_items edges = edge_below dmin xmin ++ lin ++ edge_above xmax dmax ∧
    ((dmin < xmin)%Qc → (xmax < dmax)%Qc → len edges = S (S (length lin))) ∧
    (dmin = xmin → xmax = dmax → len edges = length lin) ∧
    len edges = S (len density).
Proof.
  intros Hinit Hrange Hq Hnb Hlo Hle Hhi Hfree.
  destruct (hist_query_returns raw nb c0 qs q dmin dmax xmin xmax ymin ymax)
    as (Hd & lin & density & Hlin & Hlen & Hres & Hdlen); [done..|lia|done|done|].
  rewrite !(clip_inside _ dmin dmax) in * by (done || qc_order).
  exists lin, (array1d (edge_below dmin xmin ++ lin ++ edge_above xmax dmax)),
    (array1d density), (pyhash.hash_float_pair xmin xmax).
  split; [done|]. split; [done|]. split; [done|].
  unfold len. simpl. rewrite !length_app, edge_below_length, edge_above_length in *.
  split; [|split].
  - intros Hlt1%np_lt_true Hlt2%np_lt_true. rewrite Hlt1, Hlt2. lia.
  - intros <- ->.
    assert (np.lt dmin dmin = false) as -> by (apply np_lt_false; qc_order).
    assert (np.lt dmax dmax = false) as -> by (apply np_lt_false; qc_order).
    simpl. lia.
  - rewrite Hdlen. destruct (np.lt dmin xmin), (np.lt xmax dmax); lia.
Qed.

Lemma example_hist_init :
  HistContainer.init (fz <$> [0; 1; 2; 3]) 3 = inr example_hist.
Proof. reflexivity. Qed.

Lemma example_no_collision (a b a' b' : Z) :
  HistContainer.hash_key example_hist (example_window a' b')
  ≠ HistContainer.hash_key example_hist (example_window a b) →
  no_collision example_hist [example_window a' b'] (example_window a b).
Proof. intros Hne q' ->%list_elem_of_singleton Hk. by destruct Hne. Qed.

Lemma HistContainer_edges_for_inside_window_witness :
  let q := example_window 1 2 in
  let qs := [example_window 0 3] in
  ∃ lin edges density key,
    np.linspace (fz 1) (fz 2) 3 = inr lin ∧
    (HistContainer.query q (HistContainer.run qs example_hist)).1
    = inr (<["density" := density]> (<["edges" := edges]> ∅), key) ∧
    nd_items edges = edge_below (fz 0) (fz 1) ++ lin ++ edge_above (fz 2) (fz 3) ∧
    ((fz 0 < fz 1)%Qc → (fz 2 < fz 3)%Qc → len edges = S (S (length lin))) ∧
    (fz 0 = fz 1 → fz 2 = fz 3 → len edges = length lin) ∧
    len edges = S (len density).
Proof.
  intros q qs.
  apply (HistContainer_edges_for_inside_window (fz <$> [0; 1; 2; 3]) 3
           example_hist qs q (fz 0) (fz 3) (fz 1) (fz 2) (fz 0) (fz 1)).
  - exact example_hist_init.
  - reflexivity.
  - reflexivity.
  - lia.
  - by vm_compute.
  - by vm_compute.
  - by vm_compute.
  - apply example_no_collision. by vm_compute.
Defined.

(** C2, as stated, fails in both directions on the same container: the
    window [-5, 2] extends below the global minimum 0 and gets no leading
    edge (the edges are 0, 1, 2 of the split and the trailing 3), while the
    window [1, 2], which does not extend below it, gets the leading edge 0. *)
Lemma HistContainer_leading_edge_not_for_window_below_min :
  let below := (HistContainer.query (example_window (-5) 2) example_hist).1 in
  let inside := (HistContainer.query (example_window 1 2) example_hist).1 in
  HistContainer.init (fz <$> [0; 1; 2; 3]) 3 = inr example_hist ∧
  HistContainer.clamped example_hist (example_window (-5) 2) = (fz 0, fz 2) ∧
  edge_below (fz 0) (fz 0) = [] ∧
  rationals <$> field "edges" below = Some [0; 1; 2; 3]%Q ∧
  HistContainer.clamped example_hist (example_window 1 2) = (fz 1, fz 2) ∧
  edge_below (fz 0) (fz 1) = [fz 0] ∧
  rationals <$> field "edges" inside = Some [0; 1; 3 # 2; 2; 3]%Q.
Proof. repeat split; by vm_compute. Qed.

(** C2 (amended): for a window that is not inverted, a query that meets no
    colliding hash key returns as edges the linear split of the clamped
    window, with the global minimum prepended exactly when the requested
    window starts strictly above it (and the sample is not a single value),
    and the global maximum appended exactly when the requested window ends
    strictly below it.  A window that extends below the minimum, or above
    the maximum, gets no extra edge on that side. *)
Theorem HistContainer_overflow_edges
    (raw : list Qc) (nb : Z) (c0 : HistContainer.t) (qs : list query_args)
    (q : query_args) (dmin dmax xmin xmax ymin ymax : Qc) :
  HistContainer.init raw nb = inr c0 →
  HistContainer._full_range c0 = (dmin, dmax) →
  data_bounds q = (xmin, xmax, ymin, ymax) →
  0 ≤ nb →
  (xmin ≤ xmax)%Qc →
  no_collision c0 qs q →
  ∃ lin edges density key,
    np.linspace (np.clip xmin dmin dmax) (np.clip xmax dmin dmax) nb = inr lin ∧
    (HistContainer.query q (HistContainer.run qs c0)).1
    = inr (<["density" := density]> (<["edges" := edges]> ∅), key) ∧
    nd_items edges
    = (if decide (dmin < xmin ∧ dmin < dmax)%Qc then [dmin] else [])
      ++ lin
      ++ (if decide (xmax < dmax ∧ dmin < dmax)%Qc then [dmax] else []).
Proof.
  intros Hinit Hrange Hq Hnb Hle Hfree.
  destruct (hist_query_returns raw nb c0 qs q dmin dmax xmin xmax ymin ymax)
    as (Hd & lin & density & Hlin & Hlen & Hres & Hdlen); [done..|].
  eexists lin, _, _, _. split; [done|]. split; [exact Hres|]. simpl.
  unfold edge_below, edge_above. f_equal; [|f_equal].
  - destruct (np.lt dmin _) eqn:E.
    + apply lt_lo_clip in E. by rewrite decide_True.
    + rewrite decide_False; [done|]. intros E'%lt_lo_clip. congruence.
  - destruct (np.lt _ dmax) eqn:E.
    + apply lt_clip_hi in E. by rewrite decide_True.
    + rewrite decide_False; [done|]. intros E'%lt_clip_hi. congruence.
Qed.

Lemma HistContainer_overflow_edges_witness :
  let q := example_window (-5) 2 in
  let qs := [example_window 0 3] in
  ∃ lin edges density key,
    np.linspace (np.clip (fz (-5)) (fz 0) (fz 3)) (np.clip (fz 2) (fz 0) (fz 3)) 3
    = inr lin ∧
    (HistContainer.query q (HistContainer.run qs example_hist)).1
    = inr (<["density" := density]> (<["edges" := edges]> ∅), key) ∧
    nd_items edges
    = (if decide (fz 0 < fz (-5) ∧ fz 0 < fz 3)%Qc then [fz 0] else [])
      ++ lin
      ++ (if decide (fz 2 < fz 3 ∧ fz 0 < fz 3)%Qc then [fz 3] else []).
Proof.
  intros q qs.
  apply (HistContainer_overflow_edges (fz <$> [0; 1; 2; 3]) 3
           example_hist qs q (fz 0) (fz 3) (fz (-5)) (fz 2) (fz 0) (fz 1)).
  - exact example_hist_init.
  - reflexivity.
  - reflexivity.
  - lia.
  - by vm_compute.
  - apply example_no_collision. by vm_compute.
Defined.

(** C10, as stated, fails where two clamped windows share a hash key:
    [hash(-1.0) = hash(-2.0) = -2], so [(-1, 3)] and [(-2, 3)] hash alike.
    On the sample -2, 0, 3 with five bins the query for [-2, 3] stores five
    edges; the query for [-1, 3] that follows gets them back from the
    cache, though its clamped lower bound exceeds the minimum and the
    stated length is 5 + 1 + 0. *)
Lemma HistContainer_colliding_window_gets_other_edges :
  ∃ c0,
    HistContainer.init (fz <$> [-2; 0; 3]) 5 = inr c0 ∧
    let w := λ a b, Query (fz a, fz b, fz 0, fz 1) (640, 480) None None in
    let c1 := (HistContainer.query (w (-2) 3) c0).2 in
    let r := (HistContainer.query (w (-1) 3) c1).1 in
    pyhash.hash_number (fz (-1)) = -2 ∧ pyhash.hash_number (fz (-2)) = -2 ∧
    HistContainer.hash_key c1 (w (-1) 3) = HistContainer.hash_key c0 (w (-2) 3) ∧
    HistContainer._full_range c1 = (fz (-2), fz 3) ∧
    HistContainer.clamped c1 (w (-1) 3) = (fz (-1), fz 3) ∧
    np.lt (fz (-2)) (fz (-1)) = true ∧ np.lt (fz 3) (fz 3) = false ∧
    rationals <$> field "edges" r = Some [-2; -3 # 4; 1 # 2; 7 # 4; 3]%Q ∧
    len <$> field "edges" r = Some 5%nat ∧
    len <$> field "edges" r ≠ Some (5 + 1 + 0)%nat.
Proof.
  eexists. split; [by vm_compute|]. repeat split; by vm_compute.
Qed.

(** C10 (amended): on a container with at least one bin, a query with a
    window that is not inverted and that meets no colliding hash key returns
    an edges array of length [num_bins], plus one if the clamped lower
    bound exceeds the global minimum, plus one if the clamped upper bound
    is below the global maximum, and a density array one shorter.
    [describe()] declares the shapes [num_bins + 1 + 2] and [num_bins + 2]:
    the returned lengths can equal them only when both overflow edges are
    present, so never when one is absent, and never for a query that covers
    the whole data range. *)
Theorem HistContainer_lengths_by_overflow_edges
    (raw : list Qc) (nb : Z) (c0 : HistContainer.t) (qs : list query_args)
    (q : query_args) (dmin dmax xmin xmax ymin ymax : Qc) :
  HistContainer.init raw nb = inr c0 →
  HistContainer._full_range c0 = (dmin, dmax) →
  data_bounds q = (xmin, xmax, ymin, ymax) →
  1 ≤ nb →
  (xmin ≤ xmax)%Qc →
  no_collision c0 qs q →
  let xmin' := np.clip xmin dmin dmax in
  let xmax' := np.clip xmax dmin dmax in
  let below := if np.lt dmin xmin' then 1%nat else 0%nat in
  let above := if np.lt xmax' dmax then 1%nat else 0%nat in
  ∃ edges density key desc,
    (HistContainer.query q (HistContainer.run qs c0)).1
    = inr (<["density" := density]> (<["edges" := edges]> ∅), key) ∧
    len edges = (Z.to_nat nb + below + above)%nat ∧
    len edges = S (len density) ∧
    (HistContainer.describe (HistContainer.run qs c0)).1 = inr desc ∧
    shape <$> (desc !! "edges") = Some [DimInt (nb + 1 + 2)] ∧
    shape <$> (desc !! "density") = Some [DimInt (nb + 2)] ∧
    (Z.of_nat (len edges) = nb + 1 + 2 → below = 1%nat ∧ above = 1%nat) ∧
    (Z.of_nat (len density) = nb + 2 → below = 1%nat ∧ above = 1%nat) ∧
    ((xmin ≤ dmin)%Qc → (dmax ≤ xmax)%Qc →
     below = 0%nat ∧ above = 0%nat ∧
     Z.of_nat (len edges) ≠ nb + 1 + 2 ∧ Z.of_nat (len density) ≠ nb + 2).
Proof.
  intros Hinit Hrange Hq Hnb Hle Hfree xmin' xmax' below above.
  destruct (hist_query_returns raw nb c0 qs q dmin dmax xmin xmax ymin ymax)
    as (Hd & lin & density & Hlin & Hlen & Hres & Hdlen); [done..|lia|done|done|].
  fold xmin' xmax' in Hlin, Hres, Hdlen.
  pose proof (hist_inv_run c0 [] c0 qs (hist_inv_init _ _ _ Hinit))
    as ((_ & _ & _ & Hdesc) & _).
  destruct (hist_init _ _ _ Hinit) as (dmin0 & dmax0 & Hc0 & _).
  eexists _, _, _, (HistContainer._desc (HistContainer.run qs c0)).
  split; [exact Hres|]. unfold len. simpl.
  rewrite !length_app, edge_below_length, edge_above_length in *.
  fold below above in Hdlen |- *.
  assert (Hb : (below ≤ 1)%nat)
    by (unfold below; destruct (np.lt dmin xmin'); lia).
  assert (Ha : (above ≤ 1)%nat)
    by (unfold above; destruct (np.lt xmax' dmax); lia).
  split; [lia|]. split; [lia|]. split; [done|].
  rewrite Hdesc, Hc0. simpl.
  split; [done|]. split; [done|]. split; [lia|]. split; [lia|].
  intros Hlo Hhi.
  assert (Hb0 : below = 0%nat).
  { unfold below.
    assert (np.lt dmin xmin' = false) as ->; [|done].
    apply np_lt_false. unfold xmin'. clear - Hlo Hd. np_cases; qc_order. }
  assert (Ha0 : above = 0%nat).
  { unfold above.
    assert (np.lt xmax' dmax = false) as ->; [|done].
    apply np_lt_false. unfold xmax'. clear - Hhi Hd. np_cases; qc_order. }
  lia.
Qed.

Lemma HistContainer_lengths_by_overflow_edges_witness :
  let q := example_window (-5) 9 in
  let qs := [example_window 1 2] in
  let xmin' := np.clip (fz (-5)) (fz 0) (fz 3) in
  let xmax' := np.clip (fz 9) (fz 0) (fz 3) in
  let below := if np.lt (fz 0) xmin' then 1%nat else 0%nat in
  let above := if np.lt xmax' (fz 3) then 1%nat else 0%nat in
  ∃ edges density key desc,
    (HistContainer.query q (HistContainer.run qs example_hist)).1
    = inr (<["density" := density]> (<["edges" := edges]> ∅), key) ∧
    len edges = (Z.to_nat 3 + below + above)%nat ∧
    len edges = S (len density) ∧
    (HistContainer.describe (HistContainer.run qs example_hist)).1 = inr desc ∧
    shape <$> (desc !! "edges") = Some [DimInt (3 + 1 + 2)] ∧
    shape <$> (desc !! "density") = Some [DimInt (3 + 2)] ∧
    (Z.of_nat (len edges) = 3 + 1 + 2 → below = 1%nat ∧ above = 1%nat) ∧
    (Z.of_nat (len density) = 3 + 2 → below = 1%nat ∧ above = 1%nat) ∧
    ((fz (-5) ≤ fz 0)%Qc → (fz 3 ≤ fz 9)%Qc →
     below = 0%nat ∧ above = 0%nat ∧
     Z.of_nat (len edges) ≠ 3 + 1 + 2 ∧ Z.of_nat (len density) ≠ 3 + 2).
Proof.
  intros q qs.
  apply (HistContainer_lengths_by_overflow_edges (fz <$> [0; 1; 2; 3]) 3
           example_hist qs q (fz 0) (fz 3) (fz (-5)) (fz 9) (fz 0) (fz 1)).
  - exact example_hist_init.
  - reflexivity.
  - reflexivity.
  - lia.
  - by vm_compute.
  - apply example_no_collision. by vm_compute.
Defined.

Lemma memo_key {V} (k k' : Z) (r : Py.result V) (c : LFUCache.t V) v :
  cache_ok c → (memo k r c).1 = inr (v, k') → k' = k.
Proof.
  intros Hok. destruct (LFUCache.contains c k) eqn:Hin.
  - destruct (memo_hit k r c Hin) as (e & _ & ->). simpl. congruence.
  - destruct r as [x|v0]; [by rewrite memo_miss_raise|].
    destruct (memo_miss_store k c v0 Hok Hin) as (kept & -> & _). simpl.
    congruence.
Qed.

Lemma memo_stored {V} (k : Z) (r : Py.result V) (c : LFUCache.t V) v :
  cache_ok c → (memo k r c).1 = inr (v, k) →
  LFUCache.contains (memo k r c).2 k = true.
Proof.
  intros Hok. destruct (LFUCache.contains c k) eqn:Hin.
  - destruct (memo_hit k r c Hin) as (e & _ & ->). simpl. intros _.
    unfold LFUCache.contains, LFUCache.keys in *. simpl. by rewrite touch_keys.
  - destruct r as [x|v0]; [by rewrite memo_miss_raise|].
    destruct (memo_miss_store k c v0 Hok Hin) as (kept & -> & _). simpl.
    intros _. apply bool_decide_eq_true. unfold LFUCache.keys. simpl.
    rewrite fmap_app. apply elem_of_app. right. by left.
Qed.



(** Remarks on the side conditions of the statements above. *)

(** An inverted window is refused by [np.histogram], a negative bin count
    by [np.linspace]: [query] raises. *)
Lemma hist_inverted_window_raises :
  Py.exn_class <$> (λ r, match r with inl e => Some e | inr _ => None end)
     (HistContainer.query (example_window 2 1) example_hist).1
  = Some Py.ValueError.
Proof. by vm_compute. Qed.

Lemma hist_negative_bins_raises :
  ∃ c0, HistContainer.init (fz <$> [0; 1; 2; 3]) (-1) = inr c0 ∧
        Py.exn_class <$> (λ r, match r with inl e => Some e | inr _ => None end)
           (HistContainer.query (example_window 1 2) c0).1
        = Some Py.ValueError.
Proof. eexists. split; [reflexivity|]. by vm_compute. Qed.

(** Without colliding keys any two calls for the same clamped window agree,
    however many queries lie between them. *)
Lemma hist_calls_agree_without_collision raw nb c0 qs1 qs2 q1 q2 :
  HistContainer.init raw nb = inr c0 →
  HistContainer.clamped c0 q1 = HistContainer.clamped c0 q2 →
  no_collision c0 qs1 q1 →
  no_collision c0 (qs1 ++ q1 :: qs2) q2 →
  (HistContainer.query q2 (HistContainer.run (qs1 ++ q1 :: qs2) c0)).1
  = (HistContainer.query q1 (HistContainer.run qs1 c0)).1.
Proof.
  intros Hinit Hcl Hfree1 Hfree2.
  pose proof (hist_inv_init _ _ _ Hinit) as Hinv.
  rewrite (hist_query_own_answer c0 ([] ++ qs1) _ q1
             (hist_inv_run _ _ _ _ Hinv) Hfree1).
  rewrite (hist_query_own_answer c0 ([] ++ (qs1 ++ q1 :: qs2)) _ q2
             (hist_inv_run _ _ _ _ Hinv) Hfree2).
  unfold own_answer, computed, HistContainer.hash_key. by rewrite Hcl.
Qed.

(** With colliding keys they need not.  [hash(-1.0) = hash(-2.0)], so the
    windows [-1, 3] and [-2, 3] share a key.  After a query for [-2, 3] the
    query for [-1, 3] is answered with the five edges stored for [-2, 3];
    once 63 other windows have been used twice and a 64th arrives, that
    entry is the one evicted, and the same arguments yield the six edges of
    their own window. *)
Lemma hist_calls_far_apart_may_differ :
  let w := λ a b, Query (fz a, fz b, fz 0, fz 1) (640, 480) None None in
  let c2 := HistContainer.run [w (-2) 3] example_hist5 in
  let c3 := HistContainer.run ([w (-1) 3] ++ example_zooms ++ [example_zoom 64])
                              c2 in
  HistContainer.init (fz <$> [-2; 0; 3]) 5 = inr example_hist5 ∧
  (len <$> field "edges" (HistContainer.query (w (-1) 3) c2).1,
   len <$> field "edges" (HistContainer.query (w (-1) 3) c3).1)
  = (Some 5%nat, Some 6%nat).
Proof. split; [reflexivity|by vm_compute]. Qed.

(** ** Tabular adapters *)

Section collect_facts.
Context {V : Type} (df : DataFrame) (f : ndarray → V).
Implicit Types (items : list (string * string)) (acc m : gmap string V).

(** Every entry of the result was there before or is a column of the
    frame; an output name that no item carries keeps its entry. *)
Lemma collect_lookup items acc m out v :
  DataFrameContainer.collect df f items acc = inr m →
  m !! out = Some v →
  acc !! out = Some v ∨
  ∃ col w, (col, out) ∈ items ∧ df_getitem (df_columns df) col = inr w ∧ v = f w.
Proof.
  revert acc. induction items as [|[col o] items IH]; intros acc; simpl.
  - intros [= <-]. by left.
  - destruct (df_getitem (df_columns df) col) as [?|w] eqn:Hcol; [done|].
    intros Hm Hv. destruct (IH _ Hm Hv) as [Hacc|(col' & w' & Hin & Hget & ->)].
    + destruct (decide (o = out)) as [->|Hne].
      * rewrite lookup_insert_eq in Hacc. injection Hacc as <-.
        right. exists col, w. split; [left|done].
      * rewrite lookup_insert_ne in Hacc by done. by left.
    + right. exists col', w'. split; [by right|done].
Qed.

Lemma collect_untouched items acc m out :
  DataFrameContainer.collect df f items acc = inr m →
  out ∉ items.*2 →
  m !! out = acc !! out.
Proof.
  revert acc. induction items as [|[col o] items IH]; intros acc; simpl.
  - by intros [= <-].
  - destruct (df_getitem (df_columns df) col) as [?|w]; [done|].
    intros Hm [Hne Hnin]%not_elem_of_cons. rewrite (IH _ Hm Hnin).
    by rewrite lookup_insert_ne.
Qed.

(** With distinct output names every item's column arrives under its name. *)
Lemma collect_complete items acc m col out :
  DataFrameContainer.collect df f items acc = inr m →
  NoDup items.*2 →
  (col, out) ∈ items →
  ∃ w, df_getitem (df_columns df) col = inr w ∧ m !! out = Some (f w).
Proof.
  revert acc. induction items as [|[col' o] items IH]; intros acc; simpl.
  - by intros _ _ ?%elem_of_nil.
  - destruct (df_getitem (df_columns df) col') as [?|w] eqn:Hcol; [done|].
    intros Hm [Hnin Hnd]%NoDup_cons [[= -> ->]|Hin]%elem_of_cons.
    + exists w. split; [done|]. rewrite (collect_untouched _ _ _ _ Hm Hnin).
      by rewrite lookup_insert_eq.
    + by eapply IH.
Qed.

End collect_facts.

(** Whether the loop returns depends on the column labels alone. *)
Lemma collect_returns {V W} df (f : ndarray → V) (g : ndarray → W) items acc m acc' :
  DataFrameContainer.collect df f items acc = inr m →
  ∃ m', DataFrameContainer.collect df g items acc' = inr m'.
Proof.
  revert acc acc'. induction items as [|[col o] items IH]; intros acc acc'; simpl.
  - eauto.
  - destruct (df_getitem (df_columns df) col) as [?|w]; [done|]. apply IH.
Qed.

(** C7, as stated, fails when output names coincide: with the index and the
    column both named "x" the dict display keeps the column, and the index
    is not returned. *)
Lemma SeriesContainer_index_lost_on_name_clash :
  let s := mkSeries (array1d [fz 10; fz 20]) (array1d [fz 1; fz 4]) in
  let c := (SeriesContainer.init (H := example_uuids) s "x" "x" 0).1 in
  ∃ values key,
    (SeriesContainer.query (example_window 0 1) c).1 = inr (values, key) ∧
    values = {[ "x" := s_values s ]} ∧
    ∀ name, values !! name ≠ Some (s_index s).
Proof.
  intros s c. eexists _, _. split; [reflexivity|]. simpl.
  split; [apply insert_insert_eq|].
  intros name. rewrite insert_insert_eq.
  intros [_ Heq]%lookup_singleton_Some.
  by apply (f_equal rationals) in Heq.
Qed.

Lemma dataframe_init `{uuid.Source} df col_names index_name n c n' :
  DataFrameContainer.init df col_names index_name n = (inr c, n') →
  DataFrameContainer._data c = df ∧
  DataFrameContainer._index_name c = index_name ∧
  DataFrameContainer._hash_key c = uuid.draw n ∧
  ∃ (g : ndarray → Desc) acc desc,
    DataFrameContainer.collect df g (DataFrameContainer._col_name_dict c) acc
    = inr desc.
Proof.
  unfold DataFrameContainer.init.
  match goal with
  | |- context [DataFrameContainer.collect df ?g ?items ?acc] =>
      destruct (DataFrameContainer.collect df g items acc) as [?|desc] eqn:Hc;
      [done|]; intros [= <- <-]; simpl; repeat split; eauto
  end.
Qed.

(** C7 (amended): [query] on a [SeriesContainer] or a [DataFrameContainer]
    does not look at its arguments and leaves the container as it is; the
    key it returns is the uuid drawn at construction.  Every array it
    returns is a stored column, or the index, in full and unchanged.  The
    column of a series is always returned under its name, and its index
    unless the two names coincide; a frame returns every configured column
    when the output names are distinct, and its index under the configured
    name unless a column is given that name too. *)
Theorem Tabular_query_returns_stored_columns `{uuid.Source}
    (series : Series) (index_name col_name : string) (n : nat)
    (df : DataFrame) (col_names : DataFrameContainer.col_names_arg)
    (df_index_name : option string) (m : nat)
    (dfc : DataFrameContainer.t) (q1 q2 : query_args) :
  DataFrameContainer.init df col_names df_index_name m = (inr dfc, S m) →
  let sc := (SeriesContainer.init series index_name col_name n).1 in
  let outs := (DataFrameContainer._col_name_dict dfc).*2 in
  (∃ values,
     SeriesContainer.query q1 sc = (inr (values, uuid.draw n), sc) ∧
     SeriesContainer.query q2 sc = (inr (values, uuid.draw n), sc) ∧
     values !! col_name = Some (s_values series) ∧
     (index_name ≠ col_name → values !! index_name = Some (s_index series)) ∧
     (∀ name v, values !! name = Some v →
                v = s_values series ∨ v = s_index series)) ∧
  (∃ values,
     DataFrameContainer.query q1 dfc = (inr (values, uuid.draw m), dfc) ∧
     DataFrameContainer.query q2 dfc = (inr (values, uuid.draw m), dfc) ∧
     (∀ out v, values !! out = Some v →
        (df_index_name = Some out ∧ v = df_index df) ∨
        ∃ col, (col, out) ∈ DataFrameContainer._col_name_dict dfc ∧
               df_getitem (df_columns df) col = inr v) ∧
     (NoDup outs →
      ∀ col out, (col, out) ∈ DataFrameContainer._col_name_dict dfc →
        ∃ v, df_getitem (df_columns df) col = inr v ∧ values !! out = Some v) ∧
     (∀ name, df_index_name = Some name → name ∉ outs →
        values !! name = Some (df_index df))).
Proof.
  intros Hinit sc outs. split.
  - eexists. split; [reflexivity|]. split; [reflexivity|]. simpl.
    split; [by rewrite lookup_insert_eq|]. split.
    + intros Hne. rewrite lookup_insert_ne by done. by rewrite lookup_insert_eq.
    + intros name v. rewrite !lookup_insert.
      repeat case_decide; [naive_solver..|by rewrite lookup_empty].
  - destruct (dataframe_init _ _ _ _ _ _ Hinit)
      as (Hdata & Hiname & Hkey & g & acc & desc & Hdesc).
    set (start := match df_index_name with
                  | Some name => <[name := df_index df]> (∅ : gmap string ndarray)
                  | None => ∅
                  end).
    destruct (collect_returns df g id _ acc desc start Hdesc) as [values Hvalues].
    assert (Hq : ∀ q, DataFrameContainer.query q dfc
                      = (inr (values, uuid.draw m), dfc)).
    { intros q. unfold DataFrameContainer.query, Py.bind, Py.get, Py.lift, Py.ret.
      rewrite Hdata, Hiname, Hkey. fold start. by rewrite Hvalues. }
    exists values. split; [apply Hq|]. split; [apply Hq|]. split; [|split].
    + intros out v Hv.
      destruct (collect_lookup df id _ _ _ out v Hvalues Hv)
        as [Hstart|(col & w & Hin & Hget & ->)].
      * left. unfold start in Hstart. destruct df_index_name as [name|];
          [|by rewrite lookup_empty in Hstart].
        apply lookup_insert_Some in Hstart as [[-> ->]|[_ Hstart]]; [done|].
        by rewrite lookup_empty in Hstart.
      * right. by exists col.
    + intros Hnd col out Hin.
      destruct (collect_complete df id _ _ _ col out Hvalues Hnd Hin)
        as (w & Hget & Hw). by exists w.
    + intros name -> Hnin. rewrite (collect_untouched df id _ _ _ _ Hvalues Hnin).
      unfold start. by rewrite lookup_insert_eq.
Qed.

Lemma Tabular_query_returns_stored_columns_witness :
  let q1 := example_window 0 1 in
  let q2 := Query (fz 5, fz 6, fz 7, fz 8) (10, 20) (Some "log") (Some "log") in
  let sc := (SeriesContainer.init (H := example_uuids) example_series "t" "x" 3%nat).1 in
  let outs := (DataFrameContainer._col_name_dict example_dfc).*2 in
  (∃ values,
     SeriesContainer.query q1 sc = (inr (values, example_uuids 3%nat), sc) ∧
     SeriesContainer.query q2 sc = (inr (values, example_uuids 3%nat), sc) ∧
     values !! "x" = Some (s_values example_series) ∧
     ("t" ≠ "x" → values !! "t" = Some (s_index example_series)) ∧
     (∀ name v, values !! name = Some v →
                v = s_values example_series ∨ v = s_index example_series)) ∧
  (∃ values,
     DataFrameContainer.query q1 example_dfc
     = (inr (values, example_uuids 0%nat), example_dfc) ∧
     DataFrameContainer.query q2 example_dfc
     = (inr (values, example_uuids 0%nat), example_dfc) ∧
     (∀ out v, values !! out = Some v →
        (Some "t" = Some out ∧ v = df_index example_df) ∨
        ∃ col, (col, out) ∈ DataFrameContainer._col_name_dict example_dfc ∧
               df_getitem (df_columns example_df) col = inr v) ∧
     (NoDup outs →
      ∀ col out, (col, out) ∈ DataFrameContainer._col_name_dict example_dfc →
        ∃ v, df_getitem (df_columns example_df) col = inr v ∧
             values !! out = Some v) ∧
     (∀ name, Some "t" = Some name → name ∉ outs →
        values !! name = Some (df_index example_df))).
Proof.
  intros q1 q2.
  apply (Tabular_query_returns_stored_columns (H := example_uuids)
           example_series "t" "x" 3%nat example_df
           (DataFrameContainer.ByDict [("a", "x"); ("b", "y")]) (Some "t") 0%nat
           example_dfc q1 q2).
  reflexivity.
Defined.

(** ** [WebServiceContainer] *)

(** C8: the code does not do what the claim says.  The claim has every
    call of [query] return a [(values, cache_key)] pair; in the code the
    nested helper evaluates the tuple [{}, "1"] but has no [return], so it
    yields [None], unpacking it raises [TypeError], and no call of [query],
    whatever its arguments, returns a pair or a key. *)
Theorem WebServiceContainer_query_raises_TypeError (q : query_args) :
  WebServiceContainer.hit_some_database tt = WebServiceContainer.VNone ∧
  WebServiceContainer.query q
  = inl (Py.Raise Py.TypeError "cannot unpack non-iterable NoneType object") ∧
  cache_key (WebServiceContainer.query q) = None.
Proof. done. Qed.

(** * Further properties *)

(** ** [ArrayContainer] *)

(** X1: at construction [describe()] holds, for every stored name and for no
    other, the shape and dtype of the array stored under it; and in every
    state that updates can reach, [describe()] and [query] list exactly the
    same names. *)
Theorem ArrayContainer_describe_names_are_query_names `{uuid.Source}
    (data : gmap string ndarray) (n : nat) (h : ArrayContainer.heap)
    (q : query_args) :
  ArrayContainer.reachable h →
  (∀ k, ArrayContainer._desc (ArrayContainer.obj (ArrayContainer.init data n)) !! k
        = (λ v, Desc_ (DimInt <$> nd_shape v) (nd_dtype v)) <$> data !! k) ∧
  ∃ desc values key,
    ArrayContainer.describe h = (inr desc, h) ∧
    ArrayContainer.query q h = (inr (values, key), h) ∧
    dom desc = dom values.
Proof.
  intros Hreach. split.
  - intros k. simpl. by rewrite lookup_fmap.
  - destruct (reachable_inv h Hreach) as [Hdom _].
    eexists _, _, _. split; [reflexivity|]. split; [reflexivity|]. done.
Qed.

Lemma ArrayContainer_describe_names_are_query_names_witness :
  let data : gmap string ndarray := {[ "x" := array1d [fz 0; fz 1; fz 2] ]} in
  let h := (ArrayContainer.update (H := example_uuids)
              {[ "x" := array1d [fz 7] ]}
              (ArrayContainer.init (H := example_uuids) data 0)).2 in
  (∀ k, ArrayContainer._desc
          (ArrayContainer.obj (ArrayContainer.init (H := example_uuids) data 0)) !! k
        = (λ v, Desc_ (DimInt <$> nd_shape v) (nd_dtype v)) <$> data !! k) ∧
  ∃ desc values key,
    ArrayContainer.describe h = (inr desc, h) ∧
    ArrayContainer.query (example_window 0 1) h = (inr (values, key), h) ∧
    dom desc = dom values.
Proof.
  intros data h.
  apply (ArrayContainer_describe_names_are_query_names (H := example_uuids)).
  apply ArrayContainer.reach_update, ArrayContainer.reach_init.
Defined.

(** X2: [update] never writes the descriptors.  After an update that
    succeeded, [query] returns the new array under each updated name while
    [describe()] still reports the shape and dtype of the array given at
    construction, whatever the new array looks like. *)
Theorem ArrayContainer_update_keeps_describe `{uuid.Source}
    (data0 data : gmap string ndarray) (n : nat) (k : string)
    (v0 v : ndarray) (q : query_args) :
  dom data ⊆ dom data0 →
  data0 !! k = Some v0 →
  data !! k = Some v →
  let h := ArrayContainer.init data0 n in
  ∃ h' desc values key,
    ArrayContainer.update data h = (inr tt, h') ∧
    ArrayContainer.describe h' = (inr desc, h') ∧
    (ArrayContainer.describe h).1 = inr desc ∧
    ArrayContainer.query q h' = (inr (values, key), h') ∧
    values !! k = Some v ∧
    desc !! k = Some (Desc_ (DimInt <$> nd_shape v0) (nd_dtype v0)).
Proof.
  intros Hsub Hk0 Hk h.
  eexists _, _, _, _. split.
  { apply update_known. by rewrite known_names_dom. }
  split; [reflexivity|]. split; [reflexivity|]. split; [reflexivity|].
  simpl. split.
  - by apply lookup_union_Some_l.
  - by rewrite lookup_fmap, Hk0.
Qed.

Lemma ArrayContainer_update_keeps_describe_witness :
  let data0 : gmap string ndarray := {[ "x" := array1d [fz 0; fz 1; fz 2] ]} in
  let data : gmap string ndarray := {[ "x" := array1d [fz 7] ]} in
  let h := ArrayContainer.init (H := example_uuids) data0 0 in
  ∃ h' desc values key,
    ArrayContainer.update (H := example_uuids) data h = (inr tt, h') ∧
    ArrayContainer.describe h' = (inr desc, h') ∧
    (ArrayContainer.describe h).1 = inr desc ∧
    ArrayContainer.query (example_window 0 1) h' = (inr (values, key), h') ∧
    values !! "x" = Some (array1d [fz 7]) ∧
    desc !! "x" = Some (Desc_ (DimInt <$> nd_shape (array1d [fz 0; fz 1; fz 2]))
                              (nd_dtype (array1d [fz 0; fz 1; fz 2]))).
Proof.
  intros data0 data h.
  apply (ArrayContainer_update_keeps_describe (H := example_uuids)
           data0 data 0 "x" (array1d [fz 0; fz 1; fz 2]) (array1d [fz 7])).
  - apply elem_of_subseteq. intros k Hk.
    apply elem_of_dom in Hk as [v Hk].
    apply lookup_singleton_Some in Hk as [<- _].
    apply elem_of_dom. exists (array1d [fz 0; fz 1; fz 2]). reflexivity.
  - reflexivity.
  - reflexivity.
Defined.

(** X3: [update] regenerates the key even when it changes nothing.  Given
    only values that are already stored -- or no name at all -- it succeeds,
    [query] returns the same mapping as before, and the key is a newly drawn
    uuid, different from the old one when the supply does not repeat. *)
Theorem ArrayContainer_update_without_change_rekeys `{uuid.Source}
    (h : ArrayContainer.heap) (data : gmap string ndarray) (q : query_args) :
  (∀ i j, uuid.draw i = uuid.draw j → i = j) →
  ArrayContainer.reachable h →
  data ⊆ ArrayContainer._data (ArrayContainer.obj h) →
  ∃ h' values key key',
    ArrayContainer.update data h = (inr tt, h') ∧
    ArrayContainer.query q h = (inr (values, key), h) ∧
    ArrayContainer.query q h' = (inr (values, key'), h') ∧
    key' = uuid.draw (ArrayContainer.drawn h) ∧
    key' ≠ key.
Proof.
  intros Hfresh Hreach Hsub.
  destruct (reachable_inv h Hreach) as [_ (i & Hi & Hkey)].
  eexists _, _, _, _. split.
  { apply update_known. rewrite known_names_dom. by apply subseteq_dom. }
  split; [reflexivity|]. simpl. split; [|split; [reflexivity|]].
  - unfold ArrayContainer.query, Py.bind, Py.get, Py.ret. simpl.
    do 2 f_equal. f_equal. by apply map_subseteq_union.
  - rewrite Hkey. intros Heq%Hfresh. lia.
Qed.

Lemma ArrayContainer_update_without_change_rekeys_witness :
  let h := ArrayContainer.init (H := example_uuids)
             {[ "x" := array1d [fz 0; fz 1; fz 2] ]} 0 in
  ∃ h' values key key',
    ArrayContainer.update (H := example_uuids) ∅ h = (inr tt, h') ∧
    ArrayContainer.query (example_window 0 1) h = (inr (values, key), h) ∧
    ArrayContainer.query (example_window 0 1) h' = (inr (values, key'), h') ∧
    key' = example_uuids (ArrayContainer.drawn h) ∧
    key' ≠ key.
Proof.
  intros h.
  apply (ArrayContainer_update_without_change_rekeys (H := example_uuids)).
  - intros i j Hij. exact (pretty_nat_inj i j Hij).
  - apply ArrayContainer.reach_init.
  - apply map_empty_subseteq.
Defined.

(** X4: two updates in a row store what one update with the merged mapping
    stores, the later values winning; only the key differs, the pair having
    drawn two uuids and the single call one. *)
Theorem ArrayContainer_updates_compose `{uuid.Source}
    (h : ArrayContainer.heap) (d1 d2 : gmap string ndarray) :
  dom d1 ⊆ dom (ArrayContainer._data (ArrayContainer.obj h)) →
  dom d2 ⊆ dom (ArrayContainer._data (ArrayContainer.obj h)) →
  ∃ h1 h2 h12,
    ArrayContainer.update d1 h = (inr tt, h1) ∧
    ArrayContainer.update d2 h1 = (inr tt, h2) ∧
    ArrayContainer.update (d2 ∪ d1) h = (inr tt, h12) ∧
    ArrayContainer._data (ArrayContainer.obj h2)
    = ArrayContainer._data (ArrayContainer.obj h12) ∧
    ArrayContainer._desc (ArrayContainer.obj h2)
    = ArrayContainer._desc (ArrayContainer.obj h12) ∧
    ArrayContainer.drawn h2 = S (ArrayContainer.drawn h12) ∧
    ArrayContainer._cache_key (ArrayContainer.obj h2)
    = uuid.draw (ArrayContainer.drawn h12).
Proof.
  intros H1 H2.
  eexists _, _, _. split.
  { apply update_known. by rewrite known_names_dom. }
  split.
  { apply update_known. rewrite known_names_dom. simpl.
    rewrite dom_union_L. intros x Hx. apply elem_of_union. right. by apply H2. }
  split.
  { apply update_known. rewrite known_names_dom, dom_union_L.
    by apply union_subseteq. }
  simpl. split; [by rewrite (assoc_L (∪))|done].
Qed.

Lemma ArrayContainer_updates_compose_witness :
  let h := ArrayContainer.init (H := example_uuids)
             (<[ "y" := array1d [fz 1; fz 4] ]>
                {[ "x" := array1d [fz 0; fz 1] ]}) 0 in
  let d1 : gmap string ndarray :=
    <[ "y" := array1d [fz 5; fz 6] ]> {[ "x" := array1d [fz 2; fz 3] ]} in
  let d2 : gmap string ndarray := {[ "x" := array1d [fz 8; fz 9] ]} in
  ∃ h1 h2 h12,
    ArrayContainer.update (H := example_uuids) d1 h = (inr tt, h1) ∧
    ArrayContainer.update (H := example_uuids) d2 h1 = (inr tt, h2) ∧
    ArrayContainer.update (H := example_uuids) (d2 ∪ d1) h = (inr tt, h12) ∧
    ArrayContainer._data (ArrayContainer.obj h2)
    = ArrayContainer._data (ArrayContainer.obj h12) ∧
    ArrayContainer._desc (ArrayContainer.obj h2)
    = ArrayContainer._desc (ArrayContainer.obj h12) ∧
    ArrayContainer.drawn h2 = S (ArrayContainer.drawn h12) ∧
    ArrayContainer._cache_key (ArrayContainer.obj h2)
    = example_uuids (ArrayContainer.drawn h12).
Proof.
  intros h d1 d2.
  apply (ArrayContainer_updates_compose (H := example_uuids) h d1 d2).
  - apply elem_of_subseteq. intros k Hk. apply elem_of_dom.
    apply elem_of_dom in Hk as [v Hk].
    apply lookup_insert_Some in Hk as [[<- _]|[_ Hk]]; [by eexists|].
    apply lookup_singleton_Some in Hk as [<- _]. by eexists.
  - apply elem_of_subseteq. intros k Hk. apply elem_of_dom.
    apply elem_of_dom in Hk as [v Hk].
    apply lookup_singleton_Some in Hk as [<- _]. by eexists.
Defined.

(** ** [FuncContainer] *)

Section func_more.
Context `{pyhash.Seed}.
Implicit Types (self c : FuncContainer.t) (q : query_args).

Lemma func_query_same_funcs q self :
  same_funcs (FuncContainer.query q self).2 self.
Proof. rewrite func_query_memo. unfold zoom. by destruct (memo _ _ _). Qed.

Lemma func_query_result q self :
  (FuncContainer.query q self).1
  = (memo (FuncContainer.hash_query q) (FuncContainer.sample self q)
          (FuncContainer._cache self)).1.
Proof. rewrite func_query_memo. unfold zoom. by destruct (memo _ _ _). Qed.

Lemma same_funcs_sample a b q :
  same_funcs a b → FuncContainer.sample a q = FuncContainer.sample b q.
Proof.
  intros (_ & Hx & Hy & Hxy). unfold FuncContainer.sample.
  by rewrite Hx, Hy, Hxy.
Qed.

Lemma func_inv_query (c0 : FuncContainer.t) c q :
  func_inv c0 c → func_inv c0 (FuncContainer.query q c).2.
Proof.
  intros (Hs & Hok & Hprov). split; [|split].
  - pose proof (func_query_same_funcs q c) as Hs'.
    destruct Hs as (? & ? & ? & ?), Hs' as (? & ? & ? & ?).
    repeat split; congruence.
  - rewrite func_query_cache. by apply memo_cache_ok.
  - intros e. rewrite func_query_cache. intros He.
    apply memo_entries in He; [|done].
    destruct He as [(e0 & He0 & Hk & Hv)|[Hk Hv]].
    + destruct (Hprov e0 He0) as (q' & Hk' & Hv').
      exists q'. by rewrite Hk, Hv.
    + exists q. split; [done|]. by rewrite <- (same_funcs_sample c c0).
Qed.

Lemma func_inv_run (c0 : FuncContainer.t) c qs :
  func_inv c0 c → func_inv c0 (FuncContainer.run qs c).
Proof.
  revert c. induction qs as [|q qs IH]; intros c Hinv; [done|].
  simpl. apply IH. by apply func_inv_query.
Qed.

Lemma func_inv_init xfuncs yfuncs xyfuncs :
  let c0 := FuncContainer.init xfuncs yfuncs xyfuncs in func_inv c0 c0.
Proof.
  intros c0. split; [done|]. split; [apply cache_ok_new|].
  simpl. by intros e ?%elem_of_nil.
Qed.

(** Sampling returns exactly when the groups share no name and neither
    pixel count is negative. *)
Lemma dict_kwargs3_returns {V} (a b c : gmap string V) :
  a ##ₘ b → a ##ₘ c → b ##ₘ c → dict_kwargs3 a b c = inr (a ∪ b ∪ c).
Proof. intros. unfold dict_kwargs3. by rewrite bool_decide_eq_true_2. Qed.

Lemma dict_kwargs3_inv {V} (a b c m : gmap string V) :
  dict_kwargs3 a b c = inr m → m = a ∪ b ∪ c ∧ a ##ₘ b ∧ a ##ₘ c ∧ b ##ₘ c.
Proof.
  unfold dict_kwargs3. case_bool_decide as Hd; [|done]. by intros [= <-].
Qed.

Lemma distinct_groups_disjoint self (x y : ndarray) :
  distinct_groups self →
  let a := (λ f : FuncContainer.xfunc, f x) <$> FuncContainer._xfuncs self in
  let b := (λ f : FuncContainer.xfunc, f y) <$> FuncContainer._yfuncs self in
  let c := (λ f : FuncContainer.xyfunc, f x y) <$> FuncContainer._xyfuncs self in
  a ##ₘ b ∧ a ##ₘ c ∧ b ##ₘ c.
Proof.
  intros Hd a b c. unfold a, b, c.
  repeat split; apply map_disjoint_spec; intros k v w;
    rewrite !lookup_fmap; intros Hv Hw; destruct (Hd k) as [Hx Hy].
  - destruct (FuncContainer._xfuncs self !! k) eqn:E; [|done].
    destruct Hx as [Hy' _]; [done|]. by rewrite Hy' in Hw.
  - destruct (FuncContainer._xfuncs self !! k) eqn:E; [|done].
    destruct Hx as [_ Hxy]; [done|]. by rewrite Hxy in Hw.
  - destruct (FuncContainer._yfuncs self !! k) eqn:E; [|done].
    rewrite Hy in Hw; done.
Qed.

Lemma disjoint_distinct_groups self (x y : ndarray) :
  let a := (λ f : FuncContainer.xfunc, f x) <$> FuncContainer._xfuncs self in
  let b := (λ f : FuncContainer.xfunc, f y) <$> FuncContainer._yfuncs self in
  let c := (λ f : FuncContainer.xyfunc, f x y) <$> FuncContainer._xyfuncs self in
  a ##ₘ b → a ##ₘ c → b ##ₘ c → distinct_groups self.
Proof.
  intros a b c Hab Hac Hbc k.
  rewrite map_disjoint_alt in Hab, Hac, Hbc.
  specialize (Hab k). specialize (Hac k). specialize (Hbc k).
  unfold a, b, c in *. rewrite !lookup_fmap in *.
  destruct (FuncContainer._xfuncs self !! k),
    (FuncContainer._yfuncs self !! k),
    (FuncContainer._xyfuncs self !! k); simpl in *;
    (split; [intros [? ?]; split|intros [? ?]]); try done;
    try (destruct Hab; done); try (destruct Hac; done);
    try (destruct Hbc; done).
Qed.

Lemma sample_returns self q xmin xmax ymin ymax xpix ypix :
  data_bounds q = (xmin, xmax, ymin, ymax) →
  size q = (xpix, ypix) →
  distinct_groups self → 0 ≤ xpix → 0 ≤ ypix →
  ∃ xs ys,
    np.linspace xmin xmax (xpix * 2) = inr xs ∧
    np.linspace ymin ymax (ypix * 2) = inr ys ∧
    length xs = Z.to_nat (2 * xpix) ∧ length ys = Z.to_nat (2 * ypix) ∧
    FuncContainer.sample self q
    = inr (((λ f : FuncContainer.xfunc, f (array1d xs))
              <$> FuncContainer._xfuncs self)
           ∪ ((λ f : FuncContainer.xfunc, f (array1d ys))
                <$> FuncContainer._yfuncs self)
           ∪ ((λ f : FuncContainer.xyfunc, f (array1d xs) (array1d ys))
                <$> FuncContainer._xyfuncs self)).
Proof.
  intros Hb Hs Hd Hx Hy.
  destruct (linspace_returns xmin xmax (xpix * 2)) as (xs & Hxs & Hlx); [lia|].
  destruct (linspace_returns ymin ymax (ypix * 2)) as (ys & Hys & Hly); [lia|].
  exists xs, ys. split; [done|]. split; [done|].
  split; [rewrite Hlx; f_equal; lia|]. split; [rewrite Hly; f_equal; lia|].
  unfold FuncContainer.sample. rewrite Hb, Hs, Hxs, Hys.
  destruct (distinct_groups_disjoint self (array1d xs) (array1d ys) Hd)
    as (? & ? & ?).
  by apply dict_kwargs3_returns.
Qed.

Lemma sample_inv self q values :
  FuncContainer.sample self q = inr values →
  distinct_groups self ∧
  dom values = dom (FuncContainer._xfuncs self)
               ∪ dom (FuncContainer._yfuncs self)
               ∪ dom (FuncContainer._xyfuncs self).
Proof.
  unfold FuncContainer.sample.
  destruct (data_bounds q) as [[[xmin xmax] ymin] ymax].
  destruct (size q) as [xpix ypix].
  destruct (np.linspace xmin xmax _) as [?|xs]; [done|].
  destruct (np.linspace ymin ymax _) as [?|ys]; [done|].
  intros (-> & Hab & Hac & Hbc)%dict_kwargs3_inv. split.
  - by eapply disjoint_distinct_groups.
  - by rewrite !dom_union_L, !dom_fmap_L.
Qed.

Lemma func_init_desc_dom xfuncs yfuncs xyfuncs :
  let c0 := FuncContainer.init xfuncs yfuncs xyfuncs in
  dom (FuncContainer._desc c0)
  = dom (FuncContainer._xfuncs c0) ∪ dom (FuncContainer._yfuncs c0)
    ∪ dom (FuncContainer._xyfuncs c0).
Proof.
  simpl. unfold FuncContainer.split_desc, FuncContainer.split_funcs.
  rewrite !dom_union_L, !dom_fmap_L.
  apply set_eq. intros k. rewrite !elem_of_union. tauto.
Qed.

End func_more.

(** X5: [describe()] lists the names of the three groups of functions, and
    keeps doing so whatever has been queried; every mapping [query] returns,
    computed or cached, has exactly those names. *)
Theorem FuncContainer_describe_names_are_query_names `{pyhash.Seed}
    (xfuncs yfuncs : option (gmap string (list dim * FuncContainer.xfunc)))
    (xyfuncs : option (gmap string (list dim * FuncContainer.xyfunc)))
    (qs : list query_args) (q : query_args)
    (values : gmap string ndarray) (key : Z) :
  let c0 := FuncContainer.init xfuncs yfuncs xyfuncs in
  let c := FuncContainer.run qs c0 in
  (FuncContainer.query q c).1 = inr (values, key) →
  ∃ desc,
    FuncContainer.describe c = (inr desc, c) ∧
    desc = FuncContainer._desc c0 ∧
    dom desc = dom (default ∅ xfuncs) ∪ dom (default ∅ yfuncs)
               ∪ dom (default ∅ xyfuncs) ∧
    dom values = dom desc.
Proof.
  intros c0 c Hres.
  pose proof (func_inv_run c0 c0 qs (func_inv_init _ _ _)) as Hinv.
  fold c in Hinv. destruct Hinv as (Hs & Hok & Hprov).
  pose proof (func_init_desc_dom xfuncs yfuncs xyfuncs) as Hdom. fold c0 in Hdom.
  exists (FuncContainer._desc c). split; [done|].
  destruct Hs as (Hdesc & _). split; [done|]. rewrite Hdesc. split.
  { rewrite Hdom. simpl. unfold FuncContainer.split_funcs.
    by rewrite !dom_fmap_L. }
  rewrite Hdom. rewrite func_query_result in Hres.
  assert (Hsample : ∃ q', FuncContainer.sample c0 q' = inr values).
  { destruct (LFUCache.contains (FuncContainer._cache c)
                (FuncContainer.hash_query q)) eqn:Hin.
    - destruct (memo_hit _ (FuncContainer.sample c q) _ Hin) as (e & He & Hm).
      rewrite Hm in Hres. simpl in Hres. injection Hres as <- <-.
      apply find_Some in He as [He _].
      destruct (Hprov e He) as (q' & _ & Hv). by exists q'.
    - destruct (FuncContainer.sample c q) as [x|v] eqn:Hsmp.
      + by rewrite memo_miss_raise in Hres.
      + destruct (memo_miss_store _ _ v Hok Hin) as (kept & Hm & _).
        rewrite Hm in Hres. simpl in Hres. injection Hres as <- <-.
        exists q. rewrite <- Hsmp. symmetry. apply same_funcs_sample.
        by pose proof (func_inv_run c0 c0 qs (func_inv_init _ _ _)) as (? & _). }
  destruct Hsample as (q' & Hq'). by apply sample_inv in Hq' as [_ ->].
Qed.

Lemma FuncContainer_describe_names_are_query_names_witness :
  let c := FuncContainer.run (H := example_seed) [example_pan 0] example_funcs in
  let q := example_pan 1 in
  ∃ values key desc,
    (FuncContainer.query (H := example_seed) q c).1 = inr (values, key) ∧
    FuncContainer.describe c = (inr desc, c) ∧
    desc = FuncContainer._desc example_funcs ∧
    dom desc = dom (default ∅ (Some example_xfuncs))
               ∪ dom (default ∅ (Some ({[ "z" := ([DimSym "M"], λ y : ndarray, y) ]}
                     : gmap string (list dim * FuncContainer.xfunc))))
               ∪ dom (default ∅ (None : option (gmap string (list dim * FuncContainer.xyfunc)))) ∧
    dom values = dom desc.
Proof.
  intros c q.
  destruct (FuncContainer.query (H := example_seed) q c).1 as [x|[values key]] eqn:Hres;
    [vm_compute in Hres; discriminate Hres|].
  exists values, key.
  destruct (FuncContainer_describe_names_are_query_names (H := example_seed)
              (Some example_xfuncs)
              (Some {[ "z" := ([DimSym "M"], λ y : ndarray, y) ]}) None
              [example_pan 0] q values key Hres) as (desc & Hd).
  exists desc. split; [reflexivity|exact Hd].
Defined.

(** X6: [__init__] accepts a name given in two groups, but then no query is
    ever answered: sampling ends in [dict()] refusing the repeated keyword
    (or earlier, in [np.linspace] refusing a negative count), nothing is
    stored, and the cache stays empty. *)
Theorem FuncContainer_shared_name_never_answers `{pyhash.Seed}
    (xfuncs yfuncs : option (gmap string (list dim * FuncContainer.xfunc)))
    (xyfuncs : option (gmap string (list dim * FuncContainer.xyfunc)))
    (qs : list query_args) (q : query_args) :
  let c0 := FuncContainer.init xfuncs yfuncs xyfuncs in
  let c := FuncContainer.run qs c0 in
  ¬ distinct_groups c0 →
  LFUCache.entries (FuncContainer._cache c) = [] ∧
  ∃ e, FuncContainer.query q c = (inl e, c) ∧
       (0 ≤ (size q).1 → 0 ≤ (size q).2 →
        Py.exn_class e = Py.TypeError).
Proof.
  intros c0 c Hshared.
  assert (Hraise : ∀ self q', same_funcs self c0 →
            ∃ e, FuncContainer.sample self q' = inl e ∧
                 (0 ≤ (size q').1 → 0 ≤ (size q').2 →
                  Py.exn_class e = Py.TypeError)).
  { intros self q' Hs. rewrite (same_funcs_sample self c0) by done.
    destruct (FuncContainer.sample c0 q') as [e|v] eqn:Hsmp.
    - exists e. split; [done|]. intros Hx Hy.
      unfold FuncContainer.sample in Hsmp.
      destruct (data_bounds q') as [[[xmin xmax] ymin] ymax].
      destruct (size q') as [xpix ypix]. simpl in Hx, Hy.
      destruct (linspace_returns xmin xmax (xpix * 2)) as (xs & Hxs & _); [lia|].
      destruct (linspace_returns ymin ymax (ypix * 2)) as (ys & Hys & _); [lia|].
      rewrite Hxs, Hys in Hsmp. unfold dict_kwargs3 in Hsmp.
      case_bool_decide; [done|]. by injection Hsmp as <-.
    - by apply sample_inv in Hsmp as [Hd _]. }
  assert (Hempty : ∀ qs' self, same_funcs self c0 →
            LFUCache.entries (FuncContainer._cache self) = [] →
            same_funcs (FuncContainer.run qs' self) c0 ∧
            LFUCache.entries (FuncContainer._cache (FuncContainer.run qs' self)) = []).
  { induction qs' as [|q' qs' IH]; intros self Hs Hnil; [done|].
    simpl. destruct (Hraise self q' Hs) as (e & Hsmp & _).
    assert (Hq : FuncContainer.query q' self = (inl e, self)).
    { rewrite func_query_memo. unfold zoom, memo, LFUCache.contains, LFUCache.keys.
      rewrite Hnil, Hsmp. simpl. by destruct self. }
    rewrite Hq. simpl. by apply IH. }
  destruct (Hempty qs c0) as [Hs Hnil]; [done..|]. fold c in Hs, Hnil.
  split; [done|]. destruct (Hraise c q Hs) as (e & Hsmp & He).
  exists e. split; [|done].
  rewrite func_query_memo. unfold zoom, memo, LFUCache.contains, LFUCache.keys.
  rewrite Hnil, Hsmp. simpl. by destruct c.
Qed.

Lemma FuncContainer_shared_name_never_answers_witness :
  let xfuncs : gmap string (list dim * FuncContainer.xfunc) :=
    {[ "y" := ([DimSym "N"], λ x : ndarray, x) ]} in
  let yfuncs : gmap string (list dim * FuncContainer.xfunc) :=
    {[ "y" := ([DimSym "M"], λ y : ndarray, y) ]} in
  let c := FuncContainer.run (H := example_seed) [example_pan 0]
             (FuncContainer.init (Some xfuncs) (Some yfuncs) None) in
  LFUCache.entries (FuncContainer._cache c) = [] ∧
  ∃ e, FuncContainer.query (H := example_seed) (example_pan 1) c = (inl e, c) ∧
       (0 ≤ (size (example_pan 1)).1 → 0 ≤ (size (example_pan 1)).2 →
        Py.exn_class e = Py.TypeError).
Proof.
  intros xfuncs yfuncs c.
  apply (FuncContainer_shared_name_never_answers (H := example_seed)
           (Some xfuncs) (Some yfuncs) None [example_pan 0] (example_pan 1)).
  intros Hd. destruct (Hd "y") as [Hx _].
  destruct Hx as [Hy _]; [by eexists|]. discriminate Hy.
Defined.

(** X7: a [query] that raises leaves the container exactly as it was: the
    cache is written only after sampling has returned. *)
Theorem FuncContainer_failed_query_keeps_state `{pyhash.Seed}
    (xfuncs yfuncs : option (gmap string (list dim * FuncContainer.xfunc)))
    (xyfuncs : option (gmap string (list dim * FuncContainer.xyfunc)))
    (qs : list query_args) (q : query_args) (e : Py.exn) :
  let c := FuncContainer.run qs (FuncContainer.init xfuncs yfuncs xyfuncs) in
  (FuncContainer.query q c).1 = inl e →
  FuncContainer.query q c = (inl e, c) ∧
  FuncContainer.sample c q = inl e ∧
  LFUCache.contains (FuncContainer._cache c) (FuncContainer.hash_query q) = false.
Proof.
  intros c Hres.
  pose proof (func_inv_run _ _ qs (func_inv_init xfuncs yfuncs xyfuncs))
    as (_ & Hok & _). fold c in Hok.
  rewrite func_query_result in Hres.
  destruct (LFUCache.contains (FuncContainer._cache c)
              (FuncContainer.hash_query q)) eqn:Hin.
  - destruct (memo_hit _ (FuncContainer.sample c q) _ Hin) as (e' & _ & Hm).
    by rewrite Hm in Hres.
  - destruct (FuncContainer.sample c q) as [x|v] eqn:Hsmp.
    + rewrite memo_miss_raise in Hres by done. injection Hres as ->.
      split; [|done]. rewrite func_query_memo, Hsmp. unfold zoom.
      rewrite memo_miss_raise by done. by destruct c.
    + destruct (memo_miss_store _ _ v Hok Hin) as (kept & Hm & _).
      by rewrite Hm in Hres.
Qed.

Lemma FuncContainer_failed_query_keeps_state_witness :
  let c := FuncContainer.run (H := example_seed) [example_pan 0]
             (FuncContainer.init (Some example_xfuncs) None None) in
  let q := Query (fz 0, fz 1, fz 0, fz 1) (-1, 2) None None in
  let e := Py.Raise Py.ValueError "Number of samples must be non-negative." in
  FuncContainer.query (H := example_seed) q c = (inl e, c) ∧
  FuncContainer.sample c q = inl e ∧
  LFUCache.contains (FuncContainer._cache c)
    (FuncContainer.hash_query (H := example_seed) q) = false.
Proof.
  intros c q e.
  apply (FuncContainer_failed_query_keeps_state (H := example_seed)
           (Some example_xfuncs) None None [example_pan 0] q e).
  by vm_compute.
Defined.

Lemma linspace_endpoints start stop (num : Z) lin :
  2 ≤ num →
  np.linspace start stop num = inr lin →
  head lin = Some start ∧ last lin = Some stop.
Proof.
  intros Hnum. unfold np.linspace. rewrite bool_decide_eq_false_2 by lia.
  intros [= <-].
  destruct (Z.to_nat num) as [|n] eqn:Hn; [lia|]. split.
  - simpl. f_equal. change (Z.of_nat 0) with 0. rewrite fz_0. ring.
  - rewrite seq_S, fmap_app. csimpl. rewrite last_snoc. f_equal.
    replace (Z.of_nat n) with (num - 1) by lia.
    assert (Hne : fz (num - 1) ≠ 0%Qc).
    { intros Heq. pose proof (fz_lt 0 (num - 1) ltac:(lia)) as Hlt.
      rewrite fz_0, Heq in Hlt. by apply Qclt_not_eq in Hlt. }
    rewrite Qcmult_div_r by done. ring.
Qed.

(** X8: a query that is not in the cache samples twice per pixel: the x
    functions are applied to [2 * xpix] points spread evenly over
    [xmin, xmax], both ends included, the y functions to [2 * ypix] points
    over [ymin, ymax], the xy functions to both; the result is stored under
    the hash of the arguments with one use. *)
Theorem FuncContainer_miss_samples_twice_per_pixel `{pyhash.Seed}
    (xfuncs yfuncs : option (gmap string (list dim * FuncContainer.xfunc)))
    (xyfuncs : option (gmap string (list dim * FuncContainer.xyfunc)))
    (qs : list query_args) (q : query_args)
    (xmin xmax ymin ymax : Qc) (xpix ypix : Z) :
  let c0 := FuncContainer.init xfuncs yfuncs xyfuncs in
  let c := FuncContainer.run qs c0 in
  distinct_groups c0 →
  data_bounds q = (xmin, xmax, ymin, ymax) →
  size q = (xpix, ypix) →
  1 ≤ xpix → 1 ≤ ypix →
  LFUCache.contains (FuncContainer._cache c) (FuncContainer.hash_query q) = false →
  ∃ xs ys values,
    np.linspace xmin xmax (xpix * 2) = inr xs ∧
    np.linspace ymin ymax (ypix * 2) = inr ys ∧
    length xs = Z.to_nat (2 * xpix) ∧ length ys = Z.to_nat (2 * ypix) ∧
    head xs = Some xmin ∧ last xs = Some xmax ∧
    head ys = Some ymin ∧ last ys = Some ymax ∧
    (FuncContainer.query q c).1 = inr (values, FuncContainer.hash_query q) ∧
    (∀ k sf, default ∅ xfuncs !! k = Some sf →
             values !! k = Some (sf.2 (array1d xs))) ∧
    (∀ k sf, default ∅ yfuncs !! k = Some sf →
             values !! k = Some (sf.2 (array1d ys))) ∧
    (∀ k sf, default ∅ xyfuncs !! k = Some sf →
             values !! k = Some (sf.2 (array1d xs) (array1d ys))) ∧
    last (LFUCache.entries (FuncContainer._cache (FuncContainer.query q c).2))
    = Some (LFUCache.Entry (FuncContainer.hash_query q) values (-1)).
Proof.
  intros c0 c Hd Hb Hsz Hx Hy Hnew.
  pose proof (func_inv_run c0 c0 qs (func_inv_init _ _ _)) as (Hs & Hok & _).
  fold c in Hs, Hok.
  destruct (sample_returns c0 q xmin xmax ymin ymax xpix ypix)
    as (xs & ys & Hxs & Hys & Hlx & Hly & Hsmp); [done|done|done|lia|lia|].
  destruct (linspace_endpoints xmin xmax (xpix * 2) xs ltac:(lia) Hxs)
    as [Hhx Hlastx].
  destruct (linspace_endpoints ymin ymax (ypix * 2) ys ltac:(lia) Hys)
    as [Hhy Hlasty].
  rewrite <- (same_funcs_sample c c0) in Hsmp by done.
  match type of Hsmp with
  | _ = inr ?v =>
      set (values := v) in *;
      destruct (memo_miss_store (FuncContainer.hash_query q) _ values Hok Hnew)
        as (kept & Hm & _)
  end.
  exists xs, ys, values. split; [done|]. split; [done|].
  split; [done|]. split; [done|].
  split; [done|]. split; [done|]. split; [done|]. split; [done|].
  split; [rewrite func_query_result, Hsmp, Hm; reflexivity|].
  destruct (distinct_groups_disjoint c0 (array1d xs) (array1d ys) Hd)
    as (Hab & Hac & Hbc).
  simpl in Hab, Hac, Hbc. unfold FuncContainer.split_funcs in *.
  split; [|split; [|split]].
  - intros k sf Hk. unfold values, c0. simpl. unfold FuncContainer.split_funcs.
    apply lookup_union_Some_l, lookup_union_Some_l.
    rewrite !lookup_fmap.
    unfold FuncContainer.xfunc, FuncContainer.xyfunc in *. by rewrite Hk.
  - intros k sf Hk. unfold values, c0. simpl. unfold FuncContainer.split_funcs.
    apply lookup_union_Some_l, lookup_union_Some_r; [done|].
    rewrite !lookup_fmap.
    unfold FuncContainer.xfunc, FuncContainer.xyfunc in *. by rewrite Hk.
  - intros k sf Hk. unfold values, c0. simpl. unfold FuncContainer.split_funcs.
    apply lookup_union_Some_r; [by apply map_disjoint_union_l|].
    rewrite !lookup_fmap.
    unfold FuncContainer.xfunc, FuncContainer.xyfunc in *. by rewrite Hk.
  - rewrite func_query_cache, Hsmp, Hm. simpl. by rewrite last_snoc.
Qed.

Lemma example_distinct_groups :
  distinct_groups (FuncContainer.init (Some example_xfuncs) None None).
Proof.
  intros k. simpl. unfold FuncContainer.split_funcs.
  rewrite !lookup_fmap, !lookup_empty. simpl.
  split; [done|]. by intros [? ?].
Qed.

Lemma FuncContainer_miss_samples_twice_per_pixel_witness :
  let c0 := FuncContainer.init (Some example_xfuncs) None None in
  let c := FuncContainer.run (H := example_seed) [example_pan 0] c0 in
  let q := example_pan 1 in
  ∃ xs ys values,
    np.linspace (fz 1) (fz (1 + 1)) (2 * 2) = inr xs ∧
    np.linspace (fz 0) (fz 1) (2 * 2) = inr ys ∧
    length xs = Z.to_nat (2 * 2) ∧ length ys = Z.to_nat (2 * 2) ∧
    head xs = Some (fz 1) ∧ last xs = Some (fz (1 + 1)) ∧
    head ys = Some (fz 0) ∧ last ys = Some (fz 1) ∧
    (FuncContainer.query (H := example_seed) q c).1
    = inr (values, FuncContainer.hash_query (H := example_seed) q) ∧
    (∀ k sf, default ∅ (Some example_xfuncs) !! k = Some sf →
             values !! k = Some (sf.2 (array1d xs))) ∧
    (∀ k sf, default ∅ (None : option (gmap string (list dim * FuncContainer.xfunc)))
               !! k = Some sf →
             values !! k = Some (sf.2 (array1d ys))) ∧
    (∀ k sf, default ∅ (None : option (gmap string (list dim * FuncContainer.xyfunc)))
               !! k = Some sf →
             values !! k = Some (sf.2 (array1d xs) (array1d ys))) ∧
    last (LFUCache.entries
            (FuncContainer._cache (FuncContainer.query (H := example_seed) q c).2))
    = Some (LFUCache.Entry (FuncContainer.hash_query (H := example_seed) q)
                           values (-1)).
Proof.
  intros c0 c q.
  apply (FuncContainer_miss_samples_twice_per_pixel (H := example_seed)
           (Some example_xfuncs) None None [example_pan 0] q
           (fz 1) (fz (1 + 1)) (fz 0) (fz 1) 2 2).
  - exact example_distinct_groups.
  - reflexivity.
  - reflexivity.
  - lia.
  - lia.
  - by vm_compute.
Defined.

(** X9: the cache is keyed by the hash alone.  Once a query has returned,
    the next query with the same hash -- the same arguments, or other
    arguments that hash alike -- is answered from the cache with the same
    values and key, and nothing is sampled for it. *)
Theorem FuncContainer_same_hash_answered_from_cache `{pyhash.Seed}
    (xfuncs yfuncs : option (gmap string (list dim * FuncContainer.xfunc)))
    (xyfuncs : option (gmap string (list dim * FuncContainer.xyfunc)))
    (qs : list query_args) (q1 q2 : query_args)
    (values : gmap string ndarray) (key : Z) :
  let c := FuncContainer.run qs (FuncContainer.init xfuncs yfuncs xyfuncs) in
  FuncContainer.hash_query q1 = FuncContainer.hash_query q2 →
  (FuncContainer.query q1 c).1 = inr (values, key) →
  key = FuncContainer.hash_query q1 ∧
  LFUCache.contains (FuncContainer._cache (FuncContainer.query q1 c).2) key
  = true ∧
  (FuncContainer.query q2 (FuncContainer.query q1 c).2).1 = inr (values, key).
Proof.
  intros c Hk Hres.
  pose proof (func_inv_run _ _ qs (func_inv_init xfuncs yfuncs xyfuncs))
    as (_ & Hok & _). fold c in Hok.
  rewrite func_query_result in Hres.
  pose proof (memo_key _ _ _ _ _ Hok Hres) as ->.
  split; [done|]. split.
  - rewrite func_query_cache. by eapply memo_stored.
  - rewrite func_query_result, func_query_cache, <- Hk.
    by apply memo_again.
Qed.

Lemma FuncContainer_same_hash_answered_from_cache_witness :
  let c := FuncContainer.run (H := example_seed) [example_pan 0]
             (FuncContainer.init (Some example_xfuncs) None None) in
  let q1 := Query (fz (-2), fz 3, fz 0, fz 1) (2, 2) None None in
  let q2 := Query (fz (-1), fz 3, fz 0, fz 1) (2, 2) None None in
  ∃ values key,
    (FuncContainer.query (H := example_seed) q1 c).1 = inr (values, key) ∧
    key = FuncContainer.hash_query (H := example_seed) q1 ∧
    LFUCache.contains
      (FuncContainer._cache (FuncContainer.query (H := example_seed) q1 c).2) key
    = true ∧
    (FuncContainer.query (H := example_seed) q2
       (FuncContainer.query (H := example_seed) q1 c).2).1 = inr (values, key) ∧
    FuncContainer.sample c q2 ≠ inr values.
Proof.
  intros c q1 q2.
  destruct (FuncContainer.query (H := example_seed) q1 c).1
    as [x|[values key]] eqn:Hres; [vm_compute in Hres; discriminate Hres|].
  exists values, key. split; [reflexivity|].
  destruct (FuncContainer_same_hash_answered_from_cache (H := example_seed)
              (Some example_xfuncs) None None [example_pan 0] q1 q2 values key)
    as (Hk & Hin & Hq2); [by vm_compute|exact Hres|].
  split; [exact Hk|]. split; [exact Hin|]. split; [exact Hq2|].
  intros Hsmp.
  assert (Hy : rationals <$> field "y" (FuncContainer.query (H := example_seed) q1 c).1
               = rationals <$> field "y" (inr (values, key) : Py.result _))
    by (by rewrite Hres).
  assert (Hy' : rationals <$> field "y" (inr (values, key) : Py.result (_ * Z))
                = rationals <$> (match FuncContainer.sample c q2 with
                                 | inr v => v !! "y" | inl _ => None end))
    by (by rewrite Hsmp).
  rewrite <- Hy in Hy'. by vm_compute in Hy'.
Defined.

(** ** [HistContainer] *)

Local Open Scope Qc_scope.

Lemma foldl_minimum_spec x xs :
  foldl np.minimum x xs ∈ x :: xs ∧
  ∀ y, y ∈ x :: xs → foldl np.minimum x xs ≤ y.
Proof.
  revert x. induction xs as [|z zs IH]; intros x; simpl.
  - split; [left|]. intros y ->%list_elem_of_singleton. qc_order.
  - destruct (IH (np.minimum x z)) as [Hin Hle]. split.
    + apply elem_of_cons in Hin as [->|Hin].
      * unfold np.minimum. destruct (np.lt x z); [left|right; left].
      * right. by right.
    + intros y Hy.
      assert (Hm : np.minimum x z ≤ x ∧ np.minimum x z ≤ z)
        by (np_cases; split; qc_order).
      pose proof (Hle (np.minimum x z) ltac:(left)) as H0.
      apply elem_of_cons in Hy as [->|[->|Hy]%elem_of_cons].
      * destruct Hm. qc_order.
      * destruct Hm. qc_order.
      * apply Hle. by right.
Qed.

Lemma foldl_maximum_spec x xs :
  foldl np.maximum x xs ∈ x :: xs ∧
  ∀ y, y ∈ x :: xs → y ≤ foldl np.maximum x xs.
Proof.
  revert x. induction xs as [|z zs IH]; intros x; simpl.
  - split; [left|]. intros y ->%list_elem_of_singleton. qc_order.
  - destruct (IH (np.maximum x z)) as [Hin Hle]. split.
    + apply elem_of_cons in Hin as [->|Hin].
      * unfold np.maximum. destruct (np.lt x z); [right; left|left].
      * right. by right.
    + intros y Hy.
      assert (Hm : x ≤ np.maximum x z ∧ z ≤ np.maximum x z)
        by (np_cases; split; qc_order).
      pose proof (Hle (np.maximum x z) ltac:(left)) as H0.
      apply elem_of_cons in Hy as [->|[->|Hy]%elem_of_cons].
      * destruct Hm. qc_order.
      * destruct Hm. qc_order.
      * apply Hle. by right.
Qed.

Local Close Scope Qc_scope.

Lemma hist_init_bounds (x : Qc) (xs : list Qc) (nb : Z) :
  ∃ c0 dmin dmax,
    HistContainer.init (x :: xs) nb = inr c0 ∧
    HistContainer._full_range c0 = (dmin, dmax) ∧
    ∀ y, y ∈ x :: xs → (dmin ≤ y)%Qc ∧ (y ≤ dmax)%Qc.
Proof.
  destruct (foldl_minimum_spec x xs) as [_ Hle].
  destruct (foldl_maximum_spec x xs) as [_ Hge].
  eexists _, _, _. split; [reflexivity|]. split; [reflexivity|].
  intros y Hy. split; [by apply Hle|by apply Hge].
Qed.

(** X10: [__init__] refuses an empty sample with the [ValueError] of
    [raw_data.min()]; for any other sample it records as full range the
    least and the greatest sample, so every sample lies within it, and
    starts with an empty cache of capacity 64. *)
Theorem HistContainer_init_range (x : Qc) (xs : list Qc) (nb : Z) :
  (∃ e, HistContainer.init [] nb = inl e ∧ Py.exn_class e = Py.ValueError) ∧
  ∃ c0 dmin dmax,
    HistContainer.init (x :: xs) nb = inr c0 ∧
    HistContainer._full_range c0 = (dmin, dmax) ∧
    dmin ∈ x :: xs ∧ dmax ∈ x :: xs ∧
    (∀ y, y ∈ x :: xs → (dmin ≤ y)%Qc ∧ (y ≤ dmax)%Qc) ∧
    HistContainer._num_bins c0 = nb ∧
    HistContainer._raw_data c0 = x :: xs ∧
    HistContainer._cache c0 = LFUCache.new 64.
Proof.
  split; [by eexists|].
  destruct (foldl_minimum_spec x xs) as [Hmin Hle].
  destruct (foldl_maximum_spec x xs) as [Hmax Hge].
  eexists _, _, _. split; [reflexivity|]. simpl.
  split; [reflexivity|]. split; [done|]. split; [done|].
  split; [|done]. intros y Hy. split; [by apply Hle|by apply Hge].
Qed.

(** X13: a [query] that raises -- an inverted window, a negative bin
    count -- leaves the container exactly as it was, and it raises because
    the re-binning for its own window does: nothing is cached for it. *)
Theorem HistContainer_failed_query_keeps_state
    (raw : list Qc) (nb : Z) (c0 : HistContainer.t)
    (qs : list query_args) (q : query_args) (e : Py.exn) :
  HistContainer.init raw nb = inr c0 →
  let c := HistContainer.run qs c0 in
  (HistContainer.query q c).1 = inl e →
  HistContainer.query q c = (inl e, c) ∧
  computed c0 q = inl e ∧
  LFUCache.contains (HistContainer._cache c) (HistContainer.hash_key c0 q) = false.
Proof.
  intros Hinit c Hres.
  pose proof (hist_inv_run c0 [] c0 qs (hist_inv_init _ _ _ Hinit))
    as (Hs & Hok & _). fold c in Hs, Hok.
  rewrite hist_query_result in Hres.
  rewrite <- (same_sample_hash_key c c0), <- (same_sample_computed c c0) by done.
  destruct (LFUCache.contains (HistContainer._cache c)
              (HistContainer.hash_key c q)) eqn:Hin.
  - destruct (memo_hit _ (computed c q) _ Hin) as (e' & _ & Hm).
    by rewrite Hm in Hres.
  - destruct (computed c q) as [x|v] eqn:Hcomp.
    + rewrite memo_miss_raise in Hres by done. injection Hres as ->.
      split; [|done]. rewrite hist_query_memo, Hcomp. unfold zoom.
      rewrite memo_miss_raise by done. by destruct c.
    + destruct (memo_miss_store _ _ v Hok Hin) as (kept & Hm & _).
      by rewrite Hm in Hres.
Qed.

Lemma HistContainer_failed_query_keeps_state_witness :
  let c := HistContainer.run [example_window 0 3] example_hist in
  let q := example_window 2 1 in
  let e := Py.Raise Py.ValueError
             "`bins` must increase monotonically, when an array" in
  HistContainer.query q c = (inl e, c) ∧
  computed example_hist q = inl e ∧
  LFUCache.contains (HistContainer._cache c)
    (HistContainer.hash_key example_hist q) = false.
Proof.
  intros c q e.
  apply (HistContainer_failed_query_keeps_state (fz <$> [0; 1; 2; 3]) 3
           example_hist [example_window 0 3] q e).
  - exact example_hist_init.
  - by vm_compute.
Defined.

Lemma edges_ends dmin dmax xmin xmax lin :
  (dmin ≤ xmin)%Qc → (xmax ≤ dmax)%Qc →
  head lin = Some xmin → last lin = Some xmax →
  head (edge_below dmin xmin ++ lin ++ edge_above xmax dmax) = Some dmin ∧
  last (edge_below dmin xmin ++ lin ++ edge_above xmax dmax) = Some dmax.
Proof.
  intros Hlo Hhi Hhead Hlast. split.
  - rewrite !head_app, Hhead. unfold edge_below.
    destruct (np.lt dmin xmin) eqn:E; [done|]. simpl. f_equal.
    apply np_lt_false in E. by apply Qcle_antisym.
  - rewrite !last_app, Hlast. unfold edge_above.
    destruct (np.lt xmax dmax) eqn:E; [done|]. simpl. f_equal.
    apply np_lt_false in E. by apply Qcle_antisym.
Qed.

(** X11: on a container with at least two bins, for a window that is not
    inverted (and meets no colliding key), the returned edges ascend, start
    at the global minimum of the sample and end at its global maximum:
    whatever the window, the bins cover every sample. *)
Theorem HistContainer_edges_span_data_range
    (raw : list Qc) (nb : Z) (c0 : HistContainer.t) (qs : list query_args)
    (q : query_args) (dmin dmax xmin xmax ymin ymax : Qc) :
  HistContainer.init raw nb = inr c0 →
  HistContainer._full_range c0 = (dmin, dmax) →
  data_bounds q = (xmin, xmax, ymin, ymax) →
  2 ≤ nb →
  (xmin ≤ xmax)%Qc →
  no_collision c0 qs q →
  ∃ edges density key,
    (HistContainer.query q (HistContainer.run qs c0)).1
    = inr (<["density" := density]> (<["edges" := edges]> ∅), key) ∧
    StronglySorted Qcle (nd_items edges) ∧
    head (nd_items edges) = Some dmin ∧
    last (nd_items edges) = Some dmax ∧
    ∀ y, y ∈ raw → (dmin ≤ y)%Qc ∧ (y ≤ dmax)%Qc.
Proof.
  intros Hinit Hrange Hq Hnb Hle Hfree.
  destruct (hist_query_returns raw nb c0 qs q dmin dmax xmin xmax ymin ymax)
    as (Hd & lin & density & Hlin & Hlen & Hres & Hdlen);
    [done|done|done|lia|done|done|].
  destruct (clip_bounds xmin dmin dmax Hd) as [Hlo _].
  destruct (clip_bounds xmax dmin dmax Hd) as [_ Hhi].
  pose proof (clip_mono xmin xmax dmin dmax Hle) as Hle'.
  destruct (linspace_endpoints _ _ nb lin Hnb Hlin) as [Hhead Hlast].
  destruct (edges_ends dmin dmax _ _ lin Hlo Hhi Hhead Hlast) as [Hh Hl].
  eexists _, _, _. split; [exact Hres|]. simpl.
  split; [by eapply edges_sorted|]. split; [done|]. split; [done|].
  destruct raw as [|x xs]; [by intros y ?%elem_of_nil|].
  destruct (hist_init_bounds x xs nb) as (c0' & lo & hi & Hi & Hr & Hb).
  rewrite Hinit in Hi. injection Hi as <-. rewrite Hrange in Hr.
  injection Hr as <- <-. done.
Qed.

Lemma HistContainer_edges_span_data_range_witness :
  let q := example_window 1 2 in
  let qs := [example_window 0 3] in
  ∃ edges density key,
    (HistContainer.query q (HistContainer.run qs example_hist)).1
    = inr (<["density" := density]> (<["edges" := edges]> ∅), key) ∧
    StronglySorted Qcle (nd_items edges) ∧
    head (nd_items edges) = Some (fz 0) ∧
    last (nd_items edges) = Some (fz 3) ∧
    ∀ y, y ∈ fz <$> [0; 1; 2; 3] → (fz 0 ≤ y)%Qc ∧ (y ≤ fz 3)%Qc.
Proof.
  intros q qs.
  apply (HistContainer_edges_span_data_range (fz <$> [0; 1; 2; 3]) 3
           example_hist qs q (fz 0) (fz 3) (fz 1) (fz 2) (fz 0) (fz 1)).
  - exact example_hist_init.
  - reflexivity.
  - reflexivity.
  - lia.
  - by vm_compute.
  - apply example_no_collision. by vm_compute.
Defined.

(** ** The area under the histogram *)

Local Open Scope Qc_scope.

Lemma fz_plus a b : fz (a + b) = fz a + fz b.
Proof.
  apply Qc_is_canon. unfold fz, Qcplus. simpl. rewrite !Qred_correct.
  unfold Qeq. simpl. lia.
Qed.

Lemma fz_neq_0 z : z ≠ 0%Z → fz z ≠ 0.
Proof.
  intros Hz Heq. destruct (Z.lt_total z 0) as [Hlt|[?|Hlt]]; [|done|].
  - apply fz_lt in Hlt. rewrite fz_0, Heq in Hlt. by apply Qclt_not_eq in Hlt.
  - apply fz_lt in Hlt. rewrite fz_0, Heq in Hlt. by apply Qclt_not_eq in Hlt.
Qed.

Lemma linspace_step_pos start stop (m : Z) :
  start < stop → (0 < m)%Z → 0 < (stop - start) / fz m.
Proof.
  intros Hlt Hm.
  assert (Hpos : 0 < fz m) by (rewrite <- fz_0; apply fz_lt; lia).
  apply Qcnot_le_lt. intros Hle.
  apply (Qcmult_le_compat_r _ _ (fz m)) in Hle; [|by apply Qclt_le_weak].
  rewrite Qcmult_0_l, Qcmult_comm, Qcmult_div_r in Hle; [qc_order|].
  intros Heq. rewrite Heq in Hpos. qc_order.
Qed.

Lemma fmap_seq_strict (f : nat → Qc) n s :
  (∀ i j, (i < j)%nat → f i < f j) → StronglySorted Qclt (f <$> seq s n).
Proof.
  intros Hf. revert s. induction n as [|n IH]; intros s; csimpl; constructor.
  - apply IH.
  - rewrite Forall_fmap. apply Forall_forall. intros i [Hi _]%elem_of_seq.
    simpl. apply Hf. lia.
Qed.

(** Over a window that is not empty the samples ascend strictly. *)
Lemma linspace_strict start stop (num : Z) lin :
  start < stop → (2 ≤ num)%Z →
  np.linspace start stop num = inr lin →
  StronglySorted Qclt lin.
Proof.
  intros Hlt Hnum. unfold np.linspace. rewrite bool_decide_eq_false_2 by lia.
  intros [= <-]. apply fmap_seq_strict. intros i j Hij.
  pose proof (linspace_step_pos start stop (num - 1) Hlt ltac:(lia)) as Hstep.
  assert (Hprod : fz (Z.of_nat i) * ((stop - start) / fz (num - 1))
                  < fz (Z.of_nat j) * ((stop - start) / fz (num - 1))).
  { apply Qcmult_lt_compat_r; [done|]. apply fz_lt. lia. }
  revert Hprod. generalize (fz (Z.of_nat i) * ((stop - start) / fz (num - 1))).
  generalize (fz (Z.of_nat j) * ((stop - start) / fz (num - 1))).
  clear. intros a b Hab. qc_order.
Qed.

Lemma edges_strict dmin dmax xmin xmax nb lin :
  dmin ≤ xmin → xmin < xmax → xmax ≤ dmax → (2 ≤ nb)%Z →
  np.linspace xmin xmax nb = inr lin →
  StronglySorted Qclt (edge_below dmin xmin ++ lin ++ edge_above xmax dmax).
Proof.
  intros Hlo Hlt Hhi Hnb Hlin.
  destruct (linspace_sorted _ _ _ _ (Qclt_le_weak _ _ Hlt) Hlin) as [_ Hin].
  pose proof (linspace_strict _ _ _ _ Hlt Hnb Hlin) as Hsorted.
  apply StronglySorted_app_2; [| |apply StronglySorted_app_2].
  - unfold edge_below. destruct (np.lt dmin xmin) eqn:E;
      [|by intros x1 x2 ?%elem_of_nil].
    apply np_lt_true in E.
    intros x1 x2 ->%list_elem_of_singleton [Hx2|Hx2]%elem_of_app.
    + destruct (Hin x2 Hx2). qc_order.
    + unfold edge_above in Hx2. destruct (np.lt xmax dmax);
        [|by apply elem_of_nil in Hx2].
      apply list_elem_of_singleton in Hx2 as ->. qc_order.
  - unfold edge_below. destruct (np.lt dmin xmin); repeat constructor.
  - unfold edge_above. destruct (np.lt xmax dmax) eqn:E;
      [|by intros x1 x2 _ ?%elem_of_nil].
    apply np_lt_true in E.
    intros x1 x2 Hx1 ->%list_elem_of_singleton. destruct (Hin x1 Hx1). qc_order.
  - done.
  - unfold edge_above. destruct (np.lt xmax dmax); repeat constructor.
Qed.

(** Each bin contributes its share of the counts: the widths cancel. *)
Lemma area_of_counts (bins : list Qc) (n : list Z) (total : Qc) :
  total ≠ 0 →
  StronglySorted Qclt bins →
  length n = pred (length bins) →
  area (zip_with (λ c w, fz c / w / total) n (np.diff Qcminus bins)) bins
  = fz (np.sum n) / total.
Proof.
  intros Htotal Hs. revert n. induction Hs as [|x l Hs IH Hall]; intros n Hlen.
  { destruct n; [|done]. unfold area. simpl. rewrite fz_0. unfold Qcdiv.
    by rewrite Qcmult_0_l. }
  destruct l as [|y tl].
  { destruct n; [|done]. unfold area. simpl. rewrite fz_0. unfold Qcdiv.
    by rewrite Qcmult_0_l. }
  destruct n as [|c n]; [done|]. simpl in Hlen. injection Hlen as Hlen.
  apply Forall_cons in Hall as [Hxy _].
  assert (Hw : y - x ≠ 0).
  { intros Heq. assert (Hyx : x = y) by (rewrite <- (Qcplus_0_l x), <- Heq; ring).
    by apply Qclt_not_eq in Hxy. }
  change (fz c / (y - x) / total * (y - x)
          + area (zip_with (λ c w, fz c / w / total) n
                    (np.diff Qcminus (y :: tl))) (y :: tl)
          = fz (c + np.sum n) / total).
  rewrite IH by done. rewrite fz_plus. field. by split.
Qed.

Local Close Scope Qc_scope.

(** The differences of a list add up to its last item less its first. *)
Lemma sum_diff (l : list Z) :
  np.sum (np.diff Z.sub l) = default 0 (last l) - default 0 (head l).
Proof.
  induction l as [|x [|y tl] IH]; [done|simpl; lia|].
  change (y - x + np.sum (np.diff Z.sub (y :: tl))
          = default 0 (last (y :: tl)) - x).
  rewrite IH. simpl. lia.
Qed.

Lemma cum_counts_head a e e' bins :
  head (np.cum_counts a (e :: e' :: bins))
  = Some (Z.of_nat (length (filter (λ x, x < e)%Qc a))).
Proof. done. Qed.

Lemma cum_counts_last a bins e :
  last bins = Some e →
  last (np.cum_counts a bins)
  = Some (Z.of_nat (length (filter (λ x, x ≤ e)%Qc a))).
Proof.
  induction bins as [|x [|y tl] IH]; [done|by intros [= ->]|].
  intros Hlast.
  change (last (Z.of_nat (length (filter (λ x', x' < x)%Qc a))
                :: np.cum_counts a (y :: tl))
          = Some (Z.of_nat (length (filter (λ x', x' ≤ e)%Qc a)))).
  rewrite last_cons. by rewrite IH.
Qed.

Lemma filter_none (P : Qc → Prop) `{∀ x, Decision (P x)} (a : list Qc) :
  (∀ x, x ∈ a → ¬ P x) → filter P a = [].
Proof.
  induction a as [|x a IH]; [done|]. intros Hall.
  rewrite filter_cons_False by (apply Hall; left).
  apply IH. intros y Hy. apply Hall. by right.
Qed.

Lemma filter_all (P : Qc → Prop) `{∀ x, Decision (P x)} (a : list Qc) :
  (∀ x, x ∈ a → P x) → filter P a = a.
Proof.
  induction a as [|x a IH]; [done|]. intros Hall.
  rewrite filter_cons_True by (apply Hall; left).
  f_equal. apply IH. intros y Hy. apply Hall. by right.
Qed.

(** Bins that start at or below every sample and end at or above every
    sample count the whole sample. *)
Lemma counts_cover (a bins : list Qc) (lo hi : Qc) :
  (2 ≤ length bins)%nat →
  head bins = Some lo → last bins = Some hi →
  (∀ x, x ∈ a → (lo ≤ x)%Qc ∧ (x ≤ hi)%Qc) →
  np.sum (np.diff Z.sub (np.cum_counts a bins)) = Z.of_nat (length a).
Proof.
  intros Hlen Hhead Hlast Hall. rewrite sum_diff.
  rewrite (cum_counts_last a bins hi Hlast).
  destruct bins as [|e [|e' tl]]; [simpl in Hlen; lia..|].
  rewrite cum_counts_head. injection Hhead as ->. simpl.
  rewrite filter_all by (intros x Hx; by apply Hall).
  rewrite filter_none; [simpl; lia|].
  intros x Hx Hlt. destruct (Hall x Hx) as [Hle _].
  by apply (Qcle_not_lt _ _ Hle).
Qed.

Lemma histogram_inv a bins density edges :
  np.histogram a bins = inr (density, edges) →
  edges = bins ∧
  density = zip_with (λ c w, (fz c / w / fz (np.sum (np.diff Z.sub
                                   (np.cum_counts a bins))))%Qc)
              (np.diff Z.sub (np.cum_counts a bins)) (np.diff Qcminus bins).
Proof.
  unfold np.histogram. destruct (np.monotone bins); [|done].
  by intros [= <- <-].
Qed.

(** What a query computes for its own window, with the call of
    [np.histogram] that produced the density *)
Lemma hist_query_histogram raw nb c0 qs q dmin dmax xmin xmax ymin ymax :
  HistContainer.init raw nb = inr c0 →
  HistContainer._full_range c0 = (dmin, dmax) →
  data_bounds q = (xmin, xmax, ymin, ymax) →
  0 ≤ nb →
  (xmin ≤ xmax)%Qc →
  no_collision c0 qs q →
  let xmin' := np.clip xmin dmin dmax in
  let xmax' := np.clip xmax dmin dmax in
  ∃ lin density,
    np.linspace xmin' xmax' nb = inr lin ∧
    np.histogram raw (edge_below dmin xmin' ++ lin ++ edge_above xmax' dmax)
    = inr (density, edge_below dmin xmin' ++ lin ++ edge_above xmax' dmax) ∧
    (HistContainer.query q (HistContainer.run qs c0)).1
    = inr (<["density" := array1d density]>
             (<["edges" := array1d (edge_below dmin xmin' ++ lin
                                    ++ edge_above xmax' dmax)]> ∅),
           pyhash.hash_float_pair xmin' xmax').
Proof.
  intros Hinit Hrange Hq Hnb Hle Hfree xmin' xmax'.
  pose proof (hist_inv_run c0 [] c0 qs (hist_inv_init _ _ _ Hinit)) as Hinv.
  destruct (hist_init _ _ _ Hinit) as (dmin0 & dmax0 & Hc0 & Hd).
  assert (Hnum : HistContainer._num_bins c0 = nb) by by rewrite Hc0.
  assert (Hraw : HistContainer._raw_data c0 = raw) by by rewrite Hc0.
  rewrite Hc0 in Hrange. simpl in Hrange. injection Hrange as -> ->.
  assert (Hrange : HistContainer._full_range c0 = (dmin, dmax)) by by rewrite Hc0.
  assert (Hcl : HistContainer.clamped c0 q = (xmin', xmax')).
  { unfold HistContainer.clamped. by rewrite Hrange, Hq. }
  destruct (linspace_returns xmin' xmax' nb Hnb) as (lin & Hlin & Hlen).
  destruct (clip_bounds xmin dmin dmax Hd) as [Hlo _].
  destruct (clip_bounds xmax dmin dmax Hd) as [_ Hhi].
  pose proof (edges_sorted dmin dmax xmin' xmax' _ lin Hlo
                (clip_mono _ _ _ _ Hle) Hhi Hlin) as Hs.
  destruct (histogram_returns raw _ (monotone_sorted _ Hs))
    as (density & Hhist & _).
  exists lin, density. split; [done|]. split; [done|].
  rewrite (hist_query_own_answer c0 ([] ++ qs) _ q Hinv Hfree).
  unfold own_answer, computed, HistContainer.rebin, HistContainer.hash_key.
  rewrite Hcl, Hrange, Hnum, Hraw. simpl.
  by rewrite Hlin, edges_in_concat, Hhist.
Qed.

(** X12: on a container with at least two bins, a query whose window is not
    empty and overlaps the data range (and meets no colliding key) counts
    every sample of the container in the bins it returns - the overflow bins
    take the samples outside the window - so the density is relative to the
    whole sample and, in exact arithmetic, the area under it is 1. *)
Theorem HistContainer_density_integrates_to_one
    (raw : list Qc) (nb : Z) (c0 : HistContainer.t) (qs : list query_args)
    (q : query_args) (dmin dmax xmin xmax ymin ymax : Qc) :
  HistContainer.init raw nb = inr c0 →
  HistContainer._full_range c0 = (dmin, dmax) →
  data_bounds q = (xmin, xmax, ymin, ymax) →
  2 ≤ nb →
  (dmin < dmax)%Qc →
  (xmin < xmax)%Qc → (xmin < dmax)%Qc → (dmin < xmax)%Qc →
  no_collision c0 qs q →
  ∃ edges density key,
    (HistContainer.query q (HistContainer.run qs c0)).1
    = inr (<["density" := density]> (<["edges" := edges]> ∅), key) ∧
    np.sum (np.diff Z.sub (np.cum_counts raw (nd_items edges)))
    = Z.of_nat (length raw) ∧
    area (nd_items density) (nd_items edges) = fz 1.
Proof.
  intros Hinit Hrange Hq Hnb Hdlt Hlt Hlo' Hhi' Hfree.
  assert (Hclt : (np.clip xmin dmin dmax < np.clip xmax dmin dmax)%Qc)
    by (clear - Hdlt Hlt Hlo' Hhi'; np_cases; qc_order).
  destruct (hist_query_histogram raw nb c0 qs q dmin dmax xmin xmax ymin ymax)
    as (lin & density & Hlin & Hhist & Hres);
    [done|done|done|lia|by apply Qclt_le_weak|done|].
  destruct (hist_init _ _ _ Hinit) as (dmin0 & dmax0 & Hc0 & Hd).
  rewrite Hc0 in Hrange. simpl in Hrange. injection Hrange as -> ->.
  destruct (clip_bounds xmin dmin dmax Hd) as [Hlo _].
  destruct (clip_bounds xmax dmin dmax Hd) as [_ Hhi].
  destruct (linspace_endpoints _ _ nb lin Hnb Hlin) as [Hhead Hlast].
  destruct (edges_ends dmin dmax _ _ lin Hlo Hhi Hhead Hlast) as [Hh Hl].
  pose proof (edges_strict dmin dmax _ _ nb lin Hlo Hclt Hhi Hnb Hlin) as Hs.
  destruct (linspace_returns (np.clip xmin dmin dmax) (np.clip xmax dmin dmax)
              nb ltac:(lia)) as (lin' & Hlin' & Hlen).
  rewrite Hlin in Hlin'. injection Hlin' as <-.
  set (edges := edge_below dmin (np.clip xmin dmin dmax) ++ lin
                ++ edge_above (np.clip xmax dmin dmax) dmax) in *.
  assert (Hraw : raw ≠ []).
  { intros ->. by vm_compute in Hinit. }
  assert (Hall : ∀ y, y ∈ raw → (dmin ≤ y)%Qc ∧ (y ≤ dmax)%Qc).
  { destruct raw as [|x xs]; [done|].
    destruct (hist_init_bounds x xs nb) as (c0' & lo & hi & Hi & Hr & Hb).
    rewrite Hinit in Hi. injection Hi as <-. rewrite Hc0 in Hr.
    injection Hr as <- <-. done. }
  assert (Hcount : np.sum (np.diff Z.sub (np.cum_counts raw edges))
                   = Z.of_nat (length raw)).
  { apply (counts_cover raw edges dmin dmax); [|done..].
    unfold edges. rewrite !length_app, Hlen. lia. }
  eexists _, _, _. split; [exact Hres|].
  split; [done|]. simpl.
  apply histogram_inv in Hhist as [_ ->]. rewrite Hcount.
  assert (Htotal : fz (Z.of_nat (length raw)) ≠ 0%Qc).
  { apply fz_neq_0. destruct raw; [done|]. simpl. lia. }
  rewrite area_of_counts.
  - rewrite Hcount. unfold Qcdiv. replace (fz 1) with 1%Qc by by apply Qc_is_canon.
    by apply Qcmult_inv_r.
  - done.
  - done.
  - by rewrite diff_length, cum_counts_length.
Qed.

Lemma HistContainer_density_integrates_to_one_witness :
  let q := example_window 1 2 in
  let qs := [example_window 0 3] in
  ∃ edges density key,
    (HistContainer.query q (HistContainer.run qs example_hist)).1
    = inr (<["density" := density]> (<["edges" := edges]> ∅), key) ∧
    np.sum (np.diff Z.sub (np.cum_counts (fz <$> [0; 1; 2; 3]) (nd_items edges)))
    = Z.of_nat (length (fz <$> [0; 1; 2; 3])) ∧
    area (nd_items density) (nd_items edges) = fz 1.
Proof.
  intros q qs.
  apply (HistContainer_density_integrates_to_one (fz <$> [0; 1; 2; 3]) 3
           example_hist qs q (fz 0) (fz 3) (fz 1) (fz 2) (fz 0) (fz 1)).
  - exact example_hist_init.
  - reflexivity.
  - reflexivity.
  - lia.
  - by vm_compute.
  - by vm_compute.
  - by vm_compute.
  - by vm_compute.
  - apply example_no_collision. by vm_compute.
Defined.

(** ** Tabular adapters: [describe] against [query], and construction *)


Lemma df_getitem_Some cols col :
  col ∈ cols.*1 → ∃ w, df_getitem cols col = inr w ∧ (col, w) ∈ cols.
Proof.
  induction cols as [|[k v] cols IH]; csimpl.
  - by intros ?%elem_of_nil.
  - intros Hin. case_bool_decide as Hk.
    + subst k. exists v. split; [done|left].
    + apply elem_of_cons in Hin as [->|Hin]; [done|].
      destruct (IH Hin) as (w & Hw & Hel). exists w. split; [done|by right].
Qed.

Lemma df_getitem_None cols col :
  col ∉ cols.*1 → df_getitem cols col = inl (Py.Raise Py.KeyError col).
Proof.
  induction cols as [|[k v] cols IH]; csimpl; [done|].
  intros [Hne Hnin]%not_elem_of_cons.
  rewrite bool_decide_eq_false_2 by done. by apply IH.
Qed.

(** The loop over the configured columns returns exactly when the frame
    has every one of them, and raises on the first it lacks. *)
Lemma collect_all_present {V} (df : DataFrame) (f : ndarray → V) items acc :
  Forall (λ col, col ∈ (df_columns df).*1) items.*1 →
  ∃ m, DataFrameContainer.collect df f items acc = inr m.
Proof.
  revert acc. induction items as [|[col out] items IH]; intros acc; csimpl.
  - eauto.
  - intros [Hcol Hrest]%Forall_cons.
    destruct (df_getitem_Some _ _ Hcol) as (w & -> & _). by apply IH.
Qed.

Lemma collect_some_missing {V} (df : DataFrame) (f : ndarray → V) items acc :
  ¬ Forall (λ col, col ∈ (df_columns df).*1) items.*1 →
  ∃ col, col ∈ items.*1 ∧ (col ∉ (df_columns df).*1) ∧
         DataFrameContainer.collect df f items acc
         = inl (Py.Raise Py.KeyError col).
Proof.
  revert acc. induction items as [|[col out] items IH]; intros acc; csimpl.
  - intros []. constructor.
  - intros Hnot. destruct (decide (col ∈ (df_columns df).*1)) as [Hin|Hnin].
    + destruct (df_getitem_Some _ _ Hin) as (w & -> & _).
      destruct (IH (<[out := f w]> acc)) as (c & Hc & Hmiss & Hres).
      { intros Hall. apply Hnot. by constructor. }
      exists c. split; [by right|done].
    + exists col. split; [left|]. split; [done|].
      by rewrite df_getitem_None.
Qed.

Lemma odict_set_fresh {V} (k : string) (v : V) d :
  k ∉ d.*1 → odict_set k v d = d ++ [(k, v)].
Proof.
  induction d as [|[k' v'] d IH]; csimpl; [done|].
  intros [Hne Hnin]%not_elem_of_cons.
  rewrite bool_decide_eq_false_2 by done. by rewrite IH.
Qed.

(** Over distinct labels the comprehension keeps one item per label, in
    the order of the labels. *)
Lemma renamed_columns (f : string → string) ks acc :
  NoDup ks → (∀ k, k ∈ ks → k ∉ (acc.*1)) →
  foldl (λ d k, odict_set k (f k) d) acc ks = acc ++ ((λ k, (k, f k)) <$> ks).
Proof.
  intros Hnd. revert acc. induction Hnd as [|k ks Hk Hnd IH]; intros acc Hfresh.
  - csimpl. by rewrite app_nil_r.
  - csimpl. rewrite odict_set_fresh by (apply Hfresh; left).
    rewrite IH.
    + by rewrite <- app_assoc.
    + intros k' Hk'. rewrite fmap_app, elem_of_app. csimpl.
      intros [Hin|Hin%list_elem_of_singleton].
      * apply (Hfresh k'); [by right|done].
      * by subst k'.
Qed.



(** X15: a [DataFrameContainer] checks its columns when it is built.  Over
    a frame with distinct column labels: given a dict, [__init__] returns,
    with that dict and one uuid drawn, exactly when the frame has every
    column the dict names, and otherwise raises [KeyError] for a column it
    lacks and draws no uuid; given a callable it always returns, with one
    item per column of the frame, in the frame's order. *)
Theorem DataFrameContainer_init_checks_columns `{uuid.Source}
    (df : DataFrame) (d : list (string * string)) (f : string → string)
    (index_name : option string) (n : nat) :
  let labels := (df_columns df).*1 in
  NoDup labels →
  (Forall (λ col, col ∈ labels) (d.*1) →
   ∃ c, DataFrameContainer.init df (DataFrameContainer.ByDict d) index_name n
        = (inr c, S n) ∧
        DataFrameContainer._col_name_dict c = d ∧
        DataFrameContainer._hash_key c = uuid.draw n) ∧
  (¬ Forall (λ col, col ∈ labels) (d.*1) →
   ∃ col, col ∈ d.*1 ∧ (col ∉ labels) ∧
          DataFrameContainer.init df (DataFrameContainer.ByDict d) index_name n
          = (inl (Py.Raise Py.KeyError col), n)) ∧
  (∃ c, DataFrameContainer.init df (DataFrameContainer.ByCallable f)
          index_name n = (inr c, S n) ∧
        DataFrameContainer._col_name_dict c = (λ k, (k, f k)) <$> labels ∧
        DataFrameContainer._hash_key c = uuid.draw n).
Proof.
  intros labels Hnd. unfold DataFrameContainer.init. split; [|split].
  - intros Hall.
    match goal with
    | |- context [DataFrameContainer.collect df ?g d ?acc] =>
        destruct (collect_all_present df g d acc Hall) as [desc ->]
    end.
    by eexists.
  - intros Hnot.
    match goal with
    | |- context [DataFrameContainer.collect df ?g d ?acc] =>
        destruct (collect_some_missing df g d acc Hnot)
          as (col & Hin & Hmiss & ->)
    end.
    by exists col.
  - fold labels. rewrite (renamed_columns f labels []) by
      (done || by intros k _ ?%elem_of_nil).
    rewrite app_nil_l.
    match goal with
    | |- context [DataFrameContainer.collect df ?g ?items ?acc] =>
        destruct (collect_all_present df g items acc) as [desc ->]
    end.
    + rewrite <- list_fmap_compose. apply Forall_fmap, Forall_forall.
      by intros k Hk.
    + by eexists.
Qed.

Lemma DataFrameContainer_init_checks_columns_witness :
  let labels := (df_columns example_df).*1 in
  let d := [("a", "x"); ("c", "y")] in
  let f := λ k : string, ("col_" +:+ k)%string in
  (Forall (λ col, col ∈ labels) (d.*1) →
   ∃ c, DataFrameContainer.init (H := example_uuids) example_df
          (DataFrameContainer.ByDict d) (Some "t") 0
        = (inr c, 1%nat) ∧
        DataFrameContainer._col_name_dict c = d ∧
        DataFrameContainer._hash_key c = example_uuids 0%nat) ∧
  (¬ Forall (λ col, col ∈ labels) (d.*1) →
   ∃ col, col ∈ d.*1 ∧ (col ∉ labels) ∧
          DataFrameContainer.init (H := example_uuids) example_df
            (DataFrameContainer.ByDict d) (Some "t") 0
          = (inl (Py.Raise Py.KeyError col), 0%nat)) ∧
  (∃ c, DataFrameContainer.init (H := example_uuids) example_df
          (DataFrameContainer.ByCallable f) (Some "t") 0 = (inr c, 1%nat) ∧
        DataFrameContainer._col_name_dict c = (λ k, (k, f k)) <$> labels ∧
        DataFrameContainer._hash_key c = example_uuids 0%nat).
Proof.
  intros labels d f.
  apply (DataFrameContainer_init_checks_columns (H := example_uuids)
           example_df d f (Some "t") 0).
  apply (bool_decide_unpack (NoDup ["a"; "b"])). by vm_compute.
Defined.

(** ** [RandomContainer] *)

Section random_container.
Context `{RandomContainer.Normal} `{uuid.Source}.

Lemma draw_all_ints (shapes : list (string * Z)) acc w :
  Forall (λ n, 0 ≤ n) shapes.*2 →
  ∃ values,
    RandomContainer.draw_all
      (RandomContainer._desc
         (RandomContainer.init
            (prod_map id RandomContainer.ShapeInt <$> shapes))) acc w
    = (inr values,
       RandomContainer.World
         (RandomContainer.normals w
          + foldr (λ n t, Z.to_nat n + t)%nat 0%nat shapes.*2)
         (RandomContainer.uuids w)) ∧
    dom values = dom acc ∪ list_to_set shapes.*1 ∧
    (∀ k, k ∉ shapes.*1 → values !! k = acc !! k) ∧
    (NoDup shapes.*1 →
     ∀ k n, (k, n) ∈ shapes →
       ∃ v, values !! k = Some v ∧ len v = Z.to_nat n).
Proof.
  revert acc w. induction shapes as [|[k n] shapes IH]; intros acc w; csimpl.
  - intros _. exists acc. unfold Py.ret. split.
    { destruct w. simpl. by rewrite Nat.add_0_r. }
    split; [by rewrite (right_id_L ∅ (∪))|]. split; [done|].
    by intros _ k n ?%elem_of_nil.
  - intros [Hn Hrest]%Forall_cons.
    unfold Py.bind. rewrite bool_decide_eq_false_2 by lia.
    destruct (IH (<[k := array1d (RandomContainer.normal_draw <$>
                                    seq (RandomContainer.normals w) (Z.to_nat n))]> acc)
                (RandomContainer.World (RandomContainer.normals w + Z.to_nat n)
                   (RandomContainer.uuids w)) Hrest)
      as (values & Hrun & Hdom & Hother & Hlen).
    exists values. split.
    { unfold RandomContainer.init in Hrun. simpl in Hrun. rewrite Hrun. simpl.
      do 2 f_equal. lia. }
    split.
    { rewrite Hdom, dom_insert_L.
      rewrite (comm_L (∪) {[k]} (dom acc)). by rewrite <- (assoc_L (∪)). }
    split.
    { intros k' [Hne Hnin]%not_elem_of_cons.
      rewrite (Hother k' Hnin). by rewrite lookup_insert_ne. }
    intros [Hk Hnd]%NoDup_cons k' n' [[= -> ->]|Hin]%elem_of_cons.
    + rewrite (Hother k Hk), lookup_insert_eq. eexists. split; [done|].
      unfold len. simpl. by rewrite length_fmap, length_seq.
    + by apply Hlen.
Qed.

Lemma draw_all_bad items acc w :
  Exists (λ kd, ∀ n, RandomContainer.shape kd.2 = RandomContainer.ShapeInt n → n < 0)
         items →
  ∃ cls msg w',
    RandomContainer.draw_all items acc w = (inl (Py.Raise cls msg), w') ∧
    RandomContainer.uuids w' = RandomContainer.uuids w ∧
    (cls = Py.TypeError ∨ cls = Py.ValueError) ∧
    (cls = Py.ValueError →
     ∃ k d n, (k, d) ∈ items ∧
              RandomContainer.shape d = RandomContainer.ShapeInt n ∧ n < 0).
Proof.
  revert acc w. induction items as [|[k d] items IH]; intros acc w.
  - by intros ?%Exists_nil.
  - intros Hex. simpl. unfold Py.bind at 1.
    destruct (RandomContainer.shape d) as [n| |] eqn:Hshape; simpl.
    + case_bool_decide as Hneg; simpl.
      * eexists _, _, _. split; [done|]. split; [done|]. split; [by right|].
        intros _. exists k, d, n. split; [left|done].
      * apply Exists_cons in Hex as [Hbad|Hex].
        { simpl in Hbad. specialize (Hbad n Hshape). lia. }
        destruct (IH (<[k := array1d (RandomContainer.normal_draw <$>
                                        seq (RandomContainer.normals w) (Z.to_nat n))]> acc)
                    (RandomContainer.World
                       (RandomContainer.normals w + Z.to_nat n)
                       (RandomContainer.uuids w)) Hex)
          as (cls & msg & w' & Hrun & Hu & Hcls & Hval).
        exists cls, msg, w'. split; [done|]. split; [done|]. split; [done|].
        intros Hc. destruct (Hval Hc) as (k' & d' & n' & Hin & Hs & Hn).
        exists k', d', n'. split; [by right|done].
    + eexists _, _, _. split; [done|]. split; [done|]. split; [by left|done].
    + eexists _, _, _. split; [done|]. split; [done|]. split; [by left|done].
Qed.

(** X16: a [RandomContainer] built with a non-negative integer per name
    answers every query with, under each name [describe] lists, a fresh
    array of the declared length, and with a key of its own: two calls in a
    row return different keys (when the uuid supply does not repeat), so
    nothing a client caches under a key is ever found again. *)
Theorem RandomContainer_query_draws_declared_lengths
    (shapes : list (string * Z)) (q q' : query_args)
    (w : RandomContainer.world) :
  let c := RandomContainer.init
             (prod_map id RandomContainer.ShapeInt <$> shapes) in
  (∀ i j, uuid.draw i = uuid.draw j → i = j) →
  NoDup (shapes.*1) →
  Forall (λ n, 0 ≤ n) (shapes.*2) →
  ∃ values values' w1 w2 key key',
    RandomContainer.query c q w = (inr (values, key), w1) ∧
    RandomContainer.query c q' w1 = (inr (values', key'), w2) ∧
    key ≠ key' ∧
    dom values = list_to_set ((RandomContainer.describe c).*1) ∧
    dom values' = dom values ∧
    ∀ k d, (k, d) ∈ RandomContainer.describe c →
      ∃ n v v', RandomContainer.shape d = RandomContainer.ShapeInt n ∧
                values !! k = Some v ∧ len v = Z.to_nat n ∧
                values' !! k = Some v' ∧ len v' = Z.to_nat n.
Proof.
  intros c Hfresh Hnd Hpos.
  destruct (draw_all_ints shapes ∅ w Hpos) as (values & Hrun & Hdom & _ & Hlen).
  set (w1 := RandomContainer.World
               (RandomContainer.normals w
                + foldr (λ n t, Z.to_nat n + t)%nat 0%nat shapes.*2)
               (S (RandomContainer.uuids w))).
  destruct (draw_all_ints shapes ∅ w1 Hpos)
    as (values' & Hrun' & Hdom' & _ & Hlen').
  assert (Hnames : (RandomContainer.describe c).*1 = shapes.*1).
  { unfold c, RandomContainer.describe, RandomContainer.init. simpl.
    rewrite <- !list_fmap_compose. apply list_fmap_ext. by intros i [k n]. }
  eexists values, values', w1, _, (uuid.draw (RandomContainer.uuids w)),
    (uuid.draw (S (RandomContainer.uuids w))).
  split.
  { unfold RandomContainer.query, Py.bind. fold c in Hrun. by rewrite Hrun. }
  split.
  { unfold RandomContainer.query, Py.bind. fold c in Hrun'. by rewrite Hrun'. }
  split.
  { intros Heq%Hfresh. lia. }
  rewrite Hnames, Hdom, Hdom', dom_empty_L, !(left_id_L ∅ (∪)).
  split; [done|]. split; [done|].
  intros k d Hin. unfold c, RandomContainer.describe, RandomContainer.init in Hin.
  simpl in Hin. rewrite <- list_fmap_compose in Hin.
  apply list_elem_of_fmap in Hin as ([k' n] & [= -> ->] & Hin).
  destruct (Hlen Hnd k' n Hin) as (v & Hv & Hvlen).
  destruct (Hlen' Hnd k' n Hin) as (v' & Hv' & Hvlen').
  by exists n, v, v'.
Qed.

End random_container.

Lemma RandomContainer_query_draws_declared_lengths_witness :
  let shapes : list (string * Z) := [("x", 3); ("y", 0)] in
  let w := RandomContainer.World 0 0 in
  let c := RandomContainer.init
             (prod_map id RandomContainer.ShapeInt <$> shapes) in
  ∃ values values' w1 w2 key key',
    RandomContainer.query (H := example_normals) (H0 := example_uuids)
      c (example_window 0 1) w = (inr (values, key), w1) ∧
    RandomContainer.query (H := example_normals) (H0 := example_uuids)
      c (example_window 1 2) w1 = (inr (values', key'), w2) ∧
    key ≠ key' ∧
    dom values = list_to_set ((RandomContainer.describe c).*1) ∧
    dom values' = dom values ∧
    ∀ k d, (k, d) ∈ RandomContainer.describe c →
      ∃ n v v', RandomContainer.shape d = RandomContainer.ShapeInt n ∧
                values !! k = Some v ∧ len v = Z.to_nat n ∧
                values' !! k = Some v' ∧ len v' = Z.to_nat n.
Proof.
  intros shapes w c.
  apply (RandomContainer_query_draws_declared_lengths (H := example_normals)
           (H0 := example_uuids) shapes (example_window 0 1)
           (example_window 1 2) w).
  - intros i j Hij. exact (pretty_nat_inj i j Hij).
  - apply (bool_decide_unpack (NoDup ["x"; "y"])). by vm_compute.
  - simpl. repeat (apply Forall_cons_2; [lia|]). apply Forall_nil_2.
Defined.

(** X17: [query] hands every stored shape to [np.random.randn] as one
    argument, so a shape that is not a single non-negative integer - a list
    such as [[3]], the form the other containers declare, a string, or a
    negative number - makes [query] raise: [TypeError], or [ValueError] for
    a negative number.  No uuid is drawn by the failed call. *)
Theorem RandomContainer_query_bad_shape_raises
    `{RandomContainer.Normal} `{uuid.Source}
    (shapes : list (string * RandomContainer.shape_arg)) (q : query_args)
    (w : RandomContainer.world) :
  Exists (λ ks, ∀ n, ks.2 = RandomContainer.ShapeInt n → n < 0) shapes →
  ∃ cls msg w',
    RandomContainer.query (RandomContainer.init shapes) q w
    = (inl (Py.Raise cls msg), w') ∧
    RandomContainer.uuids w' = RandomContainer.uuids w ∧
    (cls = Py.TypeError ∨ cls = Py.ValueError) ∧
    (cls = Py.ValueError →
     ∃ k n, (k, RandomContainer.ShapeInt n) ∈ shapes ∧ n < 0).
Proof.
  intros Hex.
  destruct (draw_all_bad (RandomContainer._desc (RandomContainer.init shapes))
              ∅ w) as (cls & msg & w' & Hrun & Hu & Hcls & Hval).
  { unfold RandomContainer.init. simpl. apply Exists_fmap.
    eapply Exists_impl; [exact Hex|]. by intros [k s]. }
  exists cls, msg, w'. split.
  { unfold RandomContainer.query, Py.bind. by rewrite Hrun. }
  split; [done|]. split; [done|].
  intros Hc. destruct (Hval Hc) as (k & d & n & Hin & Hs & Hn).
  unfold RandomContainer.init in Hin. simpl in Hin.
  apply list_elem_of_fmap in Hin as ([k' s] & [= -> ->] & Hin).
  simpl in Hs. subst s. by exists k', n.
Qed.

Lemma RandomContainer_query_bad_shape_raises_witness :
  let shapes := [("x", RandomContainer.ShapeInt 3);
                 ("y", RandomContainer.ShapeList [DimInt 3])] in
  let w := RandomContainer.World 0 0 in
  ∃ cls msg w',
    RandomContainer.query (H := example_normals) (H0 := example_uuids)
      (RandomContainer.init shapes) (example_window 0 1) w
    = (inl (Py.Raise cls msg), w') ∧
    RandomContainer.uuids w' = RandomContainer.uuids w ∧
    (cls = Py.TypeError ∨ cls = Py.ValueError) ∧
    (cls = Py.ValueError →
     ∃ k n, (k, RandomContainer.ShapeInt n) ∈ shapes ∧ n < 0).
Proof.
  intros shapes w.
  apply (RandomContainer_query_bad_shape_raises (H := example_normals)
           (H0 := example_uuids) shapes (example_window 0 1) w).
  apply Exists_cons_tl, Exists_cons_hd. by intros n.
Defined.

(** ** [examples/mapped.py] *)

(** X18: the category each of the example's lines is given is one the
    line-style table has an entry for, whatever the index of the line, so
    the ["ls"] converter never raises [KeyError] there - which it does for
    any other category; the line width grows by one per index and is capped
    at 5. *)
Theorem mapped_line_style_defined (j : Z) :
  (∃ c s, mapped.cat j = inr c ∧ mapped.ls c = inr s ∧ s ∈ ["-"; ":"; "--"]) ∧
  (∀ c, c ∉ ["A"; "B"; "C"] → mapped.ls c = inl (Py.Raise Py.KeyError c)) ∧
  mapped.lw j ≤ 5 ∧
  (j ≤ 4 → mapped.lw j = 1 + j) ∧
  (4 ≤ j → mapped.lw j = 5).
Proof.
  split; [|split; [|split; [|split]]].
  - unfold mapped.cat. pose proof (Z.mod_pos_bound j 3 ltac:(lia)) as Hr.
    repeat case_bool_decide; try lia.
    + exists "A", "-". split; [done|]. split; [done|]. left.
    + exists "B", ":". split; [done|]. split; [done|]. right. left.
    + exists "C", "--". split; [done|]. split; [done|]. right. right. left.
  - intros c Hc. unfold mapped.ls.
    repeat case_bool_decide; subst; try done; exfalso; apply Hc.
    + left.
    + right. left.
    + right. right. left.
  - unfold mapped.lw. lia.
  - unfold mapped.lw. lia.
  - unfold mapped.lw. lia.
Qed.

